(** * PMDA package-insert tool: collection and download core

    A shallow embedding of [pmda_tool_with_settings.py] (URL derivation,
    listing scraper, collection loop, CSV store, allow-list loader and
    download loop), with the properties of its specification stated and
    settled against the embedding.

    Python [str] values are sequences of Unicode code points; they are
    modelled as [list N], so that slicing ([name[:10]]) and [strip] count
    characters the way Python does.  String literals of the source are
    written as UTF-8 Rocq strings and decoded by [u]. *)

From Stdlib Require Import String Ascii NArith Lia.
From stdpp Require Import gmap list.

Local Open Scope N_scope.
Local Open Scope nat_scope.

(** ** Python strings *)

Module Py.

Definition str := list N.

(** UTF-8 decoding of a literal: one byte at a time, with the number of
    continuation bytes still expected and the bits gathered so far. *)
Definition utf8_step (st : list N * option (nat * N)) (b : N)
  : list N * option (nat * N) :=
  match st with
  | (out, None) =>
      if (b <? 128)%N then (out ++ [b], None)
      else if (b <? 224)%N then (out, Some (0, N.land b 31))
      else if (b <? 240)%N then (out, Some (1, N.land b 15))
      else (out, Some (2, N.land b 7))
  | (out, Some (k, acc)) =>
      let acc' := (acc * 64 + N.land b 63)%N in
      match k with
      | O => (out ++ [acc'], None)
      | S k' => (out, Some (k', acc'))
      end
  end.

Definition u (s : string) : str :=
  fst (fold_left utf8_step (map N_of_ascii (list_ascii_of_string s)) ([], None)).
Arguments u s%_string : simpl never.

(** A one-character literal. *)
Definition ch (s : string) : N := hd 0%N (u s).
Arguments ch s%_string : simpl never.

(** Truthiness of a [str]: non-empty. *)
Definition truthy (s : str) : bool :=
  match s with [] => false | _ => true end.

Definition eqb (a b : str) : bool := bool_decide (a = b).

Fixpoint startswith (p s : str) : bool :=
  match p, s with
  | [], _ => true
  | a :: p', b :: s' => (a =? b)%N && startswith p' s'
  | _ :: _, [] => false
  end.

(** [needle in s] *)
Fixpoint contains (needle s : str) : bool :=
  startswith needle s ||
  match s with
  | [] => false
  | _ :: s' => contains needle s'
  end.

(** [s.replace(old, new)]: non-overlapping occurrences, left to right.
    [skip] counts the characters of a match still to be dropped.  With an
    empty [old] Python inserts [new] before every character and at the
    end. *)
Fixpoint replace_from (old new : str) (skip : nat) (s : str) : str :=
  match s with
  | [] => []
  | c :: s' =>
      match skip with
      | S k => replace_from old new k s'
      | O =>
          if startswith old s
          then new ++ replace_from old new (length old - 1) s'
          else c :: replace_from old new 0 s'
      end
  end.

Definition replace (old new s : str) : str :=
  match old with
  | [] => new ++ flat_map (fun c => c :: new) s
  | _ => replace_from old new 0 s
  end.

Fixpoint lstrip_by (p : N -> bool) (s : str) : str :=
  match s with
  | [] => []
  | c :: s' => if p c then lstrip_by p s' else s
  end.

Definition rstrip_by (p : N -> bool) (s : str) : str :=
  rev (lstrip_by p (rev s)).

Definition strip_by (p : N -> bool) (s : str) : str :=
  rstrip_by p (lstrip_by p s).

(** [s.strip(chars)] and [s.rstrip(chars)] *)
Definition strip_chars (chars s : str) : str :=
  strip_by (fun c => bool_decide (c ∈ chars)) s.
Definition rstrip_chars (chars s : str) : str :=
  rstrip_by (fun c => bool_decide (c ∈ chars)) s.

(** [str.isspace] on one code point (the Unicode white-space set of
    CPython). *)
Definition isspace (c : N) : bool :=
  ((9 <=? c) && (c <=? 13) || (28 <=? c) && (c <=? 32)
   || (c =? 133) || (c =? 160) || (c =? 5760)
   || (8192 <=? c) && (c <=? 8202)
   || (c =? 8232) || (c =? 8233) || (c =? 8239) || (c =? 8287)
   || (c =? 12288))%N.

(** [s.strip()] *)
Definition strip (s : str) : str := strip_by isspace s.

(** [s.split(sep)] for a one-character separator: never empty. *)
Fixpoint split (sep : N) (s : str) : list str :=
  match s with
  | [] => [[]]
  | c :: s' =>
      if (c =? sep)%N then [] :: split sep s'
      else match split sep s' with
           | h :: t => (c :: h) :: t
           | [] => [[c]]
           end
  end.

(** [s[:n]] *)
Definition slice_to (n : nat) (s : str) : str := take n s.

(** [str(n)] for a non-negative integer. *)
Fixpoint of_uint (d : Decimal.uint) : str :=
  match d with
  | Decimal.Nil => []
  | Decimal.D0 d => 48%N :: of_uint d
  | Decimal.D1 d => 49%N :: of_uint d
  | Decimal.D2 d => 50%N :: of_uint d
  | Decimal.D3 d => 51%N :: of_uint d
  | Decimal.D4 d => 52%N :: of_uint d
  | Decimal.D5 d => 53%N :: of_uint d
  | Decimal.D6 d => 54%N :: of_uint d
  | Decimal.D7 d => 55%N :: of_uint d
  | Decimal.D8 d => 56%N :: of_uint d
  | Decimal.D9 d => 57%N :: of_uint d
  end.

Definition of_nat (n : nat) : str := of_uint (Nat.to_uint n).

(** Outcome of a call that may raise: the value, or the exception text. *)
Inductive result (A : Type) : Type :=
| Ok (a : A)
| Raise (msg : str).
Arguments Ok {A} a.
Arguments Raise {A} msg.

End Py.

Abbreviation pystr := Py.str.
Abbreviation u := Py.u.
Abbreviation ch := Py.ch.

(** ** Constants and settings *)

Definition YGO_PACK_PREFIX : pystr := u "ygo/pack".
Definition YGO_PDF_PREFIX : pystr := u "ygo/pdf".
Definition PDF_EXTENSION : pystr := u ".pdf".
Definition CSV_FILENAME_PREFIX : pystr := u "pmda_list_".
Definition SECTION_LISTED : pystr := u "掲載".
Definition SECTION_DELETED : pystr := u "削除".

(** The fields of [app_settings] the core reads. *)
Record Settings := {
  base_url : pystr;
  detail_base_url : pystr;
}.

Definition DEFAULT_SETTINGS : Settings := {|
  base_url := u "https://www.info.pmda.go.jp/ysearch/tenpulist.jsp?DATE=";
  detail_base_url := u "https://www.info.pmda.go.jp";
|}.

(** ** URL deriver *)

(** [ygo, pack = YGO_PACK_PREFIX.split("/")] raises unless the split has
    exactly two parts. *)
Definition unpack2 (l : list pystr) : Py.result (pystr * pystr) :=
  match l with
  | [a; b] => Py.Ok (a, b)
  | _ => Py.Raise (u "ValueError")
  end.

Definition convert_detail_url_to_pdf (cfg : Settings) (detail_url : pystr)
  : Py.result pystr :=
  if negb (Py.truthy detail_url) then Py.Ok []
  else
    let path := Py.replace (detail_base_url cfg) [] detail_url in
    let parts := Py.split (ch "/") (Py.strip_chars (u "/") path) in
    match unpack2 (Py.split (ch "/") YGO_PACK_PREFIX) with
    | Py.Raise e => Py.Raise e
    | Py.Ok (ygo, pack) =>
        if (4 <=? length parts)
           && bool_decide (parts !! 0 = Some ygo)
           && bool_decide (parts !! 1 = Some pack)
        then
          let company_id := default [] (parts !! 2) in
          let doc_id := default [] (parts !! 3) in
          Py.Ok (detail_base_url cfg ++ u "/" ++ YGO_PDF_PREFIX ++ u "/"
                 ++ company_id ++ u "_" ++ doc_id ++ u "/")
        else Py.Ok []
    end.

Definition convert_detail_url_to_body_url (cfg : Settings) (detail_url : pystr)
  : Py.result pystr :=
  if negb (Py.truthy detail_url) then Py.Ok []
  else
    let path := Py.replace (detail_base_url cfg) [] detail_url in
    let parts := Py.split (ch "/") (Py.strip_chars (u "/") path) in
    match unpack2 (Py.split (ch "/") YGO_PACK_PREFIX) with
    | Py.Raise e => Py.Raise e
    | Py.Ok (ygo, pack) =>
        if (4 <=? length parts)
           && bool_decide (parts !! 0 = Some ygo)
           && bool_decide (parts !! 1 = Some pack)
        then
          let doc_id := default [] (parts !! 3) in
          Py.Ok (Py.rstrip_chars (u "/") detail_url ++ u "/" ++ doc_id
                 ++ u "?view=body")
        else Py.Ok []
    end.

(** ** Effects

    The core runs on one worker thread.  What it observes of the outside
    is indexed by a clock [tick] that advances at every observation: a
    read of the cancellation flag or an HTTP request.  The flag is an
    oracle [nat -> bool] (its value at each instant, as set by the
    controlling thread); the network is a family of oracles giving the
    response to a request sent at an instant.  The world also holds the
    log sink, the list of requests sent, and the files.  Files hold their
    content after the codec: text for the CSV files (the [utf-8-sig]
    codec adds the marker on writing and removes it on reading), bytes
    for the downloads. *)

Record world := {
  tick : nat;                 (* observations made so far *)
  logs : list pystr;          (* lines given to the log sink *)
  sent : list pystr;          (* addresses requested, oldest first *)
  fs : gmap pystr (list N);   (* files: path to content *)
}.

Definition set_tick (n : nat) (w : world) : world :=
  {| tick := n; logs := logs w; sent := sent w; fs := fs w |}.
Definition set_logs (l : list pystr) (w : world) : world :=
  {| tick := tick w; logs := l; sent := sent w; fs := fs w |}.
Definition set_fs (f : gmap pystr (list N)) (w : world) : world :=
  {| tick := tick w; logs := logs w; sent := sent w; fs := f |}.
(** A request goes out: the clock advances and the address is noted. *)
Definition request (url : pystr) (w : world) : world :=
  {| tick := S (tick w); logs := logs w; sent := sent w ++ [url];
     fs := fs w |}.

Definition M (A : Type) : Type := world -> Py.result A * world.

Definition ret {A} (a : A) : M A := fun w => (Py.Ok a, w).
Definition raise {A} (e : pystr) : M A := fun w => (Py.Raise e, w).
Definition bind {A B} (m : M A) (k : A -> M B) : M B :=
  fun w =>
    match m w with
    | (Py.Ok a, w') => k a w'
    | (Py.Raise e, w') => (Py.Raise e, w')
    end.
(** [try: m except Exception as e: h e] *)
Definition try_except {A} (m : M A) (h : pystr -> M A) : M A :=
  fun w =>
    match m w with
    | (Py.Ok a, w') => (Py.Ok a, w')
    | (Py.Raise e, w') => h e w'
    end.
Definition lift {A} (r : Py.result A) : M A := fun w => (r, w).

Notation "x <-- m ;; k" := (bind m (fun x => k))
  (at level 100, m at next level, right associativity).
Notation "m ;;; k" := (bind m (fun _ => k))
  (at level 100, right associativity).

(** [self.log(msg)] / [log_callback(msg)]: one more line in the sink. *)
Definition log (msg : pystr) : M unit :=
  fun w => (Py.Ok tt, set_logs (logs w ++ [msg]) w).
(** [if log_callback: log_callback(msg)] *)
Definition log_if (log_callback : bool) (msg : pystr) : M unit :=
  if log_callback then log msg else ret tt.
(** [time.sleep(...)]: blocks the worker; nothing else changes. *)
Definition sleep : M unit := ret tt.
(** One read of [self.is_running]. *)
Definition read_flag (flag : nat -> bool) : M bool :=
  fun w => (Py.Ok (flag (tick w)), set_tick (S (tick w)) w).
(** [cancel_check and not cancel_check()] *)
Definition stop_requested (cancel_check : option (nat -> bool)) : M bool :=
  match cancel_check with
  | None => ret false
  | Some flag => b <-- read_flag flag ;; ret (negb b)
  end.

(** ** Listing pages as the scraper sees them

    What [BeautifulSoup] hands to [scrape_date]: the document in
    document order, reduced to its level-2 headings and its tables.  A
    cell carries its stripped text and its first link, if any. *)

Record anchor := {
  a_text : pystr;            (* get_text(strip=True) *)
  a_href : option pystr;     (* the href attribute, when present *)
}.

Record td := {
  td_text : pystr;           (* get_text(strip=True) *)
  td_a : option anchor;      (* find('a') *)
}.

Definition tr := list td.    (* row.find_all('td') *)

Inductive node :=
| H2 (text : pystr)          (* get_text() of the heading *)
| Table (rows : list tr)     (* table.find_all('tr') *)
| Other.

Definition html := list node.

(** [soup.find_all('table')], each table with [table.find_previous('h2')]:
    the nearest heading before it in document order. *)
Fixpoint find_all_table (prev_h2 : option pystr) (doc : html)
  : list (option pystr * list tr) :=
  match doc with
  | [] => []
  | H2 t :: doc' => find_all_table (Some t) doc'
  | Table rows :: doc' => (prev_h2, rows) :: find_all_table prev_h2 doc'
  | Other :: doc' => find_all_table prev_h2 doc'
  end.

(** The detail body page: for each label, the stripped text of the block
    after the [h3.section_header] with that exact text, when both exist. *)
Record body_page := {
  certification_div : option pystr;
  approval_div : option pystr;
}.

(** A listing record: the dictionary built by [scrape_date], with its
    nine keys. *)
Record ListingRecord := {
  r_date : pystr;            (* 日付 *)
  r_section : pystr;         (* 区分 *)
  r_product : pystr;         (* 販売名 *)
  r_company : pystr;         (* 企業名 *)
  r_reason : pystr;          (* 理由 *)
  r_approval : pystr;        (* 承認番号 *)
  r_certification : pystr;   (* 認証番号 *)
  r_detail_url : pystr;      (* 詳細URL *)
  r_pdf_url : pystr;         (* PDF_URL *)
}.

(** Leaving a loop body: go on, or [return results] from the function. *)
Inductive flow := Running | Returned.

Section Collection.

Variable cfg : Settings.
(** [requests.get(url)] followed by the parse, for a request sent at the
    given instant: the page, or the exception raised. *)
Variable get_listing : nat -> pystr -> Py.result html.
Variable get_body : nat -> pystr -> Py.result body_page.

Definition requests_get_listing (url : pystr) : M html :=
  fun w => (get_listing (tick w) url, request url w).
Definition requests_get_body (url : pystr) : M body_page :=
  fun w => (get_body (tick w) url, request url w).

Definition fetch_approval_number (detail_url : pystr) (log_callback : bool)
  : M (pystr * pystr) :=
  body_url <-- lift (convert_detail_url_to_body_url cfg detail_url) ;;
  if negb (Py.truthy body_url) then ret ([], [])
  else
    try_except
      (page <-- requests_get_body body_url ;;
       let certification_no := default [] (certification_div page) in
       let approval_no := default [] (approval_div page) in
       ret (approval_no, certification_no))
      (fun e =>
         log_if log_callback (u "    番号取得エラー: " ++ e) ;;;
         ret ([], [])).

(** One iteration of [for row in rows]: [None] when the function returns
    at a cancellation checkpoint, otherwise the records appended. *)
Definition scrape_row (date_str : pystr) (fetch_numbers log_callback : bool)
    (cancel_check : option (nat -> bool)) (current_section : pystr)
    (cells : tr) : M (option (list ListingRecord)) :=
  stop <-- stop_requested cancel_check ;;
  if stop then ret None
  else
    match cells with
    | name_cell :: company_cell :: reason_cell :: _ =>
        let product_name :=
          match td_a name_cell with
          | Some name_link => a_text name_link
          | None => td_text name_cell
          end in
        let detail_url :=
          match td_a name_cell with
          | Some name_link =>
              detail_base_url cfg ++ default [] (a_href name_link)
          | None => []
          end in
        let company :=
          Py.replace (u "製造販売／") [] (td_text company_cell) in
        let reason := td_text reason_cell in
        pdf_url <-- lift (convert_detail_url_to_pdf cfg detail_url) ;;
        let emit approval_no certification_no :=
          if Py.truthy product_name
             && negb (Py.eqb product_name (u "販売名"))
          then [ {| r_date := date_str; r_section := current_section;
                    r_product := product_name; r_company := company;
                    r_reason := reason; r_approval := approval_no;
                    r_certification := certification_no;
                    r_detail_url := detail_url; r_pdf_url := pdf_url |} ]
          else [] in
        if fetch_numbers && Py.truthy detail_url
           && Py.eqb current_section SECTION_LISTED
        then
          stop <-- stop_requested cancel_check ;;
          if stop then ret None
          else
            log_if log_callback
              (u "    番号取得中: " ++ Py.slice_to 30 product_name ++ u "...") ;;;
            numbers <-- fetch_approval_number detail_url log_callback ;;
            sleep ;;;
            ret (Some (emit (fst numbers) (snd numbers)))
        else ret (Some (emit [] []))
    | _ => ret (Some [])
    end.

Fixpoint scrape_rows (date_str : pystr) (fetch_numbers log_callback : bool)
    (cancel_check : option (nat -> bool)) (current_section : pystr)
    (rows : list tr) (results : list ListingRecord)
  : M (list ListingRecord * flow) :=
  match rows with
  | [] => ret (results, Running)
  | row :: rows' =>
      out <-- scrape_row date_str fetch_numbers log_callback cancel_check
                current_section row ;;
      match out with
      | None => ret (results, Returned)
      | Some new =>
          scrape_rows date_str fetch_numbers log_callback cancel_check
            current_section rows' (results ++ new)
      end
  end.

(** The section a table is scraped under: re-assigned when the nearest
    heading before the table names a section, left as it was otherwise. *)
Definition update_section (current_section : option pystr)
    (prev_h2 : option pystr) : option pystr :=
  match prev_h2 with
  | Some text =>
      if Py.contains (u "掲載分") text then Some SECTION_LISTED
      else if Py.contains (u "削除分") text then Some SECTION_DELETED
      else current_section
  | None => current_section
  end.

Fixpoint scrape_tables (date_str : pystr) (fetch_numbers log_callback : bool)
    (cancel_check : option (nat -> bool)) (current_section : option pystr)
    (tables : list (option pystr * list tr)) (results : list ListingRecord)
  : M (list ListingRecord * flow) :=
  match tables with
  | [] => ret (results, Running)
  | (prev_h2, rows) :: tables' =>
      let current_section := update_section current_section prev_h2 in
      match current_section with
      | None =>
          scrape_tables date_str fetch_numbers log_callback cancel_check
            current_section tables' results
      | Some section =>
          out <-- scrape_rows date_str fetch_numbers log_callback
                    cancel_check section rows results ;;
          match snd out with
          | Returned => ret out
          | Running =>
              scrape_tables date_str fetch_numbers log_callback cancel_check
                current_section tables' (fst out)
          end
      end
  end.

Definition scrape_date (date_str : pystr) (fetch_numbers log_callback : bool)
    (cancel_check : option (nat -> bool)) : M (list ListingRecord) :=
  let url := base_url cfg ++ Py.replace (u "-") [] date_str in
  try_except
    (soup <-- requests_get_listing url ;;
     let tables := find_all_table None soup in
     out <-- scrape_tables date_str fetch_numbers log_callback cancel_check
               None tables [] ;;
     ret (fst out))
    (fun e =>
       log_if log_callback (u "  エラー: " ++ e) ;;;
       ret []).

(** The body of the loop of [ScrapeTab._collect_data] for one date,
    after the cancellation check: position [i] of [total]. *)
Definition collect_date (is_running : nat -> bool) (fetch_nums : bool)
    (total i : nat) (date_str : pystr) : M (list ListingRecord) :=
  log (u "[" ++ Py.of_nat i ++ u "/" ++ Py.of_nat total ++ u "] "
       ++ date_str ++ u " 収集中...") ;;;
  results <-- scrape_date date_str fetch_nums true (Some is_running) ;;
  log (u "  → " ++ Py.of_nat (length results) ++ u "件取得") ;;;
  sleep ;;;
  ret results.

(** [ScrapeTab._collect_data]: the loop over the dates, from position [i]
    of [total], with the records accumulated so far. *)
Fixpoint collect_loop (is_running : nat -> bool) (fetch_nums : bool)
    (total i : nat) (dates : list pystr) (all_results : list ListingRecord)
  : M (list ListingRecord) :=
  match dates with
  | [] => ret all_results
  | date_str :: dates' =>
      running <-- read_flag is_running ;;
      if negb running then ret all_results
      else
        results <-- collect_date is_running fetch_nums total i date_str ;;
        collect_loop is_running fetch_nums total (S i) dates'
          (all_results ++ results)
  end.

Definition _collect_data (is_running : nat -> bool) (dates : list pystr)
    (fetch_nums : bool) : M (list ListingRecord) :=
  collect_loop is_running fetch_nums (length dates) 1 dates [].

End Collection.

(** ** The [csv] module, [excel] dialect

    Delimiter comma, quote character the double quote (doubled inside a
    quoted field), line terminator CR LF, minimal quoting, no escape
    character, not strict. *)

Module Csv.

Definition COMMA : N := 44%N.
Definition QUOTE : N := 34%N.
Definition CR : N := 13%N.
Definition LF : N := 10%N.
Definition field_size_limit : N := 131072%N.

(** *** Writer *)

Definition needs_quotes (field : pystr) : bool :=
  existsb (fun c => (c =? COMMA)%N || (c =? QUOTE)%N
                    || (c =? CR)%N || (c =? LF)%N) field.

Definition double_quotes (field : pystr) : pystr :=
  flat_map (fun c => if (c =? QUOTE)%N then [QUOTE; QUOTE] else [c]) field.

Definition write_field (field : pystr) : pystr :=
  if needs_quotes field then QUOTE :: double_quotes field ++ [QUOTE]
  else field.

Fixpoint join (sep : N) (l : list pystr) : pystr :=
  match l with
  | [] => []
  | [x] => x
  | x :: l' => x ++ sep :: join sep l'
  end.

(** [writer.writerow(fields)]: a record made of one empty field is
    written as a pair of quotes. *)
Definition writerow (fields : list pystr) : pystr :=
  match fields with
  | [[]] => [QUOTE; QUOTE; CR; LF]
  | _ => join COMMA (map write_field fields) ++ [CR; LF]
  end.

(** *** Reader *)

Inductive parser_state :=
| START_RECORD | START_FIELD | IN_FIELD | IN_QUOTED_FIELD
| QUOTE_IN_QUOTED_FIELD | EAT_CRNL.

Record reader := {
  state : parser_state;
  field : pystr;             (* the characters of the current field *)
  fields : list pystr;       (* the fields of the current record *)
}.

Definition parse_reset : reader :=
  {| state := START_RECORD; field := []; fields := [] |}.

Definition set_state (s : parser_state) (r : reader) : reader :=
  {| state := s; field := field r; fields := fields r |}.

Definition parse_save_field (r : reader) : reader :=
  {| state := state r; field := []; fields := fields r ++ [field r] |}.

Definition parse_add_char (c : N) (r : reader) : Py.result reader :=
  if (field_size_limit <=? N.of_nat (length (field r)))%N
  then Py.Raise (u "field larger than field limit (131072)")
  else Py.Ok {| state := state r; field := field r ++ [c];
                fields := fields r |}.

Definition is_newline (c : N) : bool := (c =? LF)%N || (c =? CR)%N.

Definition in_quoted_field (r : reader) : bool :=
  match state r with IN_QUOTED_FIELD => true | _ => false end.

(** [parse_process_char]: one character, or the end of the line
    ([None]). *)
Definition start_field (c : option N) (r : reader) : Py.result reader :=
  match c with
  | None => Py.Ok (set_state START_RECORD (parse_save_field r))
  | Some c =>
      if is_newline c then Py.Ok (set_state EAT_CRNL (parse_save_field r))
      else if (c =? QUOTE)%N then Py.Ok (set_state IN_QUOTED_FIELD r)
      else if (c =? COMMA)%N then Py.Ok (parse_save_field r)
      else
        match parse_add_char c r with
        | Py.Ok r' => Py.Ok (set_state IN_FIELD r')
        | Py.Raise e => Py.Raise e
        end
  end.

Definition parse_process_char (c : option N) (r : reader)
  : Py.result reader :=
  match state r with
  | START_RECORD =>
      match c with
      | None => Py.Ok r
      | Some c' =>
          if is_newline c' then Py.Ok (set_state EAT_CRNL r)
          else start_field c (set_state START_FIELD r)
      end
  | START_FIELD => start_field c r
  | IN_FIELD =>
      match c with
      | None => Py.Ok (set_state START_RECORD (parse_save_field r))
      | Some c =>
          if is_newline c then Py.Ok (set_state EAT_CRNL (parse_save_field r))
          else if (c =? COMMA)%N
          then Py.Ok (set_state START_FIELD (parse_save_field r))
          else parse_add_char c r
      end
  | IN_QUOTED_FIELD =>
      match c with
      | None => Py.Ok r
      | Some c =>
          if (c =? QUOTE)%N then Py.Ok (set_state QUOTE_IN_QUOTED_FIELD r)
          else parse_add_char c r
      end
  | QUOTE_IN_QUOTED_FIELD =>
      match c with
      | None => Py.Ok (set_state START_RECORD (parse_save_field r))
      | Some c =>
          if (c =? QUOTE)%N then
            match parse_add_char c r with
            | Py.Ok r' => Py.Ok (set_state IN_QUOTED_FIELD r')
            | Py.Raise e => Py.Raise e
            end
          else if (c =? COMMA)%N
          then Py.Ok (set_state START_FIELD (parse_save_field r))
          else if is_newline c
          then Py.Ok (set_state EAT_CRNL (parse_save_field r))
          else
            match parse_add_char c r with
            | Py.Ok r' => Py.Ok (set_state IN_FIELD r')
            | Py.Raise e => Py.Raise e
            end
      end
  | EAT_CRNL =>
      match c with
      | None => Py.Ok (set_state START_RECORD r)
      | Some c =>
          if is_newline c then Py.Ok r
          else Py.Raise (u "new-line character seen in unquoted field - do you need to open the file with newline=''?")
      end
  end.

Fixpoint parse_line (line : pystr) (r : reader) : Py.result reader :=
  match line with
  | [] => parse_process_char None r
  | c :: line' =>
      match parse_process_char (Some c) r with
      | Py.Ok r' => parse_line line' r'
      | Py.Raise e => Py.Raise e
      end
  end.

(** [list(reader)]: a record is complete when the end of a line leaves
    the parser at the start of a record; at the end of the input an
    unfinished field or an open quote still yields a last record. *)
Fixpoint read_records (lines : list pystr) (r : reader)
  : Py.result (list (list pystr)) :=
  match lines with
  | [] =>
      if Py.truthy (field r) || in_quoted_field r
      then Py.Ok [fields (parse_save_field r)]
      else Py.Ok []
  | line :: lines' =>
      match parse_line line r with
      | Py.Raise e => Py.Raise e
      | Py.Ok r' =>
          match state r' with
          | START_RECORD =>
              match read_records lines' parse_reset with
              | Py.Ok rows => Py.Ok (fields r' :: rows)
              | Py.Raise e => Py.Raise e
              end
          | _ => read_records lines' r'
          end
      end
  end.

(** *** Text files *)

(** Reading in text mode with the default [newline=None]: CR LF and a
    lone CR both become LF. *)
Fixpoint universal_newlines (s : pystr) : pystr :=
  match s with
  | [] => []
  | c :: s' =>
      if (c =? CR)%N then
        match s' with
        | c' :: s'' =>
            if (c' =? LF)%N then LF :: universal_newlines s''
            else LF :: universal_newlines s'
        | [] => [LF]
        end
      else c :: universal_newlines s'
  end.

(** Iterating over a text file: the lines, each with its LF; the last
    one may lack it. *)
Fixpoint readlines (s : pystr) : list pystr :=
  match s with
  | [] => []
  | c :: s' =>
      if (c =? LF)%N then [c] :: readlines s'
      else match readlines s' with
           | line :: lines => (c :: line) :: lines
           | [] => [[c]]
           end
  end.

(** *** [DictReader] *)

(** A row: the cells by column name; [None] is the [restval] of a cell
    the line did not have.  (Cells beyond the header go under the key
    [None], which nothing here reads.) *)
Definition assign (d : gmap pystr (option pystr)) (kv : pystr * option pystr)
  : gmap pystr (option pystr) := <[kv.1 := kv.2]> d.

Fixpoint zip_cells (fieldnames row : list pystr)
  : list (pystr * option pystr) :=
  match fieldnames, row with
  | [], _ => []
  | k :: ks, v :: vs => (k, Some v) :: zip_cells ks vs
  | k :: ks, [] => (k, None) :: zip_cells ks []
  end.

Definition make_row (fieldnames row : list pystr)
  : gmap pystr (option pystr) :=
  fold_left assign (zip_cells fieldnames row) ∅.

Definition is_blank (row : list pystr) : bool :=
  match row with [] => true | _ => false end.

(** The header, if the input has a first record, and the rows built from
    the other records that are not blank lines. *)
Definition DictReader (text : pystr)
  : Py.result (option (list pystr) * list (gmap pystr (option pystr))) :=
  match read_records (readlines text) parse_reset with
  | Py.Raise e => Py.Raise e
  | Py.Ok [] => Py.Ok (None, [])
  | Py.Ok (fieldnames :: records) =>
      Py.Ok (Some fieldnames,
             map (make_row fieldnames)
                 (filter (fun row => is_blank row = false) records))
  end.

End Csv.

(** ** Tabular store, allow-list loader and download loop *)

Abbreviation row := (gmap pystr (option pystr)).

Definition CSV_FIELDNAMES : list pystr :=
  [u "日付"; u "区分"; u "販売名"; u "企業名"; u "理由"; u "承認番号";
   u "認証番号"; u "詳細URL"; u "PDF_URL"].

(** The values of a record in the order of [CSV_FIELDNAMES]. *)
Definition record_cells (r : ListingRecord) : list pystr :=
  [r_date r; r_section r; r_product r; r_company r; r_reason r;
   r_approval r; r_certification r; r_detail_url r; r_pdf_url r].

(** [d.get(key)] is [d !! key]: [None] when the key is absent,
    [Some None] when the cell is Python's [None].  [d.get(key, '')]: *)
Definition get_or_empty (d : row) (key : pystr) : option pystr :=
  match d !! key with
  | Some v => v
  | None => Some []
  end.

(** Truthiness of [d.get(key)]. *)
Definition get_truthy (d : row) (key : pystr) : bool :=
  match d !! key with
  | Some (Some s) => Py.truthy s
  | _ => false
  end.

(** [x.strip()] where [x] may be [None]. *)
Definition strip_cell (x : option pystr) : Py.result pystr :=
  match x with
  | Some s => Py.Ok (Py.strip s)
  | None => Py.Raise (u "'NoneType' object has no attribute 'strip'")
  end.

(** The HTTP response to a download request: the status, the chunks of
    the body that arrive, and the transport error that ends the stream,
    if any. *)
Record response := {
  status_code : nat;
  chunks : list (list N);
  stream_error : option pystr;
}.

Definition extract_doc_id_from_url (url : option pystr)
  : Py.result (option pystr) :=
  match url with
  | None => Py.Raise (u "'NoneType' object has no attribute 'strip'")
  | Some url =>
      let parts := Py.split (ch "/") (Py.strip_chars (u "/") url) in
      Py.Ok (last parts)
  end.

Definition invalid_chars : list N :=
  [92; 47; 58; 42; 63; 34; 60; 62; 124]%N.

(** [for char in invalid_chars: s = s.replace(char, '_')] *)
Definition sanitize (product_name_short : pystr) : pystr :=
  fold_left (fun s char => Py.replace [char] (u "_") s)
            invalid_chars product_name_short.

Definition make_filename (doc_id name : pystr) : pystr :=
  let product_name_short := sanitize (Py.slice_to 10 name) in
  if Py.truthy product_name_short
  then doc_id ++ u "_" ++ product_name_short ++ PDF_EXTENSION
  else doc_id ++ PDF_EXTENSION.

(** The file name [_download_files] derives for a row: [None] when the
    address gives no identifier and the row is passed over; an exception
    when the address or the name is Python's [None]. *)
Definition target_filename (r : row) : Py.result (option pystr) :=
  let name := get_or_empty r (u "販売名") in
  let url := get_or_empty r (u "PDF_URL") in
  match extract_doc_id_from_url url with
  | Py.Raise e => Py.Raise e
  | Py.Ok doc_id =>
      if negb (Py.truthy (default [] doc_id)) then Py.Ok None
      else
        match name with
        | None => Py.Raise (u "'NoneType' object is not subscriptable")
        | Some name => Py.Ok (Some (make_filename (default [] doc_id) name))
        end
  end.

Section Download.

(** [os.path.join] depends on the platform. *)
Variable path_join : pystr -> pystr -> pystr.
Variable get_download : nat -> pystr -> Py.result response.

Definition requests_get_download (url : pystr) : M response :=
  fun w => (get_download (tick w) url, request url w).

(** [open(path, 'w', newline='')] and one [write] of the whole text. *)
Definition write_text (path content : pystr) : M unit :=
  fun w => (Py.Ok tt, set_fs (<[path := content]> (fs w)) w).

(** [open(path, 'r')] (no [newline] argument) and the text read.  For a
    missing file the text of the error is that of the [FileNotFoundError]
    without the quotes Python puts round the path. *)
Definition read_text (path : pystr) : M pystr :=
  fun w =>
    match fs w !! path with
    | Some content => (Py.Ok (Csv.universal_newlines content), w)
    | None => (Py.Raise (u "[Errno 2] No such file or directory: " ++ path), w)
    end.

(** [open(path, 'wb')]: the file exists and is empty from here on. *)
Definition open_wb (path : pystr) : M unit :=
  fun w => (Py.Ok tt, set_fs (<[path := []]> (fs w)) w).

(** [f.write(chunk)] *)
Definition write_chunk (path : pystr) (chunk : list N) : M unit :=
  fun w =>
    (Py.Ok tt,
     set_fs (<[path := default [] (fs w !! path) ++ chunk]> (fs w)) w).

Definition os_path_exists (path : pystr) : M bool :=
  fun w => (Py.Ok (bool_decide (is_Some (fs w !! path))), w).

(** [ScrapeTab.save_results]; [ts] is the current time as formatted by
    [CSV_FILENAME_FORMAT]. *)
Definition save_results (ts : pystr) (results : list ListingRecord)
    (out_dir : pystr) : M pystr :=
  let output_path :=
    path_join out_dir (CSV_FILENAME_PREFIX ++ ts ++ u ".csv") in
  write_text output_path
    (Csv.writerow CSV_FIELDNAMES
     ++ flat_map (fun r => Csv.writerow (record_cells r)) results) ;;;
  log (u "保存完了: " ++ output_path) ;;;
  ret output_path.

(** [for chunk in response.iter_content(...): f.write(chunk)] *)
Fixpoint write_chunks (path : pystr) (cs : list (list N)) : M unit :=
  match cs with
  | [] => ret tt
  | c :: cs' => write_chunk path c ;;; write_chunks path cs'
  end.

Definition download_file (url save_path : pystr) : M (bool * option pystr) :=
  try_except
    (response <-- requests_get_download url ;;
     if status_code response =? 200 then
       open_wb save_path ;;;
       write_chunks save_path (chunks response) ;;;
       match stream_error response with
       | Some e => raise e
       | None => ret (true, None)
       end
     else
       ret (false,
            Some (u "HTTPエラー: " ++ Py.of_nat (status_code response))))
    (fun e => ret (false, Some e)).

(** The two columns found by the loop over the header: a later match
    replaces an earlier one. *)
Definition find_columns (fieldnames : list pystr)
  : option pystr * option pystr :=
  fold_left
    (fun cols col =>
       (if Py.contains (u "承認番号") col then Some col else fst cols,
        if Py.contains (u "認証番号") col then Some col else snd cols))
    fieldnames (None, None).

(** [col and row.get(col)], then [row[col].strip()] *)
Definition column_value (col : option pystr) (r : row) : option pystr :=
  match col with
  | Some c =>
      if Py.truthy c && get_truthy r c
      then match r !! c with
           | Some (Some s) => Some (Py.strip s)
           | _ => None
           end
      else None
  | None => None
  end.

Definition add_value (v : option pystr) (s : gset pystr) : gset pystr :=
  match v with
  | Some x => {[ x ]} ∪ s
  | None => s
  end.

Definition load_hospital_device_list (csv_path : pystr)
  : M (gset pystr * gset pystr) :=
  text <-- read_text csv_path ;;
  parsed <-- lift (Csv.DictReader text) ;;
  match fst parsed with
  | None => raise (u "'NoneType' object is not iterable")
  | Some fieldnames =>
      let cols := find_columns fieldnames in
      ret (fold_left
             (fun sets r =>
                (add_value (column_value (fst cols) r) (fst sets),
                 add_value (column_value (snd cols) r) (snd sets)))
             (snd parsed) (∅, ∅))
  end.

Definition _load_filter_lists (use_filter : bool) (hosp_csv : pystr)
  : M (gset pystr * gset pystr) :=
  if use_filter then
    log (u "病院リスト読み込み中...") ;;;
    try_except
      (sets <-- load_hospital_device_list hosp_csv ;;
       log (u "  対象: 承認番号" ++ Py.of_nat (size (fst sets))
            ++ u "件, 認証番号" ++ Py.of_nat (size (snd sets)) ++ u "件") ;;;
       ret sets)
      (fun e => log (u "リスト読み込みエラー: " ++ e) ;;; raise e)
  else ret (∅, ∅).

(** [r.get('区分') == SECTION_LISTED and r.get('PDF_URL')] *)
Definition is_target (r : row) : bool :=
  bool_decide (r !! u "区分" = Some (Some SECTION_LISTED))
  && get_truthy r (u "PDF_URL").

(** The loop [for r in targets] of the filtering branch. *)
Fixpoint filter_loop (target_approvals target_certs : gset pystr)
    (targets filtered : list row) : Py.result (list row) :=
  match targets with
  | [] => Py.Ok filtered
  | r :: targets' =>
      match strip_cell (get_or_empty r (u "承認番号")) with
      | Py.Raise e => Py.Raise e
      | Py.Ok an =>
          match strip_cell (get_or_empty r (u "認証番号")) with
          | Py.Raise e => Py.Raise e
          | Py.Ok cn =>
              if Py.truthy an && bool_decide (an ∈ target_approvals)
                 || Py.truthy cn && bool_decide (cn ∈ target_certs)
              then filter_loop target_approvals target_certs targets'
                     (filtered ++ [r])
              else filter_loop target_approvals target_certs targets' filtered
          end
      end
  end.

(** The part of [_load_and_filter_targets] after the file is read. *)
Definition filter_targets (rows : list row) (use_filter : bool)
    (target_approvals target_certs : gset pystr) : M (list row) :=
  let targets := filter (fun r => is_target r = true) rows in
  if use_filter then
    filtered <-- lift (filter_loop target_approvals target_certs targets []) ;;
    log (u "全" ++ Py.of_nat (length targets) ++ u "件中、病院リストと一致: "
         ++ Py.of_nat (length filtered) ++ u "件") ;;;
    ret filtered
  else ret targets.

(** The start of [_load_and_filter_targets]: the file is opened and
    [rows = list(reader)]. *)
Definition read_rows (csv_file : pystr) : M (list row) :=
  text <-- read_text csv_file ;;
  parsed <-- lift (Csv.DictReader text) ;;
  ret (snd parsed).

Definition _load_and_filter_targets (csv_file : pystr) (use_filter : bool)
    (target_approvals target_certs : gset pystr) : M (list row) :=
  rows <-- read_rows csv_file ;;
  filter_targets rows use_filter target_approvals target_certs.

(** [DownloadTab._download_files]: the loop from position [i] of [total]
    with the three tallies so far. *)
Fixpoint download_loop (is_running : nat -> bool) (pdf_dir : pystr)
    (skip_exist : bool) (total i : nat) (targets : list row)
    (tallies : nat * nat * nat) : M (nat * nat * nat) :=
  match targets with
  | [] => ret tallies
  | r :: targets' =>
      let '(success, fail, skipped) := tallies in
      running <-- read_flag is_running ;;
      if negb running then ret tallies
      else
        filename <-- lift (target_filename r) ;;
        match filename with
        | None =>
            download_loop is_running pdf_dir skip_exist total (S i)
              targets' tallies
        | Some filename =>
            let name := default [] (get_or_empty r (u "販売名")) in
            let url := default [] (get_or_empty r (u "PDF_URL")) in
            let save_path := path_join pdf_dir filename in
            log (u "[" ++ Py.of_nat i ++ u "/" ++ Py.of_nat total ++ u "] "
                 ++ Py.slice_to 30 name ++ u "...") ;;;
            present <-- os_path_exists save_path ;;
            if skip_exist && present then
              log (u "  → スキップ(既存)") ;;;
              download_loop is_running pdf_dir skip_exist total (S i)
                targets' (success, fail, S skipped)
            else
              out <-- download_file url save_path ;;
              tallies' <--
                (if fst out
                 then log (u "  → 完了") ;;;
                      ret (S success, fail, skipped)
                 else log (u "  → 失敗: " ++ default [] (snd out)) ;;;
                      ret (success, S fail, skipped)) ;;
              sleep ;;;
              download_loop is_running pdf_dir skip_exist total (S i)
                targets' tallies'
        end
  end.

Definition _download_files (is_running : nat -> bool) (targets : list row)
    (pdf_dir : pystr) (skip_exist : bool) : M (nat * nat * nat) :=
  download_loop is_running pdf_dir skip_exist (length targets) 1 targets
    (0, 0, 0).

Definition _handle_download_completion (is_running : nat -> bool)
    (tallies : nat * nat * nat) : M unit :=
  let '(success, fail, skipped) := tallies in
  running <-- read_flag is_running ;;
  if negb running then
    log [] ;;;
    log (u "=== 中断されました ===") ;;;
    log (u "成功: " ++ Py.of_nat success ++ u " / スキップ: "
         ++ Py.of_nat skipped ++ u " / 失敗: " ++ Py.of_nat fail)
  else
    log [] ;;;
    log (u "=== 全処理完了 ===").

(** [DownloadTab.download_thread].  The message boxes belong to the
    front-end and are left out, as is the creation of the directory. *)
Definition download_thread (is_running : nat -> bool)
    (csv_file out_dir : pystr) (use_filter : bool) (hosp_csv : pystr)
    (skip_exist : bool) : M unit :=
  try_except
    (let pdf_dir := path_join out_dir (u "pdf") in
     sets <-- _load_filter_lists use_filter hosp_csv ;;
     targets <-- _load_and_filter_targets csv_file use_filter
                   (fst sets) (snd sets) ;;
     log (u "--- ダウンロード開始 (対象: " ++ Py.of_nat (length targets)
          ++ u "件) ---") ;;;
     tallies <-- _download_files is_running targets pdf_dir skip_exist ;;
     _handle_download_completion is_running tallies)
    (fun e => log (u "エラー: " ++ e)).

End Download.

(** ** Statements of the specification, in its own words *)

(** Removing the configured base when the address starts with it. *)
Definition strip_prefix (base s : pystr) : pystr :=
  if Py.startswith base s then drop (length base) s else s.

(** [detailToPdf] as the specification words it: strip the base prefix,
    strip the slashes, split, test the first two segments. *)
Definition detailToPdf_spec (base detail_url : pystr) : pystr :=
  match Py.split (ch "/") (Py.strip_chars (u "/") (strip_prefix base detail_url)) with
  | s0 :: s1 :: s2 :: s3 :: _ =>
      if Py.eqb s0 (u "ygo") && Py.eqb s1 (u "pack")
      then base ++ u "/ygo/pdf/" ++ s2 ++ u "_" ++ s3 ++ u "/"
      else []
  | _ => []
  end.

(** The same with every occurrence of the base deleted, wherever it
    stands in the address. *)
Definition detailToPdf_amended (base detail_url : pystr) : pystr :=
  match Py.split (ch "/")
          (Py.strip_chars (u "/") (Py.replace base [] detail_url)) with
  | s0 :: s1 :: s2 :: s3 :: _ =>
      if Py.eqb s0 (u "ygo") && Py.eqb s1 (u "pack")
      then base ++ u "/ygo/pdf/" ++ s2 ++ u "_" ++ s3 ++ u "/"
      else []
  | _ => []
  end.

(** C4 as stated. *)
Definition detailToPdf_as_specified : Prop :=
  forall (cfg : Settings) (detail_url : pystr),
    convert_detail_url_to_pdf cfg detail_url
    = Py.Ok (detailToPdf_spec (detail_base_url cfg) detail_url).

(** C8 as stated: a target row whose product name holds one of the nine
    characters gets a file name holding none of them. *)
Definition filename_as_specified : Prop :=
  forall (r : row) (name filename : pystr),
    is_target r = true ->
    r !! u "販売名" = Some (Some name) ->
    (exists c, c ∈ invalid_chars /\ c ∈ name) ->
    target_filename r = Py.Ok (Some filename) ->
    forall c, c ∈ invalid_chars -> c ∉ filename.

(** The text of a cell, empty when the column or the cell is missing. *)
Definition cell_text (r : row) (key : pystr) : pystr :=
  match r !! key with
  | Some (Some s) => s
  | _ => []
  end.

(** Row qualification as the specification words it. *)
Definition qualifies_spec (use_filter : bool) (approvals certs : gset pystr)
    (r : row) : bool :=
  let an := cell_text r (u "承認番号") in
  let cn := cell_text r (u "認証番号") in
  Py.eqb (cell_text r (u "区分")) SECTION_LISTED
  && Py.truthy (cell_text r (u "PDF_URL"))
  && (negb use_filter
      || Py.truthy an && bool_decide (an ∈ approvals)
      || Py.truthy cn && bool_decide (cn ∈ certs)).

(** The same on the trimmed numbers. *)
Definition qualifies_trimmed (use_filter : bool) (approvals certs : gset pystr)
    (r : row) : bool :=
  let an := Py.strip (cell_text r (u "承認番号")) in
  let cn := Py.strip (cell_text r (u "認証番号")) in
  Py.eqb (cell_text r (u "区分")) SECTION_LISTED
  && Py.truthy (cell_text r (u "PDF_URL"))
  && (negb use_filter
      || Py.truthy an && bool_decide (an ∈ approvals)
      || Py.truthy cn && bool_decide (cn ∈ certs)).

(** C2 as stated, for the rows read from a file. *)
Definition targets_as_specified : Prop :=
  forall (csv_file : pystr) (use_filter : bool) (approvals certs : gset pystr)
         (w : world) (content : pystr) (hdr : option (list pystr))
         (rows : list row),
    fs w !! csv_file = Some content ->
    Csv.DictReader (Csv.universal_newlines content) = Py.Ok (hdr, rows) ->
    exists targets w',
      _load_and_filter_targets csv_file use_filter approvals certs w
      = (Py.Ok targets, w')
      /\ forall r, r ∈ targets <->
                   r ∈ rows /\ qualifies_spec use_filter approvals certs r = true.

(** A number cell that is Python's [None]: the line had fewer cells than
    the header and the column is one of the missing ones. *)
Definition number_absent (r : row) : bool :=
  bool_decide (r !! u "承認番号" = Some None)
  || bool_decide (r !! u "認証番号" = Some None).

(** C10 as stated: with filtering on, a data line shorter than the
    header makes the read raise. *)
Definition short_row_raises : Prop :=
  forall (csv_file : pystr) (approvals certs : gset pystr) (w : world)
         (content : pystr) (header : list pystr) (records : list (list pystr)),
    fs w !! csv_file = Some content ->
    Csv.read_records (Csv.readlines (Csv.universal_newlines content))
                     Csv.parse_reset
    = Py.Ok (header :: records) ->
    (exists record, record ∈ records /\ record <> []
                    /\ length record < length header) ->
    exists e w',
      _load_and_filter_targets csv_file true approvals certs w
      = (Py.Raise e, w').

(** The number test of the filtering loop. *)
Definition number_matches (approvals certs : gset pystr) (r : row) : bool :=
  let an := Py.strip (cell_text r (u "承認番号")) in
  let cn := Py.strip (cell_text r (u "認証番号")) in
  Py.truthy an && bool_decide (an ∈ approvals)
  || Py.truthy cn && bool_decide (cn ∈ certs).

(** Two worlds that differ in their logs only. *)
Definition logs_only (w w' : world) : Prop :=
  tick w' = tick w /\ sent w' = sent w /\ fs w' = fs w.

(** ** Sample inputs *)

(** A CSV text with the given lines, as the writer lays them out. *)
Definition csv_of (lines : list (list pystr)) : pystr :=
  flat_map Csv.writerow lines.

(** A fresh world holding one file. *)
Definition world_with (path content : pystr) : world :=
  {| tick := 0; logs := []; sent := []; fs := {[ path := content ]} |}.

(** A collected file whose approval number was edited to start with a
    space. *)
Definition padded_number_csv : pystr :=
  csv_of [CSV_FIELDNAMES;
          [u "2024-01-15"; u "掲載"; u "ProductX"; u "ACME"; u "recall";
           u " A100"; u ""; u "https://www.info.pmda.go.jp/ygo/pack/123/456";
           u "https://www.info.pmda.go.jp/ygo/pdf/123_456/"]].

(** A collected file with a line cut after the product name. *)
Definition short_line_csv : pystr :=
  csv_of [CSV_FIELDNAMES;
          [u "2024-01-15"; u "掲載"; u "ProductX"]].

(** A hand-edited file with the PDF column moved forward and a line cut
    before the two number columns. *)
Definition reordered_short_csv : pystr :=
  csv_of [[u "区分"; u "PDF_URL"; u "販売名"; u "承認番号"; u "認証番号"];
          [u "掲載"; u "https://www.info.pmda.go.jp/ygo/pdf/123_456/";
           u "ProductX"]].

(** A target row whose PDF address ends in a segment with a question
    mark. *)
Definition query_address_row : row :=
  <[u "区分" := Some SECTION_LISTED]>
    (<[u "販売名" := Some (u "a:b")]>
       (<[u "PDF_URL" := Some (u "http://h/x?y")]> ∅)).

(** A detail address built from an absolute link target: the base is
    there twice. *)
Definition doubled_base_url : pystr :=
  detail_base_url DEFAULT_SETTINGS ++ detail_base_url DEFAULT_SETTINGS
  ++ u "/ygo/pack/1/2".

(** The first and the last header name holding a marker. *)
Definition first_matching (marker : pystr) (fieldnames : list pystr)
  : option pystr :=
  head (filter (fun col => Py.contains marker col = true) fieldnames).

Definition last_matching (marker : pystr) (fieldnames : list pystr)
  : option pystr :=
  last (filter (fun col => Py.contains marker col = true) fieldnames).

(** The trimmed non-empty values of a column over the rows. *)
Definition column_values (col : option pystr) (rows : list row) : gset pystr :=
  list_to_set (omap (column_value col) rows).

(** C6 as stated: when a marker is in more than one header name, the
    sets come from the first such column. *)
Definition first_column_wins : Prop :=
  forall (csv_path : pystr) (w : world) (content : pystr)
         (fieldnames : list pystr) (rows : list row),
    fs w !! csv_path = Some content ->
    Csv.DictReader (Csv.universal_newlines content)
    = Py.Ok (Some fieldnames, rows) ->
    1 < length (filter (fun col => Py.contains (u "承認番号") col = true)
                       fieldnames)
    \/ 1 < length (filter (fun col => Py.contains (u "認証番号") col = true)
                          fieldnames) ->
    fst (load_hospital_device_list csv_path w)
    = Py.Ok (column_values (first_matching (u "承認番号") fieldnames) rows,
             column_values (first_matching (u "認証番号") fieldnames) rows).

(** An allow-list with an old and a current approval-number column. *)
Definition two_approval_columns_csv : pystr :=
  csv_of [[u "承認番号(旧)"; u "承認番号"; u "認証番号"];
          [u "A-OLD"; u "A-NEW"; u "C-1"]].

(** [os.path.join] on a POSIX system, for a directory without a trailing
    slash and a relative name. *)
Definition posix_join (dir name : pystr) : pystr := dir ++ u "/" ++ name.

(** A download that answers 200 and breaks after its first chunk. *)
Definition broken_stream : response :=
  {| status_code := 200;
     chunks := [[37; 80; 68; 70]%N];
     stream_error := Some (u "Connection broken") |}.

(** A target row as the collection stage writes it. *)
Definition product_x_row : row :=
  <[u "区分" := Some SECTION_LISTED]>
    (<[u "販売名" := Some (u "ProductX")]>
       (<[u "PDF_URL" := Some (u "https://www.info.pmda.go.jp/ygo/pdf/123_456/")]>
          ∅)).

Definition empty_world : world :=
  {| tick := 0; logs := []; sent := []; fs := ∅ |}.

(** The flag of a run that is never cancelled. *)
Definition uncancelled : nat -> bool := fun _ => true.

(** A computation never moves the clock back. *)
Definition mono {A} (m : M A) : Prop :=
  forall w, tick w <= tick (snd (m w)).

(** [m1] runs as [m2] does from every world from which [m2] ends no
    later than [T]. *)
Definition same_below {A} (T : nat) (m1 m2 : M A) : Prop :=
  forall w, tick (snd (m2 w)) <= T -> m1 w = m2 w.

(** The section a heading names, if any. *)
Definition classify (text : pystr) : option pystr :=
  if Py.contains (u "掲載分") text then Some SECTION_LISTED
  else if Py.contains (u "削除分") text then Some SECTION_DELETED
  else None.

(** The section named by the last classifiable heading of a list of
    nearest headings. *)
Definition last_classified (headings : list (option pystr)) : option pystr :=
  last (omap (fun h => h ≫= classify) headings).

(** The nearest heading before the end of a document. *)
Definition nearest_h2 (doc : html) : option pystr :=
  last (omap (fun n => match n with H2 t => Some t | _ => None end) doc).

(** The records of each date, date by date, in a run that is never
    cancelled: what the loop body returns for the date. *)
Fixpoint gathered (cfg : Settings)
    (get_listing : nat -> pystr -> Py.result html)
    (get_body : nat -> pystr -> Py.result body_page)
    (fetch_nums : bool) (total i : nat) (dates : list pystr) (w : world)
  : list (list ListingRecord) :=
  match dates with
  | [] => []
  | date_str :: dates' =>
      let out := collect_date cfg get_listing get_body uncancelled fetch_nums
                   total i date_str (set_tick (S (tick w)) w) in
      match fst out with
      | Py.Ok results =>
          results :: gathered cfg get_listing get_body fetch_nums total (S i)
                       dates' (snd out)
      | Py.Raise _ => []
      end
  end.

(** C1 as stated: a table whose nearest heading names no section adds
    nothing, whatever came before it; the page scrapes as it would
    without the table. *)
Definition unclassified_table_skipped : Prop :=
  forall (cfg : Settings) (get_body : nat -> pystr -> Py.result body_page)
         (date_str : pystr) (fetch_numbers log_callback : bool)
         (cancel_check : option (nat -> bool)) (before after : html)
         (rows : list tr) (w : world),
    nearest_h2 before ≫= classify = None ->
    scrape_tables cfg get_body date_str fetch_numbers log_callback
      cancel_check None (find_all_table None (before ++ Table rows :: after))
      [] w
    = scrape_tables cfg get_body date_str fetch_numbers log_callback
        cancel_check None (find_all_table None (before ++ after)) [] w.

(** A listing row: a linked product name, the company, the reason. *)
Definition listing_row (name href company reason : pystr) : tr :=
  [ {| td_text := name;
       td_a := Some {| a_text := name; a_href := Some href |} |};
    {| td_text := company; td_a := None |};
    {| td_text := reason; td_a := None |} ].

(** A page with one listed product. *)
Definition one_table_page : html :=
  [ H2 (u "掲載分");
    Table [listing_row (u "ProductX") (u "/ygo/pack/123/456")
             (u "製造販売／ACME") (u "recall")] ].

(** The same page followed by a notice heading and a table of its own. *)
Definition notice_heading : html :=
  one_table_page ++ [ H2 (u "お知らせ") ].

Definition notice_rows : list tr :=
  [listing_row (u "ProductY") (u "/ygo/pack/789/012")
     (u "製造販売／ACME") (u "notice")].

(** The number of records a scrape returned. *)
Definition count_records (out : Py.result (list ListingRecord * flow) * world)
  : nat :=
  match fst out with
  | Py.Ok (records, _) => length records
  | Py.Raise _ => 0
  end.

(** No detail body is ever served. *)
Definition no_body : nat -> pystr -> Py.result body_page :=
  fun _ _ => Py.Raise (u "unreachable").

(** Every listing request is answered with the one-table page. *)
Definition serve_one_table : nat -> pystr -> Py.result html :=
  fun _ _ => Py.Ok one_table_page.

(** Every listing request times out. *)
Definition listing_times_out : nat -> pystr -> Py.result html :=
  fun _ _ => Py.Raise (u "Read timed out.").

Definition three_dates : list pystr :=
  [u "2024-01-15"; u "2024-01-16"; u "2024-01-17"].

(** A flag cleared at instant [T]. *)
Definition cleared_at (T : nat) : nat -> bool := fun t => t <? T.

(** A row read back has the nine fields of a record. *)
Definition same_fields (r : ListingRecord) (d : row) : bool :=
  bool_decide (d !! u "日付" = Some (Some (r_date r)))
  && bool_decide (d !! u "区分" = Some (Some (r_section r)))
  && bool_decide (d !! u "販売名" = Some (Some (r_product r)))
  && bool_decide (d !! u "企業名" = Some (Some (r_company r)))
  && bool_decide (d !! u "理由" = Some (Some (r_reason r)))
  && bool_decide (d !! u "承認番号" = Some (Some (r_approval r)))
  && bool_decide (d !! u "認証番号" = Some (Some (r_certification r)))
  && bool_decide (d !! u "詳細URL" = Some (Some (r_detail_url r)))
  && bool_decide (d !! u "PDF_URL" = Some (Some (r_pdf_url r))).

(** Writing the records with [save_results], then reading the file the
    way [_load_and_filter_targets] does. *)
Definition read_back (path_join : pystr -> pystr -> pystr) (ts : pystr)
    (results : list ListingRecord) (out_dir : pystr) (w : world)
  : Py.result (list row) :=
  let out := save_results path_join ts results out_dir w in
  match fst out with
  | Py.Ok path => fst (read_rows path (snd out))
  | Py.Raise e => Py.Raise e
  end.

(** C5 as stated. *)
Definition store_round_trip : Prop :=
  forall (path_join : pystr -> pystr -> pystr) (ts : pystr)
         (results : list ListingRecord) (out_dir : pystr) (w : world),
    (exists rows,
       read_back path_join ts results out_dir w = Py.Ok rows
       /\ Forall2 (fun r d => same_fields r d = true) results rows)
    /\ (results = [] ->
        exists path,
          fst (save_results path_join ts results out_dir w) = Py.Ok path
          /\ fs (snd (save_results path_join ts results out_dir w)) !! path
             = Some (Csv.writerow CSV_FIELDNAMES)).

(** A record whose reason cell holds two lines separated by CR LF, as a
    page served with such line ends gives it. *)
Definition two_line_reason : pystr :=
  u "line1" ++ [Csv.CR; Csv.LF] ++ u "line2".

Definition two_line_record : ListingRecord :=
  {| r_date := u "2024-01-15"; r_section := SECTION_LISTED;
     r_product := u "ProductX"; r_company := u "ACME";
     r_reason := two_line_reason; r_approval := []; r_certification := [];
     r_detail_url := u "https://www.info.pmda.go.jp/ygo/pack/123/456";
     r_pdf_url := u "https://www.info.pmda.go.jp/ygo/pdf/123_456/" |}.

(** The reader over the text as one stream of characters: the end of a
    line is signalled after each LF.  For a text that ends with LF this
    is the reader over the lines (see [read_records_chars]). *)
Fixpoint parse_chars (s : pystr) (r : Csv.reader)
  : Py.result (list (list pystr)) :=
  match s with
  | [] =>
      if Py.truthy (Csv.field r) || Csv.in_quoted_field r
      then Py.Ok [Csv.fields (Csv.parse_save_field r)]
      else Py.Ok []
  | c :: s' =>
      match Csv.parse_process_char (Some c) r with
      | Py.Raise e => Py.Raise e
      | Py.Ok r1 =>
          if (c =? Csv.LF)%N then
            match Csv.parse_process_char None r1 with
            | Py.Raise e => Py.Raise e
            | Py.Ok r2 =>
                match Csv.state r2 with
                | Csv.START_RECORD =>
                    match parse_chars s' Csv.parse_reset with
                    | Py.Ok rows => Py.Ok (Csv.fields r2 :: rows)
                    | Py.Raise e => Py.Raise e
                    end
                | _ => parse_chars s' r2
                end
            end
          else parse_chars s' r1
      end
  end.

(** A character the writer leaves unquoted. *)
Definition plain (c : N) : bool :=
  negb ((c =? Csv.COMMA)%N || (c =? Csv.QUOTE)%N
        || (c =? Csv.CR)%N || (c =? Csv.LF)%N).

(** A field the store reads back as written: no carriage return, and
    within the field size limit of the reader. *)
Definition storable (field : pystr) : Prop :=
  (Csv.CR ∉ field) /\ (N.of_nat (length field) <= Csv.field_size_limit)%N.

(** The text the writer produces for a list of records. *)
Definition written (rows : list (list pystr)) : pystr :=
  flat_map Csv.writerow rows.

(** A record of at least two fields, all of them storable. *)
Definition wide_storable (fields : list pystr) : Prop :=
  2 <= length fields /\ Forall storable fields.

(** The row a record is read back as. *)
Definition row_of_record (r : ListingRecord) : row :=
  Csv.make_row CSV_FIELDNAMES (record_cells r).

(** The base occurs nowhere in a text. *)
Definition base_absent (base s : pystr) : Prop :=
  forall i, Py.startswith base (drop i s) = false.

(** ** Further definitions: records, worlds, dates *)

(** What every record returned by [scrape_date] satisfies: it bears the
    date asked for and one of the two sections, its product name is
    neither empty nor the header text, its PDF address is the one derived
    from its detail address, and it carries a number only when
    enrichment was asked for, the section is the listed one and there is
    a detail address. *)
Definition record_invariant (cfg : Settings) (date_str : pystr)
    (fetch_numbers : bool) (r : ListingRecord) : Prop :=
  r_date r = date_str
  /\ (r_section r = SECTION_LISTED \/ r_section r = SECTION_DELETED)
  /\ r_product r <> []
  /\ r_product r <> u "販売名"
  /\ convert_detail_url_to_pdf cfg (r_detail_url r) = Py.Ok (r_pdf_url r)
  /\ (r_approval r <> [] \/ r_certification r <> [] ->
      fetch_numbers = true /\ r_section r = SECTION_LISTED
      /\ r_detail_url r <> []).

(** The listing address requested for a date. *)
Definition listing_url (cfg : Settings) (date_str : pystr) : pystr :=
  base_url cfg ++ Py.replace (u "-") [] date_str.

(** A computation that leaves a component of the world as it was: the
    requests sent ([preserves sent]), the files ([preserves fs]). *)
Definition preserves {A X} (f : world -> X) (m : M A) : Prop :=
  forall w, f (snd (m w)) = f w.

(** ** Downloads into a directory that can refuse the file

    [open(save_path, 'wb')] (l.287) raises when the file cannot be
    created: the directory is missing, or the name is one the platform
    refuses or is too long.  [open_error t path] is the text of the
    [OSError] raised at instant [t] for [path], if the file cannot be
    created then; the file is left as it was. *)
Module FileSystem.
Section Refusing.

Variable open_error : nat -> pystr -> option pystr.
Variable get_download : nat -> pystr -> Py.result response.

Definition open_wb (path : pystr) : M unit :=
  fun w =>
    match open_error (tick w) path with
    | Some e => (Py.Raise e, w)
    | None => (Py.Ok tt, set_fs (<[path := []]> (fs w)) w)
    end.

Definition download_file (url save_path : pystr) : M (bool * option pystr) :=
  try_except
    (response <-- requests_get_download get_download url ;;
     if status_code response =? 200 then
       open_wb save_path ;;;
       write_chunks save_path (chunks response) ;;;
       match stream_error response with
       | Some e => raise e
       | None => ret (true, None)
       end
     else
       ret (false,
            Some (u "HTTPエラー: " ++ Py.of_nat (status_code response))))
    (fun e => ret (false, Some e)).

End Refusing.
End FileSystem.

(** A directory that is not there: every [open] for writing is refused. *)
Definition no_directory : nat -> pystr -> option pystr :=
  fun _ path =>
    Some (u "[Errno 2] No such file or directory: '" ++ path ++ u "'").

(** The address and the product name of a row, as the download loop
    reads them. *)
Definition row_pdf_url (r : row) : pystr :=
  default [] (get_or_empty r (u "PDF_URL")).
Definition row_name (r : row) : pystr :=
  default [] (get_or_empty r (u "販売名")).

(** A row the download loop has nothing to fetch for: it derives a file
    name without raising, and the file of that name, if it derives one,
    is there already. *)
Definition already_saved (path_join : pystr -> pystr -> pystr)
    (pdf_dir : pystr) (files : gmap pystr (list N)) (r : row) : Prop :=
  exists filename,
    target_filename r = Py.Ok filename
    /\ forall name, filename = Some name ->
                    is_Some (files !! path_join pdf_dir name).

(** A header name that holds neither marker of the allow-list loader. *)
Definition unmarked (col : pystr) : Prop :=
  Py.contains (u "承認番号") col = false
  /\ Py.contains (u "認証番号") col = false.

(** ** The end of a collection run *)

Section ScrapeCompletion.

Variable path_join : pystr -> pystr -> pystr.
(** [messagebox.askyesno]: the answer given to a question put at an
    instant. *)
Variable askyesno : nat -> bool.

Definition messagebox_askyesno : M bool :=
  fun w => (Py.Ok (askyesno (tick w)), set_tick (S (tick w)) w).

(** [ScrapeTab._handle_scrape_completion]; [ts] is the current time as
    [save_results] formats it.  The value is the path given to the
    download tab by [set_download_csv_path], when that call is made.
    The information boxes are left out. *)
Definition _handle_scrape_completion (is_running : nat -> bool) (ts : pystr)
    (all_results : list ListingRecord) (out_dir : pystr)
  : M (option pystr) :=
  running <-- read_flag is_running ;;
  if negb running then
    log [] ;;;
    log (u "=== 中断されました ===") ;;;
    match all_results with
    | [] => ret None
    | _ :: _ =>
        log (u "中断までに " ++ Py.of_nat (length all_results)
             ++ u "件 取得しました") ;;;
        answer <-- messagebox_askyesno ;;
        if answer then
          save_results path_join ts all_results out_dir ;;;
          ret None
        else ret None
    end
  else
    log [] ;;;
    log (u "=== 収集完了: 合計 " ++ Py.of_nat (length all_results)
         ++ u "件 ===") ;;;
    match all_results with
    | [] => ret None
    | _ :: _ =>
        output_path <-- save_results path_join ts all_results out_dir ;;
        ret (Some output_path)
    end.

End ScrapeCompletion.


(** A record the download stage takes as a target: listed, with a PDF
    address. *)
Definition listed_with_pdf (r : ListingRecord) : bool :=
  Py.eqb (r_section r) SECTION_LISTED && Py.truthy (r_pdf_url r).

(** A download answered in full. *)
Definition served_pdf : response :=
  {| status_code := 200;
     chunks := [[37; 80; 68; 70]%N; [45; 49; 46; 52]%N];
     stream_error := None |}.

(** A listed record as the collection stage builds it, with a comma and
    a line feed in its fields. *)
Definition product_x_record : ListingRecord :=
  {| r_date := u "2024-01-15"; r_section := SECTION_LISTED;
     r_product := u "Product, X"; r_company := u "ACME";
     r_reason := u "recall" ++ [Csv.LF] ++ u "notice";
     r_approval := u "A100"; r_certification := [];
     r_detail_url := u "https://www.info.pmda.go.jp/ygo/pack/123/456";
     r_pdf_url := u "https://www.info.pmda.go.jp/ygo/pdf/123_456/" |}.

(** The same product under the deleted section. *)
Definition deleted_record : ListingRecord :=
  {| r_date := u "2024-01-15"; r_section := SECTION_DELETED;
     r_product := u "ProductY"; r_company := u "ACME";
     r_reason := u "withdrawn"; r_approval := []; r_certification := [];
     r_detail_url := u "https://www.info.pmda.go.jp/ygo/pack/123/789";
     r_pdf_url := u "https://www.info.pmda.go.jp/ygo/pdf/123_789/" |}.

(** An allow-list whose header names neither number. *)
Definition unlabelled_list_csv : pystr :=
  csv_of [[u "品名"; u "番号"]; [u "ProductX"; u "A100"]].

(** A target row whose PDF address is a lone slash. *)
Definition slash_address_row : row :=
  <[u "区分" := Some SECTION_LISTED]>
    (<[u "販売名" := Some (u "ProductX")]>
       (<[u "PDF_URL" := Some (u "/")]> ∅)).

(** Two rows of a listing table. *)
Definition two_listing_rows : list tr :=
  [listing_row (u "ProductX") (u "/ygo/pack/123/456") (u "製造販売／ACME")
     (u "recall");
   listing_row (u "ProductY") (u "/ygo/pack/123/789") (u "製造販売／ACME")
     (u "notice")].

(** ** Dates

    The [datetime] values of [run_scrape] are built from a year, a month
    and a day (midnight); what the date range uses of them is the
    comparison, the addition of one day and the format [%Y-%m-%d]. *)

Record datetime := {
  year : N;
  month : N;
  day : N;
}.

Definition is_leap (y : N) : bool :=
  ((y mod 4 =? 0) && (negb (y mod 100 =? 0) || (y mod 400 =? 0)))%N.

Definition days_in_month (y m : N) : N :=
  match m with
  | 2 => if is_leap y then 29 else 28
  | 4 | 6 | 9 | 11 => 30
  | _ => 31
  end%N.

(** The values [datetime(y, m, d)] accepts. *)
Definition valid_date (d : datetime) : bool :=
  ((1 <=? year d) && (year d <=? 9999)
   && (1 <=? month d) && (month d <=? 12)
   && (1 <=? day d) && (day d <=? days_in_month (year d) (month d)))%N.

(** [a <= b] *)
Definition datetime_le (a b : datetime) : bool :=
  ((year a <? year b)
   || (year a =? year b)
      && ((month a <? month b)
          || (month a =? month b) && (day a <=? day b)))%N.

(** [cur + timedelta(days=1)]: past the last day of the year 9999 the
    addition raises [OverflowError]. *)
Definition add_one_day (d : datetime) : Py.result datetime :=
  if (day d <? days_in_month (year d) (month d))%N
  then Py.Ok {| year := year d; month := month d; day := day d + 1 |}
  else if (month d <? 12)%N
  then Py.Ok {| year := year d; month := month d + 1; day := 1 |}
  else if (year d <? 9999)%N
  then Py.Ok {| year := year d + 1; month := 1; day := 1 |}
  else Py.Raise (u "date value out of range").

(** A number written with at least [width] digits. *)
Definition zero_padded (width : nat) (n : N) : pystr :=
  let digits := Py.of_nat (N.to_nat n) in
  replicate (width - length digits) (ch "0") ++ digits.

(** [d.strftime("%Y-%m-%d")], for a year of four digits (how an earlier
    year is written depends on the platform). *)
Definition strftime_ymd (d : datetime) : pystr :=
  zero_padded 4 (year d) ++ u "-" ++ zero_padded 2 (month d) ++ u "-"
  ++ zero_padded 2 (day d).

(** The loop of [ScrapeTab._generate_date_range]; [fuel] bounds the
    number of turns, and [None] says it was too small. *)
Fixpoint generate_loop (fuel : nat) (cur end_date : datetime)
    (dates : list pystr) : option (Py.result (list pystr)) :=
  match fuel with
  | O => None
  | S fuel' =>
      if datetime_le cur end_date then
        match add_one_day cur with
        | Py.Ok next =>
            generate_loop fuel' next end_date (dates ++ [strftime_ymd cur])
        | Py.Raise e => Some (Py.Raise e)
        end
      else Some (Py.Ok dates)
  end.

Definition _generate_date_range (fuel : nat) (start_date end_date : datetime)
  : option (Py.result (list pystr)) :=
  generate_loop fuel start_date end_date [].

(** Days that follow one another. *)
Fixpoint consecutive (ds : list datetime) : Prop :=
  match ds with
  | a :: (b :: _) as rest => add_one_day a = Py.Ok b /\ consecutive rest
  | _ => True
  end.

(** The last day [datetime] can hold. *)
Definition datetime_max : datetime :=
  {| year := 9999; month := 12; day := 31 |}.

(** A count that grows with the date: twelve months of 31 days to a
    year. *)
Definition day_count (d : datetime) : N :=
  ((year d * 12 + month d) * 31 + day d)%N.

(** ** The collection thread *)

(** [start_date == end_date] *)
Definition datetime_eqb (a b : datetime) : bool :=
  ((year a =? year b) && (month a =? month b) && (day a =? day b))%N.

(** [ScrapeTab._log_scrape_start] *)
Definition _log_scrape_start (start_date end_date : datetime)
    (dates : list pystr) (fetch_nums : bool) : M unit :=
  log (u "=== 収集開始 ===") ;;;
  (if datetime_eqb start_date end_date then
     log (u "日付: " ++ strftime_ymd start_date)
   else
     log (u "期間: " ++ strftime_ymd start_date ++ u " ~ "
          ++ strftime_ymd end_date) ;;;
     log (u "対象日数: " ++ Py.of_nat (length dates) ++ u "日")) ;;;
  (if fetch_nums then
     log (u "※承認番号・認証番号も取得します（時間がかかります）")
   else ret tt) ;;;
  log [].

Section ScrapeThread.

Variable cfg : Settings.
Variable get_listing : nat -> pystr -> Py.result html.
Variable get_body : nat -> pystr -> Py.result body_page.
Variable path_join : pystr -> pystr -> pystr.
Variable askyesno : nat -> bool.

(** [os.makedirs(path, exist_ok=True)]: [makedirs_error t path] is the
    text of the [OSError] raised at instant [t] if the directory can
    neither be found nor made then (an empty path, a parent that is a
    file, no permission).  Directories are not part of the files of the
    world, which it leaves as they are. *)
Variable makedirs_error : nat -> pystr -> option pystr.

Definition os_makedirs (path : pystr) : M unit :=
  fun w =>
    match makedirs_error (tick w) path with
    | Some e => (Py.Raise e, w)
    | None => (Py.Ok tt, w)
    end.

(** [ScrapeTab.scrape_thread]; [fuel] bounds the turns of the date
    range, and [None] says it was too small.  The message boxes are
    left out, as is the clearing of the flag when the thread ends. *)
Definition scrape_thread (fuel : nat) (is_running : nat -> bool)
    (ts : pystr) (start_date end_date : datetime) (out_dir : pystr)
    (fetch_nums : bool) : option (M unit) :=
  match _generate_date_range fuel start_date end_date with
  | None => None
  | Some range =>
      Some
        (try_except
           (os_makedirs out_dir ;;;
            dates <-- lift range ;;
            _log_scrape_start start_date end_date dates fetch_nums ;;;
            all_results <-- _collect_data cfg get_listing get_body is_running
                              dates fetch_nums ;;
            _handle_scrape_completion path_join askyesno is_running ts
              all_results out_dir ;;;
            ret tt)
           (fun e => log (u "エラー: " ++ e)))
  end.

End ScrapeThread.

(** [os.makedirs] where every directory can be made but the one of the
    empty path. *)
Definition makedirs_posix : nat -> pystr -> option pystr :=
  fun _ path =>
    match path with
    | [] => Some (u "[Errno 2] No such file or directory: ''")
    | _ :: _ => None
    end.

(** The identifier the download loop takes from an address: its last
    segment. *)
Definition doc_id_of (url : pystr) : pystr :=
  default [] (last (Py.split (ch "/") (Py.strip_chars (u "/") url))).


(** A record the download stage sends a request for: listed, with a PDF
    address that gives an identifier. *)
Definition downloadable (r : ListingRecord) : bool :=
  listed_with_pdf r && Py.truthy (doc_id_of (r_pdf_url r)).

(** ** The reply to a listing request

    What [requests.get] hands back at l.205 when it returns: a status
    and a body.  [scrape_date] parses the body whatever the status:
    l.206-207 hold no test of it, where l.286 of [download_file] has
    one.  The page that [scrape_date] scrapes is thus the body of any
    reply, and only a request that raises is a failure to it. *)
Record listing_reply := {
  reply_status : nat;    (* response.status_code *)
  reply_body : html;     (* BeautifulSoup(response.text, 'html.parser') *)
}.

Definition body_of_reply
    (get_reply : nat -> pystr -> Py.result listing_reply)
  : nat -> pystr -> Py.result html :=
  fun t url =>
    match get_reply t url with
    | Py.Ok reply => Py.Ok (reply_body reply)
    | Py.Raise e => Py.Raise e
    end.

(** The error page of a server that is down: status 503, no heading of
    level 2 and no table. *)
Definition service_unavailable : listing_reply :=
  {| reply_status := 503; reply_body := [Other] |}.

(** ** Cancellation at any instant *)




(** A page with two listed products, and the server that answers every
    listing request with it. *)
Definition two_row_page : html :=
  [ H2 (u "掲載分"); Table two_listing_rows ].

Definition serve_two_rows : nat -> pystr -> Py.result html :=
  fun _ _ => Py.Ok two_row_page.

(** ** Properties *)

(** *** URL deriver *)

Lemma ygo_pack_split :
  unpack2 (Py.split (ch "/") YGO_PACK_PREFIX) = Py.Ok (u "ygo", u "pack").
Proof. reflexivity. Qed.

Lemma split_nonempty sep s : Py.split sep s <> [].
Proof.
  destruct s as [|c s]; simpl; [discriminate|].
  destruct (c =? sep)%N; [discriminate|].
  destruct (Py.split sep s); discriminate.
Qed.

Lemma amended_empty base : detailToPdf_amended base [] = [].
Proof.
  unfold detailToPdf_amended.
  destruct base; reflexivity.
Qed.

Lemma convert_is_amended (cfg : Settings) (detail_url : pystr) :
  convert_detail_url_to_pdf cfg detail_url
  = Py.Ok (detailToPdf_amended (detail_base_url cfg) detail_url).
Proof.
  unfold convert_detail_url_to_pdf.
  destruct detail_url as [|c rest] eqn:Hurl.
  - simpl. now rewrite amended_empty.
  - change (negb (Py.truthy (c :: rest))) with false. cbv iota.
    rewrite ygo_pack_split. unfold detailToPdf_amended.
    set (parts := Py.split _ _).
    destruct parts as [|s0 [|s1 [|s2 [|s3 more]]]]; try reflexivity.
    cbn [length Nat.leb andb lookup list_lookup default from_option id].
    unfold Py.eqb.
    destruct (bool_decide (Some s0 = Some (u "ygo"))) eqn:E0;
      destruct (bool_decide (s0 = u "ygo")) eqn:F0;
      try (apply bool_decide_eq_true in E0; apply bool_decide_eq_false in F0; congruence);
      try (apply bool_decide_eq_false in E0; apply bool_decide_eq_true in F0; congruence);
      cbn [andb]; [|reflexivity].
    destruct (bool_decide (Some s1 = Some (u "pack"))) eqn:E1;
      destruct (bool_decide (s1 = u "pack")) eqn:F1;
      try (apply bool_decide_eq_true in E1; apply bool_decide_eq_false in F1; congruence);
      try (apply bool_decide_eq_false in E1; apply bool_decide_eq_true in F1; congruence);
      reflexivity.
Qed.

(** C4 (as the code has it): [convert_detail_url_to_pdf] is total, never
    raises, and returns what the specification describes once "strip the
    base prefix" is read as "delete every occurrence of the base". *)
Theorem convert_detail_url_to_pdf_total (cfg : Settings) (detail_url : pystr) :
  convert_detail_url_to_pdf cfg detail_url
  = Py.Ok (detailToPdf_amended (detail_base_url cfg) detail_url).
Proof. apply convert_is_amended. Qed.

(** C4, as stated, fails: with an absolute link target the address holds
    the base twice; the code deletes both and derives a PDF address,
    where stripping the prefix leaves a path whose first segments are not
    the expected ones. *)
Lemma detailToPdf_as_specified_fails : ~ detailToPdf_as_specified.
Proof.
  intros H. specialize (H DEFAULT_SETTINGS doubled_base_url).
  vm_compute in H. discriminate H.
Qed.

Example convert_doubled_base :
  convert_detail_url_to_pdf DEFAULT_SETTINGS doubled_base_url
  = Py.Ok (u "https://www.info.pmda.go.jp/ygo/pdf/1_2/").
Proof. vm_compute. reflexivity. Qed.

Example spec_doubled_base :
  detailToPdf_spec (detail_base_url DEFAULT_SETTINGS) doubled_base_url = [].
Proof. vm_compute. reflexivity. Qed.

(** *** File names *)

Lemma replace_from_single c d s :
  Py.replace_from [c] [d] 0 s = map (fun x => if (c =? x)%N then d else x) s.
Proof.
  induction s as [|x s IH]; [reflexivity|].
  cbn [Py.replace_from Py.startswith length Nat.sub map].
  destruct (c =? x)%N; cbn [andb]; destruct s; simpl in *; now rewrite ?IH.
Qed.


Lemma replace_single c d s :
  Py.replace [c] [d] s = map (fun x => if (c =? x)%N then d else x) s.
Proof. unfold Py.replace. apply replace_from_single. Qed.

Lemma replace_single_removes c d s : c <> d -> c ∉ Py.replace [c] [d] s.
Proof.
  intros Hcd. rewrite replace_single. intros Hin.
  apply list_elem_of_fmap in Hin as (x & Hx & _).
  destruct (N.eqb_spec c x); congruence.
Qed.

Lemma replace_single_keeps c a d s :
  c <> d -> c ∉ s -> c ∉ Py.replace [a] [d] s.
Proof.
  intros Hcd Hs. rewrite replace_single. intros Hin.
  apply list_elem_of_fmap in Hin as (x & Hx & Hxs).
  destruct (a =? x)%N; subst; [congruence | contradiction].
Qed.

Lemma fold_replace_keeps (cs : list N) c d s :
  c <> d -> c ∉ s ->
  c ∉ fold_left (fun s char => Py.replace [char] [d] s) cs s.
Proof.
  revert s. induction cs as [|a cs IH]; intros s Hcd Hs; [exact Hs|].
  simpl. apply IH; [exact Hcd|]. now apply replace_single_keeps.
Qed.

Lemma fold_replace_removes (cs : list N) c d s :
  c ∈ cs -> d ∉ cs ->
  c ∉ fold_left (fun s char => Py.replace [char] [d] s) cs s.
Proof.
  revert s. induction cs as [|a cs IH]; intros s Hc Hd.
  - now apply not_elem_of_nil in Hc.
  - simpl. apply not_elem_of_cons in Hd as [Hda Hd].
    apply elem_of_cons in Hc as [->|Hc].
    + apply fold_replace_keeps; [congruence|].
      apply replace_single_removes. congruence.
    + now apply IH.
Qed.

Lemma underscore_valid : 95%N ∉ invalid_chars.
Proof.
  unfold invalid_chars. rewrite !not_elem_of_cons.
  repeat split; try discriminate. apply not_elem_of_nil.
Qed.

Lemma sanitize_clean s c : c ∈ invalid_chars -> c ∉ sanitize s.
Proof.
  intros Hc. unfold sanitize. change (u "_") with [95%N].
  apply fold_replace_removes; [exact Hc|apply underscore_valid].
Qed.

Lemma split_no_sep sep s p : p ∈ Py.split sep s -> sep ∉ p.
Proof.
  revert p. induction s as [|c s IH]; intros p Hp; simpl in Hp.
  - apply list_elem_of_singleton in Hp as ->. apply not_elem_of_nil.
  - destruct (N.eqb_spec c sep) as [->|Hne].
    + apply elem_of_cons in Hp as [->|Hp]; [apply not_elem_of_nil|now apply IH].
    + destruct (Py.split sep s) as [|h t] eqn:E.
      * apply list_elem_of_singleton in Hp as ->.
        rewrite not_elem_of_cons. split; [congruence|apply not_elem_of_nil].
      * apply elem_of_cons in Hp as [->|Hp].
        -- rewrite not_elem_of_cons. split; [congruence|].
           apply IH. left.
        -- apply IH. now right.
Qed.

Lemma extract_doc_id_no_slash url doc_id :
  extract_doc_id_from_url (Some url) = Py.Ok (Some doc_id) -> ch "/" ∉ doc_id.
Proof.
  unfold extract_doc_id_from_url. intros [= H].
  apply last_Some_elem_of in H. now apply split_no_sep in H.
Qed.

Lemma invalid_not_in_affixes c :
  c ∈ invalid_chars -> (c ∉ [95%N]) /\ (c ∉ PDF_EXTENSION).
Proof.
  assert (H : Forall (fun c => (c ∉ [95%N]) /\ (c ∉ PDF_EXTENSION)) invalid_chars).
  { apply (bool_decide_unpack _). vm_compute. exact I. }
  rewrite Forall_forall in H. apply H.
Qed.

(** C8 (as the code has it): the generated file name is the document
    identifier, an underscore and the sanitised name when that is not
    empty, and the extension.  The sanitised name holds none of the nine
    characters; the identifier is taken from the address as it is, so the
    file name holds one of them exactly when the identifier does (never a
    slash). *)
Theorem filename_sanitized (r : row) (filename : pystr) :
  target_filename r = Py.Ok (Some filename) ->
  exists url name doc_id,
    get_or_empty r (u "PDF_URL") = Some url
    /\ get_or_empty r (u "販売名") = Some name
    /\ extract_doc_id_from_url (Some url) = Py.Ok (Some doc_id)
    /\ let short := sanitize (Py.slice_to 10 name) in
       filename = doc_id ++ (if Py.truthy short then u "_" ++ short else [])
                         ++ PDF_EXTENSION
       /\ (forall c, c ∈ invalid_chars -> c ∉ short)
       /\ (ch "/" ∉ filename)
       /\ (forall c, c ∈ invalid_chars -> (c ∈ filename <-> c ∈ doc_id)).
Proof.
  unfold target_filename. intros H.
  destruct (get_or_empty r (u "PDF_URL")) as [url|] eqn:Hurl; [|discriminate].
  destruct (extract_doc_id_from_url (Some url)) as [[doc_id|]|] eqn:Hid;
    try discriminate.
  cbn [default from_option id] in H.
  destruct (Py.truthy doc_id) eqn:Ht; [|discriminate]. cbn [negb] in H.
  destruct (get_or_empty r (u "販売名")) as [name|] eqn:Hname; [|discriminate].
  injection H as <-.
  exists url, name, doc_id.
  split; [reflexivity|]. split; [reflexivity|]. split; [exact Hid|].
  cbv zeta. split; [|split; [|split]].
  - unfold make_filename. cbv zeta; destruct (Py.truthy (sanitize _)); [|reflexivity].
    now rewrite <- !app_assoc.
  - intros c Hc. now apply sanitize_clean.
  - assert (Hs : ch "/" ∈ invalid_chars) by (vm_compute; set_solver).
    pose proof (extract_doc_id_no_slash _ _ Hid) as Hd.
    pose proof (sanitize_clean (Py.slice_to 10 name) _ Hs) as Hn.
    destruct (invalid_not_in_affixes _ Hs) as [Hu He].
    change (u "_") with [95%N].
    unfold make_filename. cbv zeta; destruct (Py.truthy (sanitize _));
      rewrite ?elem_of_app; tauto.
  - intros c Hc.
    pose proof (sanitize_clean (Py.slice_to 10 name) _ Hc) as Hn.
    destruct (invalid_not_in_affixes _ Hc) as [Hu He].
    unfold make_filename. change (u "_") with [95%N].
    cbv zeta; destruct (Py.truthy (sanitize _)); rewrite ?elem_of_app; tauto.
Qed.


(** *** Row qualification *)

Lemma is_target_cells (r : row) :
  is_target r
  = Py.eqb (cell_text r (u "区分")) SECTION_LISTED
    && Py.truthy (cell_text r (u "PDF_URL")).
Proof.
  unfold is_target, get_truthy, cell_text, Py.eqb. f_equal.
  - destruct (r !! u "区分") as [[s|]|];
      apply bool_decide_ext; split; intros H; try discriminate; congruence.
  - now destruct (r !! u "PDF_URL") as [[s|]|].
Qed.

Lemma strip_cell_present (r : row) (key : pystr) :
  r !! key <> Some None ->
  strip_cell (get_or_empty r key) = Py.Ok (Py.strip (cell_text r key)).
Proof.
  unfold get_or_empty, cell_text. intros H.
  destruct (r !! key) as [[s|]|]; try reflexivity. congruence.
Qed.

Lemma strip_cell_absent (r : row) (key : pystr) :
  r !! key = Some None ->
  exists e, strip_cell (get_or_empty r key) = Py.Raise e.
Proof.
  unfold get_or_empty. intros ->. simpl. eauto.
Qed.

Lemma number_absent_false (r : row) :
  number_absent r = false ->
  r !! u "承認番号" <> Some None /\ r !! u "認証番号" <> Some None.
Proof.
  unfold number_absent. intros H. apply orb_false_iff in H as [H1 H2].
  apply bool_decide_eq_false in H1, H2. now split.
Qed.

Lemma filter_loop_present (approvals certs : gset pystr) (targets filtered : list row) :
  Forall (fun r => number_absent r = false) targets ->
  filter_loop approvals certs targets filtered
  = Py.Ok (filtered
           ++ filter (fun r => number_matches approvals certs r = true) targets).
Proof.
  intros H. revert filtered.
  induction H as [|r targets Hr _ IH]; intros filtered.
  - simpl. now rewrite app_nil_r.
  - apply number_absent_false in Hr as [Ha Hc].
    cbn [filter_loop]. rewrite (strip_cell_present _ _ Ha), (strip_cell_present _ _ Hc).
    rewrite filter_cons. fold (number_matches approvals certs r).
    destruct (number_matches approvals certs r) eqn:E.
    + rewrite IH, <- app_assoc. simpl.
      destruct (decide (true = true)); [reflexivity|congruence].
    + rewrite IH. destruct (decide (false = true)); [congruence|reflexivity].
Qed.

Lemma filter_loop_absent (approvals certs : gset pystr) (targets filtered : list row) :
  Exists (fun r => number_absent r = true) targets ->
  exists e, filter_loop approvals certs targets filtered = Py.Raise e.
Proof.
  intros H. revert filtered.
  induction H as [r targets Hr|r targets _ IH]; intros filtered.
  - cbn [filter_loop]. unfold number_absent in Hr.
    destruct (strip_cell (get_or_empty r (u "承認番号"))) as [an|e] eqn:Ea; [|eauto].
    destruct (strip_cell (get_or_empty r (u "認証番号"))) as [cn|e] eqn:Ec; [|eauto].
    apply orb_true_iff in Hr as [Hr|Hr]; apply bool_decide_eq_true in Hr;
      apply strip_cell_absent in Hr as [e He]; congruence.
  - cbn [filter_loop].
    destruct (strip_cell (get_or_empty r (u "承認番号"))) as [an|e]; [|eauto].
    destruct (strip_cell (get_or_empty r (u "認証番号"))) as [cn|e]; [|eauto].
    destruct (_ || _); apply IH.
Qed.

Lemma load_and_filter_unfold (csv_file : pystr) (use_filter : bool)
    (approvals certs : gset pystr) (w : world) (content : pystr)
    (hdr : option (list pystr)) (rows : list row) :
  fs w !! csv_file = Some content ->
  Csv.DictReader (Csv.universal_newlines content) = Py.Ok (hdr, rows) ->
  _load_and_filter_targets csv_file use_filter approvals certs w
  = filter_targets rows use_filter approvals certs w.
Proof.
  intros Hf Hr.
  unfold _load_and_filter_targets, read_rows, bind, read_text, lift, ret.
  now rewrite Hf, Hr.
Qed.

Lemma qualifies_trimmed_split (use_filter : bool)
    (approvals certs : gset pystr) (r : row) :
  qualifies_trimmed use_filter approvals certs r
  = is_target r && (negb use_filter || number_matches approvals certs r).
Proof.
  unfold qualifies_trimmed, number_matches. rewrite is_target_cells.
  cbv zeta. now rewrite <- !orb_assoc.
Qed.

Lemma filter_targets_present (use_filter : bool)
    (approvals certs : gset pystr) (rows : list row) (w : world) :
  (use_filter = true ->
   Forall (fun r => is_target r = true -> number_absent r = false) rows) ->
  exists w',
    filter_targets rows use_filter approvals certs w
    = (Py.Ok (filter (fun r => qualifies_trimmed use_filter approvals certs r
                               = true) rows), w').
Proof.
  intros Habs. unfold filter_targets. destruct use_filter.
  - eexists. unfold bind, lift. rewrite filter_loop_present.
    + assert (E : filter (fun r => number_matches approvals certs r = true)
                    (filter (fun r => is_target r = true) rows)
                  = filter (fun r => qualifies_trimmed true approvals certs r
                                     = true) rows).
      { rewrite list_filter_filter. apply list_filter_iff.
        intros r. rewrite qualifies_trimmed_split, andb_true_iff.
        cbn [negb orb]. tauto. }
      cbn [app]. rewrite E. reflexivity.
    + specialize (Habs eq_refl). rewrite Forall_forall in Habs.
      apply Forall_forall. intros r Hin.
      apply list_elem_of_filter in Hin as [Ht Hin]. now apply Habs.
  - eexists. unfold ret. f_equal. f_equal. apply list_filter_iff.
    intros r. rewrite qualifies_trimmed_split. cbn [negb orb].
    now rewrite andb_true_r.
Qed.

(** C2 (as the code has it): when no qualifying row lacks a number cell,
    the read returns, in file order, exactly the rows whose section is
    Listed and whose PDF address is non-empty and, with filtering on,
    whose trimmed approval number is non-empty and in the approval set or
    whose trimmed certification number is non-empty and in the
    certification set. *)
Theorem load_targets_qualify (csv_file : pystr) (use_filter : bool)
    (approvals certs : gset pystr) (w : world) (content : pystr)
    (hdr : option (list pystr)) (rows : list row) :
  fs w !! csv_file = Some content ->
  Csv.DictReader (Csv.universal_newlines content) = Py.Ok (hdr, rows) ->
  (use_filter = true ->
   Forall (fun r => is_target r = true -> number_absent r = false) rows) ->
  exists targets w',
    _load_and_filter_targets csv_file use_filter approvals certs w
    = (Py.Ok targets, w')
    /\ targets
       = filter (fun r => qualifies_trimmed use_filter approvals certs r = true)
                rows
    /\ forall r, r ∈ targets <->
         r ∈ rows /\ qualifies_trimmed use_filter approvals certs r = true.
Proof.
  intros Hf Hr Habs.
  rewrite (load_and_filter_unfold _ _ _ _ _ _ _ _ Hf Hr).
  destruct (filter_targets_present use_filter approvals certs rows w Habs)
    as [w' Heq].
  eexists _, w'. split; [exact Heq|]. split; [reflexivity|].
  intros r. rewrite list_elem_of_filter. tauto.
Qed.

Lemma world_with_lookup (path content : pystr) :
  fs (world_with path content) !! path = Some content.
Proof. apply lookup_singleton_eq. Qed.

(** The file with the padded number has one data row; the code's test
    accepts it and the test of the specification rejects it. *)
Lemma padded_number_checks :
  match Csv.DictReader (Csv.universal_newlines padded_number_csv) with
  | Py.Ok (_, [r0]) =>
      is_target r0 && negb (number_absent r0)
      && qualifies_trimmed true {[ u "A100" ]} ∅ r0
      && negb (qualifies_spec true {[ u "A100" ]} ∅ r0)
  | _ => false
  end = true.
Proof. vm_compute. reflexivity. Qed.

(** C2, as stated, fails: an approval number written with a leading space
    is matched after trimming, so the row is a target although the cell
    itself is not in the allow-list. *)
Lemma targets_as_specified_fails : ~ targets_as_specified.
Proof.
  intros H. pose proof padded_number_checks as Hc.
  destruct (Csv.DictReader (Csv.universal_newlines padded_number_csv))
    as [[hdr [|r0 [|]]]|] eqn:Hread; try discriminate Hc.
  rewrite !andb_true_iff, !negb_true_iff in Hc.
  destruct Hc as [[[Ht Ha] Hq] Hs].
  pose (w := world_with (u "in.csv") padded_number_csv).
  destruct (H (u "in.csv") true {[ u "A100" ]} ∅ w padded_number_csv hdr [r0]
              (world_with_lookup _ _) Hread)
    as (targets & w' & Heq & Hiff).
  rewrite (load_and_filter_unfold (u "in.csv") true {[ u "A100" ]} ∅ w
             padded_number_csv hdr [r0] (world_with_lookup _ _) Hread) in Heq.
  destruct (filter_targets_present true {[ u "A100" ]} ∅ [r0] w) as [w2 Heq2].
  { intros _. constructor; [now intros _|constructor]. }
  rewrite Heq2 in Heq. injection Heq as <- _.
  destruct (proj1 (Hiff r0)) as [_ Hq'].
  - apply list_elem_of_filter. split; [exact Hq|left].
  - congruence.
Qed.

Lemma load_targets_qualify_witness :
  exists targets : list row,
    fst (_load_and_filter_targets (u "in.csv") true {[ u "A100" ]} ∅
           (world_with (u "in.csv") padded_number_csv))
    = Py.Ok targets
    /\ length targets = 1.
Proof.
  pose proof padded_number_checks as Hc.
  destruct (Csv.DictReader (Csv.universal_newlines padded_number_csv))
    as [[hdr [|r0 [|]]]|] eqn:Hread; try discriminate Hc.
  rewrite !andb_true_iff, !negb_true_iff in Hc.
  destruct Hc as [[[Ht Ha] Hq] Hs].
  destruct (load_targets_qualify (u "in.csv") true {[ u "A100" ]} ∅
              (world_with (u "in.csv") padded_number_csv)
              padded_number_csv hdr [r0] (world_with_lookup _ _) Hread)
    as (targets & w' & Heq & Htargets & _).
  - intros _. constructor; [now intros _|constructor].
  - exists targets. rewrite Heq. split; [reflexivity|].
    rewrite Htargets, filter_cons, decide_True by exact Hq. reflexivity.
Defined.


(** *** The monad *)

Lemma bind_ok {A B} (m : M A) (k : A -> M B) (w w' : world) (a : A) :
  m w = (Py.Ok a, w') -> bind m k w = k a w'.
Proof. unfold bind. now intros ->. Qed.

Lemma bind_raise {A B} (m : M A) (k : A -> M B) (w w' : world) (e : pystr) :
  m w = (Py.Raise e, w') -> bind m k w = (Py.Raise e, w').
Proof. unfold bind. now intros ->. Qed.

Lemma try_ok {A} (m : M A) (h : pystr -> M A) (w w' : world) (a : A) :
  m w = (Py.Ok a, w') -> try_except m h w = (Py.Ok a, w').
Proof. unfold try_except. now intros ->. Qed.

Lemma try_raise {A} (m : M A) (h : pystr -> M A) (w w' : world) (e : pystr) :
  m w = (Py.Raise e, w') -> try_except m h w = h e w'.
Proof. unfold try_except. now intros ->. Qed.

(** *** Absent cells *)

(** The cut line is read as a short record, and no row of the file
    passes the section and address test. *)
Lemma short_line_records :
  match Csv.read_records
          (Csv.readlines (Csv.universal_newlines short_line_csv))
          Csv.parse_reset with
  | Py.Ok [header; record] =>
      (length record <? length header) && negb (Csv.is_blank record)
  | _ => false
  end = true.
Proof. vm_compute. reflexivity. Qed.

Lemma short_line_rows :
  match Csv.DictReader (Csv.universal_newlines short_line_csv) with
  | Py.Ok (_, rows) => forallb (fun r => negb (is_target r)) rows
  | _ => false
  end = true.
Proof. vm_compute. reflexivity. Qed.

(** C10, as stated, fails: in a file with the columns in the written
    order a short line has no PDF address, so it is dropped before the
    numbers are looked at and nothing is raised. *)
Lemma short_row_raises_fails : ~ short_row_raises.
Proof.
  intros H. pose proof short_line_records as Hc.
  pose proof short_line_rows as Hrows.
  destruct (Csv.read_records _ _) as [[|header [|record [|]]]|] eqn:Hrec;
    try discriminate Hc.
  destruct (Csv.DictReader _) as [[hdr rows]|] eqn:Hread;
    try discriminate Hrows.
  rewrite andb_true_iff, negb_true_iff, Nat.ltb_lt in Hc.
  rewrite forallb_forall in Hrows.
  destruct Hc as [Hlen Hblank].
  pose (w := world_with (u "in.csv") short_line_csv).
  destruct (H (u "in.csv") ∅ ∅ w short_line_csv header [record]
              (world_with_lookup _ _) Hrec) as (e & w' & Heq).
  - exists record. split; [left|]. split; [|exact Hlen].
    intros ->. discriminate Hblank.
  - rewrite (load_and_filter_unfold (u "in.csv") true ∅ ∅ w short_line_csv
               hdr rows (world_with_lookup _ _) Hread) in Heq.
    destruct (filter_targets_present true ∅ ∅ rows w) as [w2 Heq2].
    + intros _. apply Forall_forall. intros r Hin Ht.
      apply list_elem_of_In in Hin. specialize (Hrows r Hin).
      rewrite Ht in Hrows. discriminate Hrows.
    + rewrite Heq2 in Heq. discriminate Heq.
Qed.

Section DownloadFacts.

Variable path_join : pystr -> pystr -> pystr.
Variable get_download : nat -> pystr -> Py.result response.

Lemma load_filter_lists_logs_only (use_filter : bool) (hosp_csv : pystr)
    (w : world) :
  logs_only w (snd (_load_filter_lists use_filter hosp_csv w)).
Proof.
  unfold _load_filter_lists, load_hospital_device_list, try_except, bind,
    read_text, lift, log, ret, raise, logs_only.
  destruct use_filter; [|now simpl].
  simpl. destruct (fs w !! hosp_csv); simpl; [|now auto].
  destruct (Csv.DictReader _) as [[[h|] rows]|e]; simpl; auto.
Qed.

Lemma load_targets_raises_iff (csv_file : pystr)
    (approvals certs : gset pystr) (w : world) (content : pystr)
    (hdr : option (list pystr)) (rows : list row) :
  fs w !! csv_file = Some content ->
  Csv.DictReader (Csv.universal_newlines content) = Py.Ok (hdr, rows) ->
  (exists r, r ∈ rows /\ is_target r = true /\ number_absent r = true)
  <-> exists e,
        _load_and_filter_targets csv_file true approvals certs w
        = (Py.Raise e, w).
Proof.
  intros Hf Hr. split.
  - intros (r & Hin & Ht & Habs).
    rewrite (load_and_filter_unfold _ _ _ _ _ _ _ _ Hf Hr).
    unfold filter_targets, bind, lift.
    destruct (filter_loop_absent approvals certs
                (filter (fun r => is_target r = true) rows) []) as [e He].
    + apply Exists_exists. exists r. split; [|exact Habs].
      apply list_elem_of_filter. now split.
    + rewrite He. eauto.
  - intros [e He].
    destruct (decide (Exists (fun r => is_target r = true
                                       /\ number_absent r = true) rows))
      as [Hex|Hnex].
    + apply Exists_exists in Hex as (r & Hin & Ht & Ha). eauto.
    + rewrite (load_and_filter_unfold _ _ _ _ _ _ _ _ Hf Hr) in He.
      destruct (filter_targets_present true approvals certs rows w)
        as [w' Heq].
      * intros _. apply Forall_forall. intros r Hin Ht.
        destruct (number_absent r) eqn:Ha; [|reflexivity].
        exfalso. apply Hnex. apply Exists_exists. eauto.
      * congruence.
Qed.

(** C10 (as the code has it): with filtering on, the read raises exactly
    when a row that passes the section and address test has an absent
    approval-number or certification-number cell; the download run then
    ends with the error logged, no request sent and no file touched. *)
Theorem absent_number_aborts_download (is_running : nat -> bool)
    (csv_file out_dir hosp_csv : pystr) (skip_exist : bool)
    (approvals certs : gset pystr) (w : world) (content : pystr)
    (hdr : option (list pystr)) (rows : list row) :
  fs w !! csv_file = Some content ->
  Csv.DictReader (Csv.universal_newlines content) = Py.Ok (hdr, rows) ->
  ((exists r, r ∈ rows /\ is_target r = true /\ number_absent r = true)
   <-> exists e,
         _load_and_filter_targets csv_file true approvals certs w
         = (Py.Raise e, w))
  /\ ((exists r, r ∈ rows /\ is_target r = true /\ number_absent r = true) ->
      let out := download_thread path_join get_download is_running csv_file
                   out_dir true hosp_csv skip_exist w in
      fst out = Py.Ok tt
      /\ fs (snd out) = fs w /\ sent (snd out) = sent w
      /\ tick (snd out) = tick w
      /\ exists e, last (logs (snd out)) = Some (u "エラー: " ++ e)).
Proof.
  intros Hf Hr. split; [now apply (load_targets_raises_iff _ _ _ _ _ _ _ Hf Hr)|].
  intros Hbad. cbv zeta.
  pose proof (load_filter_lists_logs_only true hosp_csv w) as (Ht & Hs & Hfs).
  assert (Hrun : exists e w1,
    (tick w1 = tick w /\ sent w1 = sent w /\ fs w1 = fs w)
    /\ download_thread path_join get_download is_running csv_file out_dir
         true hosp_csv skip_exist w
       = log (u "エラー: " ++ e) w1).
  { unfold download_thread.
    destruct (_load_filter_lists true hosp_csv w) as [[sets|e] w1] eqn:Hlists;
      simpl in Ht, Hs, Hfs.
    - assert (Hf1 : fs w1 !! csv_file = Some content) by now rewrite Hfs.
      destruct (proj1 (load_targets_raises_iff csv_file (fst sets) (snd sets)
                         w1 content hdr rows Hf1 Hr) Hbad) as [e He].
      exists e, w1. split; [auto|].
      erewrite (try_raise _ _ w w1 e); [reflexivity|].
      rewrite (bind_ok _ _ _ _ _ Hlists). now apply bind_raise.
    - exists e, w1. split; [auto|].
      erewrite (try_raise _ _ w w1 e); [reflexivity|].
      now apply bind_raise. }
  destruct Hrun as (e & w1 & (Ht1 & Hs1 & Hfs1) & ->).
  unfold log. cbn [fst snd logs fs sent tick set_logs].
  split; [reflexivity|]. split; [exact Hfs1|]. split; [exact Hs1|].
  split; [exact Ht1|]. exists e. apply last_snoc.
Qed.

End DownloadFacts.

(** The reordered file has one data row: a target without its number
    cells. *)
Lemma reordered_short_checks :
  match Csv.DictReader (Csv.universal_newlines reordered_short_csv) with
  | Py.Ok (_, [r]) => is_target r && number_absent r
  | _ => false
  end = true.
Proof. vm_compute. reflexivity. Qed.

Lemma absent_number_aborts_download_witness :
  let w := world_with (u "in.csv") reordered_short_csv in
  let out := download_thread (fun d f => d ++ u "/" ++ f)
               (fun _ _ => Py.Raise (u "unreachable")) (fun _ => true)
               (u "in.csv") (u "out") true (u "hospital.csv") true w in
  fst out = Py.Ok tt /\ fs (snd out) = fs w /\ sent (snd out) = sent w.
Proof.
  pose proof reordered_short_checks as Hc.
  destruct (Csv.DictReader _) as [[hdr [|r [|]]]|] eqn:Hread;
    try discriminate Hc.
  apply andb_true_iff in Hc as [Ht Ha].
  destruct (absent_number_aborts_download (fun d f => d ++ u "/" ++ f)
              (fun _ _ => Py.Raise (u "unreachable")) (fun _ => true)
              (u "in.csv") (u "out") (u "hospital.csv") true ∅ ∅
              (world_with (u "in.csv") reordered_short_csv)
              reordered_short_csv hdr [r] (world_with_lookup _ _) Hread)
    as [_ Habort].
  destruct Habort as (Hok & Hfs & Hsent & _).
  - exists r. split; [left|]. now split.
  - cbv zeta. split; [exact Hok|]. split; [exact Hfs|exact Hsent].
Defined.

(** *** File names: the sample row *)

Lemma query_address_filename :
  target_filename query_address_row = Py.Ok (Some (u "x?y_a_b.pdf")).
Proof. vm_compute. reflexivity. Qed.

(** C8, as stated, fails: the identifier taken from the address keeps its
    question mark. *)
Lemma filename_as_specified_fails : ~ filename_as_specified.
Proof.
  intros H.
  assert (Hq : ch "?" ∈ invalid_chars).
  { apply (bool_decide_unpack _). vm_compute. exact I. }
  apply (H query_address_row (u "a:b") (u "x?y_a_b.pdf")) with (c := ch "?").
  - vm_compute. reflexivity.
  - vm_compute. reflexivity.
  - exists (ch ":"). split; apply (bool_decide_unpack _); vm_compute; exact I.
  - exact query_address_filename.
  - exact Hq.
  - apply (bool_decide_unpack _). vm_compute. exact I.
Qed.

Lemma filename_sanitized_witness :
  (ch "/" ∉ u "x?y_a_b.pdf") /\ (ch "?" ∈ u "x?y_a_b.pdf").
Proof.
  destruct (filename_sanitized query_address_row (u "x?y_a_b.pdf")
              query_address_filename)
    as (url & name & doc_id & _ & _ & _ & _ & _ & Hslash & _).
  split; [exact Hslash|].
  apply (bool_decide_unpack _). vm_compute. exact I.
Defined.


(** *** Allow-list loader *)

Lemma last_matching_snoc (marker : pystr) (l : list pystr) (col : pystr) :
  last_matching marker (l ++ [col])
  = if Py.contains marker col then Some col else last_matching marker l.
Proof.
  unfold last_matching. rewrite filter_app, filter_cons, filter_nil.
  destruct (Py.contains marker col).
  - rewrite decide_True by reflexivity. apply last_snoc.
  - rewrite decide_False by discriminate. now rewrite app_nil_r.
Qed.

Lemma find_columns_last (fieldnames : list pystr) :
  find_columns fieldnames
  = (last_matching (u "承認番号") fieldnames,
     last_matching (u "認証番号") fieldnames).
Proof.
  unfold find_columns.
  induction fieldnames as [|col l IH] using rev_ind; [reflexivity|].
  rewrite fold_left_app. cbn [fold_left]. rewrite IH. cbn [fst snd].
  now rewrite !last_matching_snoc.
Qed.

Lemma add_value_union (v : option pystr) (l : list pystr) (s : gset pystr) :
  list_to_set l ∪ add_value v s
  = list_to_set (from_option (fun x => x :: l) l v) ∪ s.
Proof.
  destruct v as [x|]; [|reflexivity]. cbn [add_value from_option list_to_set].
  now rewrite (union_comm_L {[x]} (list_to_set l)), union_assoc_L.
Qed.

Lemma fold_values (c1 c2 : option pystr) (rows : list row)
    (s1 s2 : gset pystr) :
  fold_left
    (fun sets r =>
       (add_value (column_value c1 r) (fst sets),
        add_value (column_value c2 r) (snd sets)))
    rows (s1, s2)
  = (column_values c1 rows ∪ s1, column_values c2 rows ∪ s2).
Proof.
  revert s1 s2. induction rows as [|r rows IH]; intros s1 s2.
  - unfold column_values. cbn [omap list_omap list_to_set fold_left].
    now rewrite !union_empty_l_L.
  - cbn [fold_left fst snd]. rewrite IH. unfold column_values.
    rewrite !add_value_union. cbn [omap list_omap].
    now destruct (column_value c1 r), (column_value c2 r).
Qed.

Lemma load_hospital_last_columns (csv_path : pystr) (w : world)
    (content : pystr) (fieldnames : list pystr) (rows : list row) :
  fs w !! csv_path = Some content ->
  Csv.DictReader (Csv.universal_newlines content)
  = Py.Ok (Some fieldnames, rows) ->
  load_hospital_device_list csv_path w
  = (Py.Ok (column_values (last_matching (u "承認番号") fieldnames) rows,
            column_values (last_matching (u "認証番号") fieldnames) rows), w).
Proof.
  intros Hf Hr. unfold load_hospital_device_list, bind, read_text, lift, ret.
  rewrite Hf, Hr. cbn [fst snd]. rewrite find_columns_last. cbn [fst snd].
  rewrite fold_values. now rewrite !union_empty_r_L.
Qed.

(** C6 (as the code has it): the loop over the header keeps the last
    column name holding each marker, and each set holds the trimmed
    non-empty values of that column. *)
Theorem load_hospital_uses_last_column (csv_path : pystr) (w : world)
    (content : pystr) (fieldnames : list pystr) (rows : list row) :
  fs w !! csv_path = Some content ->
  Csv.DictReader (Csv.universal_newlines content)
  = Py.Ok (Some fieldnames, rows) ->
  load_hospital_device_list csv_path w
  = (Py.Ok (column_values (last_matching (u "承認番号") fieldnames) rows,
            column_values (last_matching (u "認証番号") fieldnames) rows), w).
Proof. apply load_hospital_last_columns. Qed.

Lemma two_approval_columns_checks :
  match Csv.DictReader (Csv.universal_newlines two_approval_columns_csv) with
  | Py.Ok (Some fieldnames, rows) =>
      (1 <? length (filter (fun col => Py.contains (u "承認番号") col = true)
                           fieldnames))
      && bool_decide (column_values (first_matching (u "承認番号") fieldnames)
                        rows = {[ u "A-OLD" ]})
      && bool_decide (column_values (last_matching (u "承認番号") fieldnames)
                        rows = {[ u "A-NEW" ]})
  | _ => false
  end = true.
Proof. vm_compute. reflexivity. Qed.

(** C6, as stated, fails: with two approval-number columns the set holds
    the values of the second. *)
Lemma first_column_wins_fails : ~ first_column_wins.
Proof.
  intros H. pose proof two_approval_columns_checks as Hc.
  destruct (Csv.DictReader _) as [[[fieldnames|] rows]|] eqn:Hread;
    try discriminate Hc.
  rewrite !andb_true_iff, Nat.ltb_lt in Hc. destruct Hc as [[Hlen Hfirst] Hlast].
  apply bool_decide_eq_true in Hfirst, Hlast.
  pose (w := world_with (u "hospital.csv") two_approval_columns_csv).
  specialize (H (u "hospital.csv") w two_approval_columns_csv fieldnames rows
                (world_with_lookup _ _) Hread (or_introl Hlen)).
  rewrite (load_hospital_last_columns (u "hospital.csv") w
             two_approval_columns_csv fieldnames rows
             (world_with_lookup _ _) Hread) in H.
  cbn [fst] in H. injection H as H1 _.
  rewrite Hfirst, Hlast in H1.
  assert (Hin : u "A-NEW" ∈ ({[ u "A-OLD" ]} : gset pystr)).
  { rewrite <- H1. now apply elem_of_singleton. }
  apply elem_of_singleton in Hin. vm_compute in Hin. discriminate Hin.
Qed.

Lemma load_hospital_uses_last_column_witness :
  exists certs : gset pystr,
    fst (load_hospital_device_list (u "hospital.csv")
           (world_with (u "hospital.csv") two_approval_columns_csv))
    = Py.Ok ({[ u "A-NEW" ]}, certs).
Proof.
  pose proof two_approval_columns_checks as Hc.
  destruct (Csv.DictReader _) as [[[fieldnames|] rows]|] eqn:Hread;
    try discriminate Hc.
  rewrite !andb_true_iff in Hc. destruct Hc as [[_ _] Hlast].
  apply bool_decide_eq_true in Hlast.
  eexists.
  rewrite (load_hospital_uses_last_column (u "hospital.csv")
             (world_with (u "hospital.csv") two_approval_columns_csv)
             two_approval_columns_csv fieldnames rows
             (world_with_lookup _ _) Hread).
  cbn [fst]. rewrite Hlast. reflexivity.
Defined.


(** *** Single-file download *)

Section DownloadFileFacts.

Variable path_join : pystr -> pystr -> pystr.
Variable get_download : nat -> pystr -> Py.result response.

Lemma write_chunks_content (path : pystr) (cs : list (list N)) (w : world)
    (content : list N) :
  fs w !! path = Some content ->
  exists w',
    write_chunks path cs w = (Py.Ok tt, w')
    /\ fs w' !! path = Some (content ++ concat cs)
    /\ (forall p, p <> path -> fs w' !! p = fs w !! p)
    /\ tick w' = tick w /\ sent w' = sent w /\ logs w' = logs w.
Proof.
  revert w content. induction cs as [|c cs IH]; intros w content Hc.
  - exists w. cbn [write_chunks concat]. rewrite app_nil_r. now auto.
  - cbn [write_chunks]. unfold bind, write_chunk at 1. rewrite Hc.
    cbn [default from_option id].
    destruct (IH (set_fs (<[path:=content ++ c]> (fs w)) w) (content ++ c))
      as (w' & Hrun & Hfile & Hother & Ht & Hs & Hl).
    { cbn [fs set_fs]. apply lookup_insert_eq. }
    exists w'. rewrite Hrun. split; [reflexivity|].
    split; [now rewrite Hfile, <- app_assoc|].
    split; [|now auto].
    intros p Hp. rewrite Hother by exact Hp. cbn [fs set_fs].
    now apply lookup_insert_ne.
Qed.

(** C9: a transport error after a success status makes [download_file]
    report a failure and leave the destination file behind, holding the
    chunks that had arrived; with skip-existing on, a later pass over the
    row finds the file, counts the row as skipped and sends no request. *)
Theorem failed_download_leaves_file (url save_path : pystr) (w : world)
    (resp : response) (e : pystr) :
  get_download (tick w) url = Py.Ok resp ->
  status_code resp = 200 ->
  stream_error resp = Some e ->
  let out := download_file get_download url save_path w in
  fst out = Py.Ok (false, Some e)
  /\ fs (snd out) !! save_path = Some (concat (chunks resp))
  /\ forall (is_running : nat -> bool) (pdf_dir : pystr) (r : row)
            (filename : pystr) (total i success fail skipped : nat)
            (w2 : world),
       target_filename r = Py.Ok (Some filename) ->
       path_join pdf_dir filename = save_path ->
       fs w2 !! save_path = fs (snd out) !! save_path ->
       is_running (tick w2) = true ->
       let again := download_loop path_join get_download is_running pdf_dir
                      true total i [r] (success, fail, skipped) w2 in
       fst again = Py.Ok (success, fail, S skipped)
       /\ sent (snd again) = sent w2
       /\ fs (snd again) = fs w2.
Proof.
  intros Hget Hstatus Herr. cbv zeta.
  assert (Hrun : exists w',
    download_file get_download url save_path w = (Py.Ok (false, Some e), w')
    /\ fs w' !! save_path = Some (concat (chunks resp))).
  { unfold download_file.
    destruct (write_chunks_content save_path (chunks resp)
                (set_fs (<[save_path:=[]]> (fs (request url w))) (request url w))
                []) as (w' & Hw & Hfile & _).
    { cbn [fs set_fs]. apply lookup_insert_eq. }
    exists w'. split; [|exact Hfile].
    erewrite (try_raise _ _ w w' e); [reflexivity|].
    unfold bind at 1, requests_get_download. rewrite Hget, Hstatus.
    cbn [Nat.eqb]. unfold bind at 1, open_wb. unfold bind at 1.
    rewrite Hw, Herr. reflexivity. }
  destruct Hrun as (w' & -> & Hfile). cbn [fst snd].
  split; [reflexivity|]. split; [exact Hfile|].
  intros is_running pdf_dir r filename total i success fail skipped w2
    Hname Hpath Hsame Hflag.
  rewrite Hfile in Hsame.
  assert (Hagain : exists w3,
    download_loop path_join get_download is_running pdf_dir true total i [r]
      (success, fail, skipped) w2 = (Py.Ok (success, fail, S skipped), w3)
    /\ sent w3 = sent w2 /\ fs w3 = fs w2).
  { cbn [download_loop]. unfold bind, read_flag, lift, log, os_path_exists, ret.
    rewrite Hflag, Hname. cbn [negb fs set_logs set_tick].
    rewrite Hpath, Hsame, bool_decide_eq_true_2 by eauto. cbn [andb].
    eexists. split; [reflexivity|]. now split. }
  destruct Hagain as (w3 & -> & Hs & Hf). now auto.
Qed.

End DownloadFileFacts.

Lemma product_x_filename :
  target_filename product_x_row = Py.Ok (Some (u "123_456_ProductX.pdf")).
Proof. vm_compute. reflexivity. Qed.

Lemma failed_download_leaves_file_witness :
  let url := u "https://www.info.pmda.go.jp/ygo/pdf/123_456/" in
  let save_path := u "out/pdf/123_456_ProductX.pdf" in
  let get_download := fun (_ : nat) (_ : pystr) => Py.Ok broken_stream in
  let out := download_file get_download url save_path empty_world in
  let again := download_loop posix_join get_download (fun _ => true)
                 (u "out/pdf") true 1 1 [product_x_row] (0, 0, 0) (snd out) in
  fst out = Py.Ok (false, Some (u "Connection broken"))
  /\ fs (snd out) !! save_path = Some [37; 80; 68; 70]%N
  /\ fst again = Py.Ok (0, 0, 1)
  /\ sent (snd again) = sent (snd out).
Proof.
  cbv zeta.
  destruct (failed_download_leaves_file posix_join
              (fun _ _ => Py.Ok broken_stream)
              (u "https://www.info.pmda.go.jp/ygo/pdf/123_456/")
              (u "out/pdf/123_456_ProductX.pdf") empty_world broken_stream
              (u "Connection broken") eq_refl eq_refl eq_refl)
    as (Hfail & Hfile & Hagain).
  split; [exact Hfail|]. split; [exact Hfile|].
  destruct (Hagain (fun _ => true) (u "out/pdf") product_x_row
              (u "123_456_ProductX.pdf") 1 1 0 0 0
              (snd (download_file (fun _ _ => Py.Ok broken_stream)
                      (u "https://www.info.pmda.go.jp/ygo/pdf/123_456/")
                      (u "out/pdf/123_456_ProductX.pdf") empty_world)))
    as (Hskip & Hsent & _).
  - exact product_x_filename.
  - vm_compute. reflexivity.
  - reflexivity.
  - reflexivity.
  - split; [exact Hskip|exact Hsent].
Defined.


(** *** Clock and cancellation *)

Lemma mono_ret {A} (a : A) : mono (ret a).
Proof. intros w. reflexivity. Qed.

Lemma mono_raise {A} (e : pystr) : mono (@raise A e).
Proof. intros w. reflexivity. Qed.

Lemma mono_lift {A} (r : Py.result A) : mono (lift r).
Proof. intros w. reflexivity. Qed.

Lemma mono_log (msg : pystr) : mono (log msg).
Proof. intros w. reflexivity. Qed.

Lemma mono_log_if (b : bool) (msg : pystr) : mono (log_if b msg).
Proof. destruct b; [apply mono_log|apply mono_ret]. Qed.

Lemma mono_sleep : mono sleep.
Proof. apply mono_ret. Qed.

Lemma mono_read_flag (flag : nat -> bool) : mono (read_flag flag).
Proof. intros w. simpl. lia. Qed.

Lemma mono_bind {A B} (m : M A) (k : A -> M B) :
  mono m -> (forall a, mono (k a)) -> mono (bind m k).
Proof.
  intros Hm Hk w. unfold bind. specialize (Hm w).
  destruct (m w) as [[a|e] w1]; simpl in *; [|exact Hm].
  specialize (Hk a w1). lia.
Qed.

Lemma mono_try {A} (m : M A) (h : pystr -> M A) :
  mono m -> (forall e, mono (h e)) -> mono (try_except m h).
Proof.
  intros Hm Hh w. unfold try_except. specialize (Hm w).
  destruct (m w) as [[a|e] w1]; simpl in *; [exact Hm|].
  specialize (Hh e w1). lia.
Qed.

Lemma mono_stop_requested (cancel_check : option (nat -> bool)) :
  mono (stop_requested cancel_check).
Proof.
  destruct cancel_check; [|apply mono_ret].
  apply mono_bind; [apply mono_read_flag|intros; apply mono_ret].
Qed.

Lemma same_refl {A} (T : nat) (m : M A) : same_below T m m.
Proof. now intros w _. Qed.

Lemma same_bind {A B} (T : nat) (m1 m2 : M A) (k1 k2 : A -> M B) :
  same_below T m1 m2 -> (forall a, same_below T (k1 a) (k2 a)) ->
  (forall a, mono (k2 a)) ->
  same_below T (bind m1 k1) (bind m2 k2).
Proof.
  intros Hm Hk Hmono w Hend. unfold bind in *.
  destruct (m2 w) as [[a|e] w1] eqn:E2.
  - rewrite Hm, E2.
    + now apply Hk.
    + rewrite E2. specialize (Hmono a w1). simpl. lia.
  - rewrite Hm, E2; [reflexivity|]. now rewrite E2.
Qed.

Lemma same_try {A} (T : nat) (m1 m2 : M A) (h : pystr -> M A) :
  same_below T m1 m2 -> (forall e, mono (h e)) ->
  same_below T (try_except m1 h) (try_except m2 h).
Proof.
  intros Hm Hmono w Hend. unfold try_except in *.
  destruct (m2 w) as [[a|e] w1] eqn:E2.
  - rewrite Hm, E2; [reflexivity|]. now rewrite E2.
  - rewrite Hm, E2; [reflexivity|].
    rewrite E2. specialize (Hmono e w1). simpl. lia.
Qed.

Lemma same_stop_requested (T : nat) (flag : nat -> bool) :
  (forall t, t < T -> flag t = true) ->
  same_below T (stop_requested (Some flag)) (stop_requested (Some uncancelled)).
Proof.
  intros Hflag w Hend. unfold stop_requested, bind, read_flag, ret in *.
  simpl in Hend. rewrite Hflag by lia. reflexivity.
Qed.

Section CollectionFacts.

Variable cfg : Settings.
Variable get_listing : nat -> pystr -> Py.result html.
Variable get_body : nat -> pystr -> Py.result body_page.

Lemma mono_requests_get_listing (url : pystr) :
  mono (requests_get_listing get_listing url).
Proof. intros w. simpl. lia. Qed.

Lemma mono_requests_get_body (url : pystr) :
  mono (requests_get_body get_body url).
Proof. intros w. simpl. lia. Qed.

Ltac mono_step :=
  match goal with
  | |- mono (bind _ _) => apply mono_bind; [|intros ?]
  | |- mono (try_except _ _) => apply mono_try; [|intros ?]
  | |- mono (ret _) => apply mono_ret
  | |- mono (raise _) => apply mono_raise
  | |- mono (lift _) => apply mono_lift
  | |- mono (log _) => apply mono_log
  | |- mono (log_if _ _) => apply mono_log_if
  | |- mono sleep => apply mono_sleep
  | |- mono (read_flag _) => apply mono_read_flag
  | |- mono (stop_requested _) => apply mono_stop_requested
  | |- mono (requests_get_listing _ _) => apply mono_requests_get_listing
  | |- mono (requests_get_body _ _) => apply mono_requests_get_body
  | |- mono (if ?b then _ else _) => destruct b
  | |- mono (match ?x with _ => _ end) => destruct x
  end.

Lemma mono_fetch_approval_number (detail_url : pystr) (log_callback : bool) :
  mono (fetch_approval_number cfg get_body detail_url log_callback).
Proof. unfold fetch_approval_number. repeat mono_step. Qed.

Lemma mono_scrape_row date_str fetch_numbers log_callback cancel_check
    current_section cells :
  mono (scrape_row cfg get_body date_str fetch_numbers log_callback
          cancel_check current_section cells).
Proof.
  unfold scrape_row. cbv zeta.
  repeat first [apply mono_fetch_approval_number | mono_step].
Qed.

Lemma mono_scrape_rows date_str fetch_numbers log_callback cancel_check
    current_section rows results :
  mono (scrape_rows cfg get_body date_str fetch_numbers log_callback
          cancel_check current_section rows results).
Proof.
  revert results. induction rows as [|row rows IH]; intros results;
    cbn [scrape_rows]; [apply mono_ret|].
  apply mono_bind; [apply mono_scrape_row|].
  intros [new|]; [apply IH|apply mono_ret].
Qed.

Lemma mono_scrape_tables date_str fetch_numbers log_callback cancel_check
    current_section tables results :
  mono (scrape_tables cfg get_body date_str fetch_numbers log_callback
          cancel_check current_section tables results).
Proof.
  revert current_section results.
  induction tables as [|[prev_h2 rows] tables IH];
    intros current_section results; cbn [scrape_tables]; [apply mono_ret|].
  cbv zeta. destruct (update_section current_section prev_h2); [|apply IH].
  apply mono_bind; [apply mono_scrape_rows|].
  intros [rs []]; cbn [fst snd]; [apply IH|apply mono_ret].
Qed.

Lemma mono_scrape_date date_str fetch_numbers log_callback cancel_check :
  mono (scrape_date cfg get_listing get_body date_str fetch_numbers
          log_callback cancel_check).
Proof.
  unfold scrape_date. cbv zeta.
  repeat first [apply mono_scrape_tables | mono_step].
Qed.

Lemma mono_collect_date is_running fetch_nums total i date_str :
  mono (collect_date cfg get_listing get_body is_running fetch_nums total i
          date_str).
Proof.
  unfold collect_date.
  repeat first [apply mono_scrape_date | mono_step].
Qed.

Lemma mono_collect_loop is_running fetch_nums total i dates all_results :
  mono (collect_loop cfg get_listing get_body is_running fetch_nums total i
          dates all_results).
Proof.
  revert i all_results. induction dates as [|d dates IH];
    intros i all_results; cbn [collect_loop]; [apply mono_ret|].
  repeat first [apply IH | apply mono_collect_date | mono_step].
Qed.

Ltac mono_all :=
  cbv zeta;
  repeat first [ apply mono_collect_loop | apply mono_collect_date
               | apply mono_scrape_date
               | apply mono_scrape_tables | apply mono_scrape_rows
               | apply mono_scrape_row | apply mono_fetch_approval_number
               | mono_step ].

Ltac same_step :=
  match goal with
  | |- same_below _ ?m ?m => apply same_refl
  | |- same_below _ (bind _ _) (bind _ _) =>
      apply same_bind; [|intros ?|intros ?; mono_all]
  | |- same_below _ (try_except _ _) (try_except _ _) =>
      apply same_try; [|intros ?; mono_all]
  | |- same_below _ (stop_requested (Some _)) (stop_requested (Some _)) =>
      apply same_stop_requested; assumption
  | |- same_below _ (if ?b then _ else _) (if ?b then _ else _) => destruct b
  | |- same_below _ (match ?x with _ => _ end) (match ?x with _ => _ end) =>
      destruct x
  end.

Variable T : nat.
Variable flag : nat -> bool.
Hypothesis flag_true_below : forall t, t < T -> flag t = true.

Lemma same_scrape_row date_str fetch_numbers log_callback current_section
    cells :
  same_below T
    (scrape_row cfg get_body date_str fetch_numbers log_callback
       (Some flag) current_section cells)
    (scrape_row cfg get_body date_str fetch_numbers log_callback
       (Some uncancelled) current_section cells).
Proof. unfold scrape_row. cbv zeta. repeat same_step. Qed.

Lemma same_scrape_rows date_str fetch_numbers log_callback current_section
    rows results :
  same_below T
    (scrape_rows cfg get_body date_str fetch_numbers log_callback
       (Some flag) current_section rows results)
    (scrape_rows cfg get_body date_str fetch_numbers log_callback
       (Some uncancelled) current_section rows results).
Proof.
  revert results. induction rows as [|row rows IH]; intros results;
    cbn [scrape_rows]; [apply same_refl|].
  apply same_bind; [apply same_scrape_row| |].
  - intros [new|]; [apply IH|apply same_refl].
  - intros [new|]; mono_all.
Qed.

Lemma same_scrape_tables date_str fetch_numbers log_callback current_section
    tables results :
  same_below T
    (scrape_tables cfg get_body date_str fetch_numbers log_callback
       (Some flag) current_section tables results)
    (scrape_tables cfg get_body date_str fetch_numbers log_callback
       (Some uncancelled) current_section tables results).
Proof.
  revert current_section results.
  induction tables as [|[prev_h2 rows] tables IH];
    intros current_section results; cbn [scrape_tables]; [apply same_refl|].
  cbv zeta. destruct (update_section current_section prev_h2); [|apply IH].
  apply same_bind; [apply same_scrape_rows| |].
  - intros [rs []]; cbn [fst snd]; [apply IH|apply same_refl].
  - intros [rs []]; mono_all.
Qed.

Lemma same_scrape_date date_str fetch_numbers log_callback :
  same_below T
    (scrape_date cfg get_listing get_body date_str fetch_numbers log_callback
       (Some flag))
    (scrape_date cfg get_listing get_body date_str fetch_numbers log_callback
       (Some uncancelled)).
Proof.
  unfold scrape_date. cbv zeta.
  apply same_try; [|intros ?; mono_all].
  apply same_bind; [apply same_refl| |intros ?; mono_all].
  intros soup.
  apply same_bind; [apply same_scrape_tables| |intros ?; mono_all].
  intros ?. apply same_refl.
Qed.

Lemma same_collect_date fetch_nums total i date_str :
  same_below T
    (collect_date cfg get_listing get_body flag fetch_nums total i date_str)
    (collect_date cfg get_listing get_body uncancelled fetch_nums total i
       date_str).
Proof.
  unfold collect_date.
  apply same_bind; [apply same_refl| |intros ?; mono_all].
  intros _.
  apply same_bind; [apply same_scrape_date| |intros ?; mono_all].
  intros ?. apply same_refl.
Qed.

End CollectionFacts.


(** *** The collection loop *)

Section LoopFacts.

Variable cfg : Settings.
Variable get_listing : nat -> pystr -> Py.result html.
Variable get_body : nat -> pystr -> Py.result body_page.

Lemma scrape_date_returns date_str fetch_numbers log_callback cancel_check w :
  exists results w',
    scrape_date cfg get_listing get_body date_str fetch_numbers log_callback
      cancel_check w = (Py.Ok results, w').
Proof.
  unfold scrape_date, try_except. cbv zeta.
  match goal with |- context [match ?m w with _ => _ end] =>
    destruct (m w) as [[results|e] w'] end.
  - eauto.
  - destruct log_callback; unfold bind, log_if, log, ret; eauto.
Qed.

Lemma collect_date_returns is_running fetch_nums total i date_str w :
  exists results w',
    collect_date cfg get_listing get_body is_running fetch_nums total i
      date_str w = (Py.Ok results, w').
Proof.
  unfold collect_date, bind, log, sleep, ret. cbn beta iota.
  match goal with |- context [scrape_date _ _ _ ?d ?e ?f ?g ?w1] =>
    destruct (scrape_date_returns d e f g w1) as (results & w' & ->) end.
  eauto.
Qed.

Lemma collect_loop_running is_running fetch_nums total i date_str dates
    all_results w :
  is_running (tick w) = true ->
  collect_loop cfg get_listing get_body is_running fetch_nums total i
    (date_str :: dates) all_results w
  = bind (collect_date cfg get_listing get_body is_running fetch_nums total i
            date_str)
      (fun results =>
         collect_loop cfg get_listing get_body is_running fetch_nums total
           (S i) dates (all_results ++ results))
      (set_tick (S (tick w)) w).
Proof.
  intros H. cbn [collect_loop]. unfold bind at 1, read_flag. now rewrite H.
Qed.

Lemma collect_loop_stopped is_running fetch_nums total i date_str dates
    all_results w :
  is_running (tick w) = false ->
  collect_loop cfg get_listing get_body is_running fetch_nums total i
    (date_str :: dates) all_results w
  = (Py.Ok all_results, set_tick (S (tick w)) w).
Proof.
  intros H. cbn [collect_loop]. unfold bind at 1, read_flag. now rewrite H.
Qed.

Lemma uncancelled_loop_gathers fetch_nums total i dates all_results w :
  fst (collect_loop cfg get_listing get_body uncancelled fetch_nums total i
         dates all_results w)
  = Py.Ok (all_results
           ++ concat (gathered cfg get_listing get_body fetch_nums total i
                        dates w)).
Proof.
  revert i all_results w. induction dates as [|d dates IH];
    intros i all_results w.
  - simpl. now rewrite app_nil_r.
  - rewrite collect_loop_running by reflexivity. cbn [gathered]. cbv zeta.
    destruct (collect_date_returns uncancelled fetch_nums total i d
                (set_tick (S (tick w)) w)) as (results & w' & Hd).
    unfold bind. rewrite Hd. cbn [fst snd].
    rewrite IH. cbn [concat]. now rewrite app_assoc.
Qed.

Lemma cancelled_loop_prefix (flag : nat -> bool) fetch_nums total
    (dates rest : list pystr) i all_results w :
  let reference :=
    collect_loop cfg get_listing get_body uncancelled fetch_nums total i
      dates all_results w in
  (forall t, t < tick (snd reference) -> flag t = true) ->
  (rest <> [] -> flag (tick (snd reference)) = false) ->
  fst (collect_loop cfg get_listing get_body flag fetch_nums total i
         (dates ++ rest) all_results w)
  = fst reference.
Proof.
  revert i all_results w. induction dates as [|d dates IH];
    intros i all_results w; cbv zeta.
  - intros _ Hstop. cbn [app]. destruct rest as [|d rest]; [reflexivity|].
    rewrite collect_loop_stopped; [reflexivity|].
    now apply Hstop.
  - intros Hbelow Hstop. cbn [app].
    rewrite collect_loop_running in Hbelow, Hstop by reflexivity.
    rewrite (collect_loop_running uncancelled) by reflexivity.
    assert (Hw : tick w < tick (snd
      (bind (collect_date cfg get_listing get_body uncancelled fetch_nums
               total i d)
         (fun results =>
            collect_loop cfg get_listing get_body uncancelled fetch_nums
              total (S i) dates (all_results ++ results))
         (set_tick (S (tick w)) w)))).
    { match goal with |- _ < tick (snd (?m ?w1)) =>
        assert (Hm : mono m) by
          (apply mono_bind; [apply mono_collect_date
                            |intros ?; apply mono_collect_loop]);
        specialize (Hm w1) end.
      cbn [tick set_tick] in Hm. lia. }
    rewrite collect_loop_running by now apply Hbelow.
    unfold bind in *.
    destruct (collect_date cfg get_listing get_body uncancelled fetch_nums
                total i d (set_tick (S (tick w)) w))
      as [[results|e] w'] eqn:Hd.
    + rewrite (same_collect_date cfg get_listing get_body _ flag Hbelow).
      * rewrite Hd. now apply IH.
      * rewrite Hd. cbn [snd].
        pose proof (mono_collect_loop cfg get_listing get_body uncancelled
                      fetch_nums total (S i) dates (all_results ++ results) w').
        auto.
    + rewrite (same_collect_date cfg get_listing get_body _ flag Hbelow).
      * now rewrite Hd.
      * rewrite Hd. reflexivity.
Qed.

Lemma scrape_row_dates date_str fetch_numbers log_callback cancel_check
    current_section cells w new w' :
  scrape_row cfg get_body date_str fetch_numbers log_callback cancel_check
    current_section cells w = (Py.Ok (Some new), w') ->
  Forall (fun r => r_date r = date_str) new.
Proof.
  unfold scrape_row. cbv zeta. unfold bind.
  destruct (stop_requested cancel_check w) as [[[]|e] w1];
    try (unfold ret; discriminate).
  destruct cells as [|name_cell [|company_cell [|reason_cell cells]]];
    try (unfold ret; intros [= <- _]; constructor).
  destruct (lift _ w1) as [[pdf_url|e] w2]; [|discriminate].
  match goal with |- context [if ?b then _ else _] => destruct b end.
  - destruct (stop_requested cancel_check w2) as [[[]|e] w3];
      try (unfold ret; discriminate).
    destruct (log_if _ _ w3) as [[[]|e] w4]; [|discriminate].
    destruct (fetch_approval_number _ _ _ _ w4) as [[numbers|e] w5];
      [|discriminate].
    unfold sleep, ret. intros [= <- _].
    destruct (_ && _); repeat constructor.
  - unfold ret. intros [= <- _].
    destruct (_ && _); repeat constructor.
Qed.

Lemma scrape_rows_dates date_str fetch_numbers log_callback cancel_check
    current_section rows results w out w' :
  Forall (fun r => r_date r = date_str) results ->
  scrape_rows cfg get_body date_str fetch_numbers log_callback cancel_check
    current_section rows results w = (Py.Ok out, w') ->
  Forall (fun r => r_date r = date_str) (fst out).
Proof.
  revert results w. induction rows as [|row rows IH]; intros results w Hres;
    cbn [scrape_rows].
  - unfold ret. now intros [= <- _].
  - unfold bind.
    destruct (scrape_row _ _ _ _ _ _ _ _ w) as [[[new|]|e] w1] eqn:Hrow;
      try discriminate.
    + apply IH. apply Forall_app. split; [exact Hres|].
      now apply scrape_row_dates in Hrow.
    + unfold ret. now intros [= <- _].
Qed.

Lemma scrape_tables_dates date_str fetch_numbers log_callback cancel_check
    current_section tables results w out w' :
  Forall (fun r => r_date r = date_str) results ->
  scrape_tables cfg get_body date_str fetch_numbers log_callback cancel_check
    current_section tables results w = (Py.Ok out, w') ->
  Forall (fun r => r_date r = date_str) (fst out).
Proof.
  revert current_section results w.
  induction tables as [|[prev_h2 rows] tables IH];
    intros current_section results w Hres; cbn [scrape_tables].
  - unfold ret. now intros [= <- _].
  - cbv zeta. destruct (update_section current_section prev_h2);
      [|now apply IH].
    unfold bind.
    destruct (scrape_rows _ _ _ _ _ _ _ _ _ w) as [[[rs fl]|e] w1] eqn:Hrows;
      try discriminate.
    apply scrape_rows_dates in Hrows; [|exact Hres]. cbn [fst snd] in *.
    destruct fl; [now apply IH|].
    unfold ret. now intros [= <- _].
Qed.

Lemma scrape_date_dates date_str fetch_numbers log_callback cancel_check
    w results w' :
  scrape_date cfg get_listing get_body date_str fetch_numbers log_callback
    cancel_check w = (Py.Ok results, w') ->
  Forall (fun r => r_date r = date_str) results.
Proof.
  unfold scrape_date, try_except. cbv zeta. unfold bind at 1.
  destruct (requests_get_listing get_listing _ w) as [[soup|e] w1].
  - unfold bind.
    destruct (scrape_tables _ _ _ _ _ _ _ _ _ w1) as [[out|e] w2] eqn:Htables.
    + apply scrape_tables_dates in Htables; [|constructor].
      unfold ret. now intros [= <- _].
    + destruct log_callback; unfold log_if, log, ret; intros [= <- _];
        constructor.
  - destruct log_callback; unfold bind, log_if, log, ret; intros [= <- _];
      constructor.
Qed.

Lemma collect_date_dates is_running fetch_nums total i date_str w results w' :
  collect_date cfg get_listing get_body is_running fetch_nums total i
    date_str w = (Py.Ok results, w') ->
  Forall (fun r => r_date r = date_str) results.
Proof.
  unfold collect_date, bind, log, sleep, ret. cbn beta iota.
  match goal with |- context [scrape_date _ _ _ ?a1 ?a2 ?a3 ?a4 ?w1] =>
    destruct (scrape_date cfg get_listing get_body a1 a2 a3 a4 w1)
      as [[rs|err] w2] eqn:Hs end;
    [|discriminate].
  intros [= <- _]. now apply scrape_date_dates in Hs.
Qed.

Lemma gathered_dates fetch_nums total i dates w r :
  r ∈ concat (gathered cfg get_listing get_body fetch_nums total i dates w) ->
  r_date r ∈ dates.
Proof.
  revert i w. induction dates as [|d dates IH]; intros i w; cbn [gathered].
  - intros H. now apply elem_of_nil in H.
  - cbv zeta.
    destruct (collect_date _ _ _ _ _ _ _ _ _) as [[results|e] w'] eqn:Hd;
      cbn [fst snd]; [|intros H; now apply elem_of_nil in H].
    cbn [concat]. rewrite elem_of_app. intros [Hin|Hin].
    + apply collect_date_dates in Hd. rewrite Forall_forall in Hd.
      rewrite (Hd r Hin). left.
    + right. now apply IH in Hin.
Qed.

Lemma gathered_length fetch_nums total i dates w :
  length (gathered cfg get_listing get_body fetch_nums total i dates w)
  = length dates.
Proof.
  revert i w. induction dates as [|d dates IH]; intros i w; [reflexivity|].
  cbn [gathered]. cbv zeta.
  destruct (collect_date_returns uncancelled fetch_nums total i d
              (set_tick (S (tick w)) w)) as (results & w' & ->).
  cbn [fst snd length]. now rewrite IH.
Qed.

(** The flag cleared between two dates: if the flag reads true up to the
    instant at which an uncancelled run has processed the first [k]
    dates, and false at that instant (when dates remain), the result of
    the collection loop is the concatenation of what the first [k] dates
    yield, and every record in it bears one of those dates. *)
Theorem cancelled_after_k_dates (flag : nat -> bool) (fetch_nums : bool)
    (dates : list pystr) (k : nat) (w : world) :
  k <= length dates ->
  let reference :=
    collect_loop cfg get_listing get_body uncancelled fetch_nums
      (length dates) 1 (take k dates) [] w in
  (forall t, t < tick (snd reference) -> flag t = true) ->
  (k < length dates -> flag (tick (snd reference)) = false) ->
  let result :=
    fst (_collect_data cfg get_listing get_body flag dates fetch_nums w) in
  result
  = Py.Ok (concat (gathered cfg get_listing get_body fetch_nums
                     (length dates) 1 (take k dates) w))
  /\ length (gathered cfg get_listing get_body fetch_nums
               (length dates) 1 (take k dates) w) = k
  /\ forall records r, result = Py.Ok records -> r ∈ records ->
       r_date r ∈ take k dates.
Proof.
  intros Hk reference Hbelow Hstop result.
  assert (Hres : result
    = Py.Ok (concat (gathered cfg get_listing get_body fetch_nums
                       (length dates) 1 (take k dates) w))).
  { subst result. unfold _collect_data.
    rewrite <- (take_drop k dates) at 2.
    rewrite cancelled_loop_prefix.
    - now rewrite uncancelled_loop_gathers.
    - exact Hbelow.
    - intros Hrest. apply Hstop.
      destruct (decide (k < length dates)) as [|Hge]; [assumption|].
      exfalso. apply Hrest. apply drop_ge. lia. }
  split; [exact Hres|]. split.
  - rewrite gathered_length, length_take. lia.
  - intros records r Hrec Hin. rewrite Hres in Hrec. injection Hrec as <-.
    now apply gathered_dates in Hin.
Qed.

(** A listing request that raises: when the request for the listing page
    of a date raises, the per-date call returns the empty list with the
    error logged; the call never raises, whatever happens in it; and the
    loop over the dates goes on with the next date, its records so far
    unchanged. *)
Theorem listing_failure_is_local (date_str : pystr)
    (fetch_numbers log_callback : bool) (cancel_check : option (nat -> bool))
    (w : world) (e : pystr) :
  let url := base_url cfg ++ Py.replace (u "-") [] date_str in
  get_listing (tick w) url = Py.Raise e ->
  scrape_date cfg get_listing get_body date_str fetch_numbers log_callback
    cancel_check w
  = (Py.Ok [], snd (log_if log_callback (u "  エラー: " ++ e) (request url w)))
  /\ (forall d fn lc cc w0, exists results w',
        scrape_date cfg get_listing get_body d fn lc cc w0
        = (Py.Ok results, w'))
  /\ forall (is_running : nat -> bool) (total i : nat) (dates : list pystr)
            (all_results : list ListingRecord) (w0 : world),
       is_running (tick w0) = true ->
       S (tick w0) = tick w ->
       exists w1,
         collect_loop cfg get_listing get_body is_running fetch_numbers
           total i (date_str :: dates) all_results w0
         = collect_loop cfg get_listing get_body is_running fetch_numbers
             total (S i) dates all_results w1
         /\ (u "  エラー: " ++ e) ∈ logs w1.
Proof.
  intros url Hfail.
  assert (Hscrape : forall fn lc cc w2, tick w2 = tick w ->
    scrape_date cfg get_listing get_body date_str fn lc cc w2
    = (Py.Ok [], snd (log_if lc (u "  エラー: " ++ e) (request url w2)))).
  { intros fn lc cc w2 Ht. unfold scrape_date. cbv zeta. fold url.
    erewrite (try_raise _ _ w2 (request url w2) e).
    - destruct lc; reflexivity.
    - apply bind_raise. unfold requests_get_listing. now rewrite Ht, Hfail. }
  split; [now apply Hscrape|]. split; [intros; apply scrape_date_returns|].
  intros is_running total i dates all_results w0 Hflag Htick.
  rewrite collect_loop_running by exact Hflag.
  unfold collect_date, bind, log, sleep, ret. cbn beta iota.
  rewrite Hscrape by (cbn [tick set_logs set_tick]; exact Htick).
  cbn [log_if log snd]. rewrite app_nil_r.
  eexists. split; [reflexivity|].
  cbn [logs set_logs request set_tick]. rewrite !elem_of_app.
  left. right. left.
Qed.

End LoopFacts.


(** *** Sections of tables *)

Lemma update_section_classify (current_section prev_h2 : option pystr) :
  update_section current_section prev_h2
  = match prev_h2 ≫= classify with
    | Some section => Some section
    | None => current_section
    end.
Proof.
  unfold update_section, classify. destruct prev_h2 as [text|]; [|reflexivity].
  cbn [mbind option_bind].
  destruct (Py.contains (u "掲載分") text); [reflexivity|].
  now destruct (Py.contains (u "削除分") text).
Qed.

Lemma running_section_last (headings : list (option pystr)) :
  fold_left update_section headings None = last_classified headings.
Proof.
  unfold last_classified.
  induction headings as [|h headings IH] using rev_ind; [reflexivity|].
  rewrite fold_left_app, omap_app. cbn [fold_left omap list_omap].
  rewrite update_section_classify, IH.
  destruct (h ≫= classify) as [section|].
  - now rewrite last_snoc.
  - now rewrite app_nil_r.
Qed.

Section TableFacts.

Variable cfg : Settings.
Variable get_body : nat -> pystr -> Py.result body_page.

Lemma scrape_tables_app date_str fetch_numbers log_callback cancel_check
    current_section (tables rest : list (option pystr * list tr)) results w :
  scrape_tables cfg get_body date_str fetch_numbers log_callback cancel_check
    current_section (tables ++ rest) results w
  = bind
      (scrape_tables cfg get_body date_str fetch_numbers log_callback
         cancel_check current_section tables results)
      (fun out =>
         match snd out with
         | Returned => ret out
         | Running =>
             scrape_tables cfg get_body date_str fetch_numbers log_callback
               cancel_check
               (fold_left update_section (map fst tables) current_section)
               rest (fst out)
         end) w.
Proof.
  revert current_section results w.
  induction tables as [|[prev_h2 rows] tables IH];
    intros current_section results w.
  - reflexivity.
  - cbn [app scrape_tables map fst fold_left]. cbv zeta.
    destruct (update_section current_section prev_h2) as [section|] eqn:Hs.
    + unfold bind in IH |- *.
      destruct (scrape_rows _ _ _ _ _ _ _ _ _ w) as [[[rs fl]|e] w1];
        [|reflexivity].
      cbn [fst snd]. destruct fl; [apply IH|reflexivity].
    + apply IH.
Qed.

(** C1 (as the code has it): a table is scraped under the section named
    by the last classifiable heading among its own nearest heading and
    those of the tables before it on the page; it is passed over, with no
    record and no checkpoint, only when none of them is classifiable. *)
Theorem table_scraped_under_running_section (date_str : pystr)
    (fetch_numbers log_callback : bool) (cancel_check : option (nat -> bool))
    (before : list (option pystr * list tr)) (prev_h2 : option pystr)
    (rows : list tr) (after : list (option pystr * list tr))
    (results : list ListingRecord) (w : world) :
  scrape_tables cfg get_body date_str fetch_numbers log_callback cancel_check
    None (before ++ (prev_h2, rows) :: after) results w
  = bind
      (scrape_tables cfg get_body date_str fetch_numbers log_callback
         cancel_check None before results)
      (fun out =>
         match snd out with
         | Returned => ret out
         | Running =>
             match last_classified (map fst before ++ [prev_h2]) with
             | None =>
                 scrape_tables cfg get_body date_str fetch_numbers
                   log_callback cancel_check None after (fst out)
             | Some section =>
                 bind
                   (scrape_rows cfg get_body date_str fetch_numbers
                      log_callback cancel_check section rows (fst out))
                   (fun out' =>
                      match snd out' with
                      | Returned => ret out'
                      | Running =>
                          scrape_tables cfg get_body date_str fetch_numbers
                            log_callback cancel_check (Some section) after
                            (fst out')
                      end)
             end
         end) w
  /\ (last_classified (map fst before ++ [prev_h2]) = None ->
      scrape_tables cfg get_body date_str fetch_numbers log_callback
        cancel_check None (before ++ (prev_h2, rows) :: after) results w
      = scrape_tables cfg get_body date_str fetch_numbers log_callback
          cancel_check None (before ++ after) results w).
Proof.
  assert (Hsec : update_section
                   (fold_left update_section (map fst before) None) prev_h2
                 = last_classified (map fst before ++ [prev_h2])).
  { rewrite <- running_section_last, fold_left_app. reflexivity. }
  split.
  - rewrite scrape_tables_app. unfold bind at 1 2.
    destruct (scrape_tables _ _ _ _ _ _ _ before results w)
      as [[[rs fl]|e] w1]; [|reflexivity].
    cbn [fst snd]. destruct fl; [|reflexivity].
    cbn [scrape_tables]. cbv zeta. rewrite Hsec.
    now destruct (last_classified _).
  - intros Hnone. rewrite !scrape_tables_app. unfold bind.
    destruct (scrape_tables _ _ _ _ _ _ _ before results w)
      as [[[rs fl]|e] w1]; [|reflexivity].
    cbn [fst snd]. destruct fl; [|reflexivity].
    cbn [scrape_tables]. cbv zeta. rewrite Hsec, Hnone.
    rewrite update_section_classify in Hsec. rewrite Hnone in Hsec.
    destruct (prev_h2 ≫= classify); [discriminate Hsec|].
    now rewrite Hsec.
Qed.

End TableFacts.


(** *** The sample pages *)

(** C1, as stated, fails: the table under the notice heading is scraped
    under the section of the table before it and adds a record. *)
Lemma unclassified_table_skipped_fails : ~ unclassified_table_skipped.
Proof.
  intros H.
  specialize (H DEFAULT_SETTINGS no_body (u "2024-01-15") false true None
                notice_heading [] notice_rows empty_world).
  assert (Hnone : nearest_h2 notice_heading ≫= classify = None)
    by (vm_compute; reflexivity).
  specialize (H Hnone). apply (f_equal count_records) in H.
  vm_compute in H. discriminate H.
Qed.

Example notice_table_adds_a_record :
  count_records
    (scrape_tables DEFAULT_SETTINGS no_body (u "2024-01-15") false true None
       None (find_all_table None (notice_heading ++ [Table notice_rows]))
       [] empty_world) = 2
  /\ count_records
       (scrape_tables DEFAULT_SETTINGS no_body (u "2024-01-15") false true None
          None (find_all_table None notice_heading) [] empty_world) = 1.
Proof. split; vm_compute; reflexivity. Qed.

Lemma table_scraped_under_running_section_witness :
  scrape_tables DEFAULT_SETTINGS no_body (u "2024-01-15") false true None None
    ((Some (u "お知らせ"), notice_rows) :: find_all_table None one_table_page)
    [] empty_world
  = scrape_tables DEFAULT_SETTINGS no_body (u "2024-01-15") false true None
      None (find_all_table None one_table_page) [] empty_world.
Proof.
  apply (proj2 (table_scraped_under_running_section DEFAULT_SETTINGS no_body
                  (u "2024-01-15") false true None [] (Some (u "お知らせ"))
                  notice_rows (find_all_table None one_table_page) []
                  empty_world)).
  vm_compute. reflexivity.
Defined.

Lemma one_date_reference_tick :
  tick (snd (collect_loop DEFAULT_SETTINGS serve_one_table no_body uncancelled
               false (length three_dates) 1 (take 1 three_dates) []
               empty_world)) = 3.
Proof. vm_compute. reflexivity. Qed.

Lemma cancelled_after_k_dates_witness :
  exists records,
    fst (_collect_data DEFAULT_SETTINGS serve_one_table no_body (cleared_at 3)
           three_dates false empty_world) = Py.Ok records
    /\ forall r, r ∈ records -> r_date r ∈ [u "2024-01-15"].
Proof.
  destruct (cancelled_after_k_dates DEFAULT_SETTINGS serve_one_table no_body
              (cleared_at 3) false three_dates 1 empty_world)
    as (Hres & _ & Hdates).
  - simpl. lia.
  - intros t Ht. rewrite one_date_reference_tick in Ht.
    now apply Nat.ltb_lt.
  - intros _. rewrite one_date_reference_tick. reflexivity.
  - eexists. split; [exact Hres|].
    intros r Hin. exact (Hdates _ r Hres Hin).
Defined.

Lemma listing_failure_is_local_witness :
  fst (scrape_date DEFAULT_SETTINGS listing_times_out no_body
         (u "2024-01-15") false true None empty_world) = Py.Ok []
  /\ exists w1,
       collect_loop DEFAULT_SETTINGS listing_times_out no_body uncancelled
         false 3 1 three_dates [] empty_world
       = collect_loop DEFAULT_SETTINGS listing_times_out no_body uncancelled
           false 3 2 (drop 1 three_dates) [] w1.
Proof.
  destruct (listing_failure_is_local DEFAULT_SETTINGS listing_times_out no_body
              (u "2024-01-15") false true None empty_world
              (u "Read timed out.") eq_refl) as (Hempty & _ & _).
  split; [now rewrite Hempty|].
  destruct (listing_failure_is_local DEFAULT_SETTINGS listing_times_out no_body
              (u "2024-01-15") false true None (set_tick 1 empty_world)
              (u "Read timed out.") eq_refl) as (_ & _ & Hloop).
  destruct (Hloop uncancelled 3 1 (drop 1 three_dates) [] empty_world
              eq_refl eq_refl) as (w1 & Hgo & _).
  exists w1. exact Hgo.
Defined.


(** *** Tabular store: a reason of two lines *)

Lemma two_line_checks :
  match read_back posix_join (u "20240115_120000") [two_line_record]
          (u "out") empty_world with
  | Py.Ok [d] =>
      bool_decide (d !! u "理由"
                   = Some (Some (u "line1" ++ [Csv.LF] ++ u "line2")))
      && negb (same_fields two_line_record d)
  | _ => false
  end = true.
Proof. vm_compute. reflexivity. Qed.

(** C5 at a record whose reason holds CR LF: the row read back has a
    lone LF there, so it differs from the record written. *)
Theorem two_line_reason_read_back :
  exists d : row,
    read_back posix_join (u "20240115_120000") [two_line_record] (u "out")
      empty_world = Py.Ok [d]
    /\ d !! u "理由" = Some (Some (u "line1" ++ [Csv.LF] ++ u "line2"))
    /\ same_fields two_line_record d = false.
Proof.
  pose proof two_line_checks as Hc.
  destruct (read_back _ _ _ _ _) as [[|d [|]]|]; try discriminate Hc.
  apply andb_true_iff in Hc as [Hreason Hdiff].
  exists d. split; [reflexivity|]. split.
  - now apply bool_decide_eq_true in Hreason.
  - now apply negb_true_iff in Hdiff.
Qed.

(** C5, as stated, fails at that record. *)
Lemma store_round_trip_fails : ~ store_round_trip.
Proof.
  intros H. pose proof two_line_checks as Hc.
  destruct (H posix_join (u "20240115_120000") [two_line_record] (u "out")
              empty_world) as [(rows & Hread & Hsame) _].
  rewrite Hread in Hc.
  destruct rows as [|d [|]]; try discriminate Hc.
  apply andb_true_iff in Hc as [_ Hdiff]. apply negb_true_iff in Hdiff.
  apply Forall2_cons_1 in Hsame as [Hsame _]. congruence.
Qed.


(** *** Tabular store: reading back what was written *)

Lemma readlines_nil (s : pystr) : Csv.readlines s = [] -> s = [].
Proof.
  destruct s as [|c s]; [reflexivity|]. cbn [Csv.readlines].
  destruct (c =? Csv.LF)%N; [discriminate|].
  destruct (Csv.readlines s); discriminate.
Qed.

Lemma read_records_cons_char (c : N) (line : pystr) (lines : list pystr)
    (r : Csv.reader) :
  Csv.read_records ((c :: line) :: lines) r
  = match Csv.parse_process_char (Some c) r with
    | Py.Ok r1 => Csv.read_records (line :: lines) r1
    | Py.Raise e => Py.Raise e
    end.
Proof.
  cbn [Csv.read_records Csv.parse_line].
  now destruct (Csv.parse_process_char (Some c) r).
Qed.

Lemma read_records_chars (s : pystr) (r : Csv.reader) :
  s = [] \/ last s = Some Csv.LF ->
  Csv.read_records (Csv.readlines s) r = parse_chars s r.
Proof.
  revert r. induction s as [|c s IH]; intros r Hend; [reflexivity|].
  assert (Htail : c <> Csv.LF -> s <> [] /\ last s = Some Csv.LF).
  { intros Hc. destruct Hend as [|Hend]; [discriminate|].
    destruct s as [|c' s]; [simpl in Hend; congruence|].
    split; [discriminate|exact Hend]. }
  assert (Hlf : c = Csv.LF -> s = [] \/ last s = Some Csv.LF).
  { intros _. destruct Hend as [|Hend]; [discriminate|].
    destruct s as [|c' s]; [now left|right; exact Hend]. }
  cbn [Csv.readlines parse_chars].
  destruct (N.eqb_spec c Csv.LF) as [Hc|Hc].
  - cbn [Csv.read_records Csv.parse_line].
    destruct (Csv.parse_process_char (Some c) r) as [r1|e]; [|reflexivity].
    destruct (Csv.parse_process_char None r1) as [r2|e]; [|reflexivity].
    rewrite !IH by auto. reflexivity.
  - destruct (Htail Hc) as [Hne Hlast].
    destruct (Csv.readlines s) as [|line lines] eqn:Hlines.
    { now apply readlines_nil in Hlines. }
    rewrite read_records_cons_char.
    destruct (Csv.parse_process_char (Some c) r) as [r1|e]; [|reflexivity].
    apply IH. now right.
Qed.

(** The parser on the characters of one field. *)

Lemma plain_spec (c : N) :
  plain c = true ->
  Csv.is_newline c = false /\ (c =? Csv.QUOTE)%N = false
  /\ (c =? Csv.COMMA)%N = false /\ (c =? Csv.LF)%N = false.
Proof.
  unfold plain, Csv.is_newline. rewrite negb_true_iff, !orb_false_iff.
  intros [[[Hc Hq] Hr] Hl]. rewrite Hl, Hr. auto.
Qed.

Lemma add_char_ok (c : N) (st : Csv.parser_state) (acc : pystr)
    (done : list pystr) :
  (N.of_nat (length (acc ++ [c])) <= Csv.field_size_limit)%N ->
  Csv.parse_add_char c {| Csv.state := st; Csv.field := acc;
                          Csv.fields := done |}
  = Py.Ok {| Csv.state := st; Csv.field := acc ++ [c]; Csv.fields := done |}.
Proof.
  intros Hlen. unfold Csv.parse_add_char. cbn [Csv.field Csv.state Csv.fields].
  rewrite length_app in Hlen. cbn [length] in Hlen.
  destruct (N.leb_spec Csv.field_size_limit (N.of_nat (length acc)));
    [lia|reflexivity].
Qed.

Lemma parse_chars_step (c : N) (s : pystr) (r r1 : Csv.reader) :
  (c =? Csv.LF)%N = false ->
  Csv.parse_process_char (Some c) r = Py.Ok r1 ->
  parse_chars (c :: s) r = parse_chars s r1.
Proof. intros Hc Hstep. cbn [parse_chars]. now rewrite Hstep, Hc. Qed.

Lemma parse_chars_line_open (s : pystr) (r r1 r2 : Csv.reader) :
  Csv.parse_process_char (Some Csv.LF) r = Py.Ok r1 ->
  Csv.parse_process_char None r1 = Py.Ok r2 ->
  Csv.state r2 = Csv.IN_QUOTED_FIELD ->
  parse_chars (Csv.LF :: s) r = parse_chars s r2.
Proof.
  intros H1 H2 Hst. cbn [parse_chars]. rewrite H1, H2, Hst. reflexivity.
Qed.

Lemma parse_chars_line_end (s : pystr) (r r1 r2 : Csv.reader) :
  Csv.parse_process_char (Some Csv.LF) r = Py.Ok r1 ->
  Csv.parse_process_char None r1 = Py.Ok r2 ->
  Csv.state r2 = Csv.START_RECORD ->
  parse_chars (Csv.LF :: s) r
  = match parse_chars s Csv.parse_reset with
    | Py.Ok rows => Py.Ok (Csv.fields r2 :: rows)
    | Py.Raise e => Py.Raise e
    end.
Proof.
  intros H1 H2 Hst. cbn [parse_chars]. rewrite H1, H2, Hst. reflexivity.
Qed.

Lemma parse_plain_run (cs acc : pystr) (done : list pystr) (rest : pystr) :
  forallb plain cs = true ->
  (N.of_nat (length (acc ++ cs)) <= Csv.field_size_limit)%N ->
  parse_chars (cs ++ rest)
    {| Csv.state := Csv.IN_FIELD; Csv.field := acc; Csv.fields := done |}
  = parse_chars rest
      {| Csv.state := Csv.IN_FIELD; Csv.field := acc ++ cs;
         Csv.fields := done |}.
Proof.
  revert acc. induction cs as [|c cs IH]; intros acc Hplain Hlen.
  - now rewrite app_nil_r.
  - cbn [forallb] in Hplain. apply andb_true_iff in Hplain as [Hc Hplain].
    destruct (plain_spec c Hc) as (Hnl & Hq & Hcomma & Hlf).
    cbn [app].
    rewrite (parse_chars_step c _ _
               {| Csv.state := Csv.IN_FIELD; Csv.field := acc ++ [c];
                  Csv.fields := done |} Hlf).
    + rewrite IH; [now rewrite <- app_assoc|exact Hplain|].
      now rewrite <- app_assoc.
    + unfold Csv.parse_process_char. cbn [Csv.state].
      rewrite Hnl, Hcomma. apply add_char_ok.
      rewrite !length_app in *. cbn [length] in *. lia.
Qed.

Lemma parse_quoted_run (f acc : pystr) (done : list pystr) (rest : pystr) :
  (N.of_nat (length (acc ++ f)) <= Csv.field_size_limit)%N ->
  parse_chars (Csv.double_quotes f ++ rest)
    {| Csv.state := Csv.IN_QUOTED_FIELD; Csv.field := acc;
       Csv.fields := done |}
  = parse_chars rest
      {| Csv.state := Csv.IN_QUOTED_FIELD; Csv.field := acc ++ f;
         Csv.fields := done |}.
Proof.
  revert acc. induction f as [|c f IH]; intros acc Hlen.
  - now rewrite app_nil_r.
  - assert (Hlen1 : (N.of_nat (length (acc ++ [c])) <= Csv.field_size_limit)%N).
    { rewrite !length_app in *. cbn [length] in *. lia. }
    assert (Hlen2 : (N.of_nat (length ((acc ++ [c]) ++ f))
                     <= Csv.field_size_limit)%N).
    { now rewrite <- app_assoc. }
    unfold Csv.double_quotes. cbn [flat_map].
    fold (Csv.double_quotes f).
    destruct (N.eqb_spec c Csv.QUOTE) as [->|Hq].
    + cbn [app].
      rewrite (parse_chars_step Csv.QUOTE _ _
                 {| Csv.state := Csv.QUOTE_IN_QUOTED_FIELD; Csv.field := acc;
                    Csv.fields := done |}) by reflexivity.
      rewrite (parse_chars_step Csv.QUOTE _ _
                 {| Csv.state := Csv.IN_QUOTED_FIELD;
                    Csv.field := acc ++ [Csv.QUOTE]; Csv.fields := done |}).
      * rewrite IH by exact Hlen2. now rewrite <- app_assoc.
      * reflexivity.
      * unfold Csv.parse_process_char. cbn [Csv.state].
        change (Csv.QUOTE =? Csv.QUOTE)%N with true. cbv iota.
        now rewrite add_char_ok by exact Hlen1.
    + apply N.eqb_neq in Hq. cbn [app].
      assert (Hstep : Csv.parse_process_char (Some c)
                {| Csv.state := Csv.IN_QUOTED_FIELD; Csv.field := acc;
                   Csv.fields := done |}
              = Py.Ok {| Csv.state := Csv.IN_QUOTED_FIELD;
                         Csv.field := acc ++ [c]; Csv.fields := done |}).
      { unfold Csv.parse_process_char. cbn [Csv.state]. rewrite Hq.
        now apply add_char_ok. }
      destruct (N.eqb_spec c Csv.LF) as [->|Hlf].
      * rewrite (parse_chars_line_open _ _ _ _ Hstep eq_refl eq_refl).
        rewrite IH by exact Hlen2. now rewrite <- app_assoc.
      * apply N.eqb_neq in Hlf.
        rewrite (parse_chars_step c _ _ _ Hlf Hstep).
        rewrite IH by exact Hlen2. now rewrite <- app_assoc.
Qed.

Lemma not_quoted_plain (f : pystr) :
  Csv.needs_quotes f = false -> forallb plain f = true.
Proof.
  unfold Csv.needs_quotes. induction f as [|c f IH]; [reflexivity|].
  cbn [existsb forallb]. rewrite orb_false_iff. intros [Hc Hf].
  unfold plain at 1. rewrite Hc. now rewrite IH.
Qed.

(** From the start of a record or of a field, the first character of an
    unquoted field opens it. *)
Lemma open_plain_field (st : Csv.parser_state) (c : N) (done : list pystr) :
  st = Csv.START_RECORD \/ st = Csv.START_FIELD ->
  plain c = true ->
  Csv.parse_process_char (Some c)
    {| Csv.state := st; Csv.field := []; Csv.fields := done |}
  = Py.Ok {| Csv.state := Csv.IN_FIELD; Csv.field := [c];
             Csv.fields := done |}.
Proof.
  intros Hst Hc. destruct (plain_spec c Hc) as (Hnl & Hq & Hcomma & Hlf).
  destruct Hst as [-> | ->]; unfold Csv.parse_process_char, Csv.start_field;
    cbn [Csv.state Csv.set_state Csv.field Csv.fields];
    rewrite ?Hnl, ?Hq, ?Hcomma; reflexivity.
Qed.

Lemma open_quoted_field (st : Csv.parser_state) (done : list pystr) :
  st = Csv.START_RECORD \/ st = Csv.START_FIELD ->
  Csv.parse_process_char (Some Csv.QUOTE)
    {| Csv.state := st; Csv.field := []; Csv.fields := done |}
  = Py.Ok {| Csv.state := Csv.IN_QUOTED_FIELD; Csv.field := [];
             Csv.fields := done |}.
Proof. intros [-> | ->]; reflexivity. Qed.

Lemma empty_field_comma (st : Csv.parser_state) (done : list pystr) :
  st = Csv.START_RECORD \/ st = Csv.START_FIELD ->
  Csv.parse_process_char (Some Csv.COMMA)
    {| Csv.state := st; Csv.field := []; Csv.fields := done |}
  = Py.Ok {| Csv.state := Csv.START_FIELD; Csv.field := [];
             Csv.fields := done ++ [[]] |}.
Proof. intros [-> | ->]; reflexivity. Qed.

Lemma parse_field_comma (f : pystr) (st : Csv.parser_state)
    (done : list pystr) (rest : pystr) :
  st = Csv.START_RECORD \/ st = Csv.START_FIELD ->
  (N.of_nat (length f) <= Csv.field_size_limit)%N ->
  parse_chars (Csv.write_field f ++ Csv.COMMA :: rest)
    {| Csv.state := st; Csv.field := []; Csv.fields := done |}
  = parse_chars rest
      {| Csv.state := Csv.START_FIELD; Csv.field := [];
         Csv.fields := done ++ [f] |}.
Proof.
  intros Hst Hlen. unfold Csv.write_field.
  destruct (Csv.needs_quotes f) eqn:Hq.
  - cbn [app]. rewrite <- app_assoc. cbn [app].
    rewrite (parse_chars_step Csv.QUOTE _ _ _ eq_refl
               (open_quoted_field st done Hst)).
    rewrite parse_quoted_run by exact Hlen. cbn [app].
    rewrite (parse_chars_step Csv.QUOTE _ _
               {| Csv.state := Csv.QUOTE_IN_QUOTED_FIELD; Csv.field := f;
                  Csv.fields := done |}) by reflexivity.
    now rewrite (parse_chars_step Csv.COMMA _ _
               {| Csv.state := Csv.START_FIELD; Csv.field := [];
                  Csv.fields := done ++ [f] |}) by reflexivity.
  - apply not_quoted_plain in Hq. destruct f as [|c cs].
    + cbn [app].
      now rewrite (parse_chars_step Csv.COMMA _ _ _ eq_refl
                     (empty_field_comma st done Hst)).
    + cbn [forallb] in Hq. apply andb_true_iff in Hq as [Hc Hcs].
      destruct (plain_spec c Hc) as (_ & _ & _ & Hlf).
      cbn [app].
      rewrite (parse_chars_step c _ _ _ Hlf (open_plain_field st c done Hst Hc)).
      rewrite parse_plain_run by assumption. cbn [app].
      now rewrite (parse_chars_step Csv.COMMA _ _
                 {| Csv.state := Csv.START_FIELD; Csv.field := [];
                    Csv.fields := done ++ [c :: cs] |}) by reflexivity.
Qed.

Lemma parse_field_lf (f : pystr) (st : Csv.parser_state)
    (done : list pystr) (rest : pystr) :
  st = Csv.START_FIELD \/ (st = Csv.START_RECORD /\ f <> []) ->
  (N.of_nat (length f) <= Csv.field_size_limit)%N ->
  parse_chars (Csv.write_field f ++ Csv.LF :: rest)
    {| Csv.state := st; Csv.field := []; Csv.fields := done |}
  = match parse_chars rest Csv.parse_reset with
    | Py.Ok rows => Py.Ok ((done ++ [f]) :: rows)
    | Py.Raise e => Py.Raise e
    end.
Proof.
  intros Hst Hlen.
  assert (Hst' : st = Csv.START_RECORD \/ st = Csv.START_FIELD)
    by (destruct Hst as [|[? _]]; auto).
  unfold Csv.write_field.
  destruct (Csv.needs_quotes f) eqn:Hq.
  - cbn [app]. rewrite <- app_assoc. cbn [app].
    rewrite (parse_chars_step Csv.QUOTE _ _ _ eq_refl
               (open_quoted_field st done Hst')).
    rewrite parse_quoted_run by exact Hlen. cbn [app].
    rewrite (parse_chars_step Csv.QUOTE _ _
               {| Csv.state := Csv.QUOTE_IN_QUOTED_FIELD; Csv.field := f;
                  Csv.fields := done |}) by reflexivity.
    now rewrite (parse_chars_line_end _ _
               {| Csv.state := Csv.EAT_CRNL; Csv.field := [];
                  Csv.fields := done ++ [f] |}
               {| Csv.state := Csv.START_RECORD; Csv.field := [];
                  Csv.fields := done ++ [f] |}) by reflexivity.
  - apply not_quoted_plain in Hq. destruct f as [|c cs].
    + destruct Hst as [-> | [_ Hne]]; [|congruence]. cbn [app].
      now rewrite (parse_chars_line_end _ _
                 {| Csv.state := Csv.EAT_CRNL; Csv.field := [];
                    Csv.fields := done ++ [[]] |}
                 {| Csv.state := Csv.START_RECORD; Csv.field := [];
                    Csv.fields := done ++ [[]] |}) by reflexivity.
    + cbn [forallb] in Hq. apply andb_true_iff in Hq as [Hc Hcs].
      destruct (plain_spec c Hc) as (_ & _ & _ & Hlf).
      cbn [app].
      rewrite (parse_chars_step c _ _ _ Hlf
                 (open_plain_field st c done Hst' Hc)).
      rewrite parse_plain_run by assumption. cbn [app].
      now rewrite (parse_chars_line_end _ _
                 {| Csv.state := Csv.EAT_CRNL; Csv.field := [];
                    Csv.fields := done ++ [c :: cs] |}
                 {| Csv.state := Csv.START_RECORD; Csv.field := [];
                    Csv.fields := done ++ [c :: cs] |}) by reflexivity.
Qed.

Lemma join_cons (sep : N) (x y : pystr) (l : list pystr) :
  Csv.join sep (x :: y :: l) = x ++ sep :: Csv.join sep (y :: l).
Proof. reflexivity. Qed.

Lemma parse_record (fields : list pystr) (st : Csv.parser_state)
    (done : list pystr) (rest : pystr) :
  fields <> [] ->
  Forall (fun f => (N.of_nat (length f) <= Csv.field_size_limit)%N) fields ->
  st = Csv.START_FIELD \/ (st = Csv.START_RECORD /\ fields <> [[]]) ->
  parse_chars (Csv.join Csv.COMMA (map Csv.write_field fields)
               ++ Csv.LF :: rest)
    {| Csv.state := st; Csv.field := []; Csv.fields := done |}
  = match parse_chars rest Csv.parse_reset with
    | Py.Ok rows => Py.Ok ((done ++ fields) :: rows)
    | Py.Raise e => Py.Raise e
    end.
Proof.
  revert st done.
  induction fields as [|f fields IH]; intros st done Hne Hlen Hst;
    [congruence|].
  apply Forall_cons in Hlen as [Hf Hlen].
  destruct fields as [|f' fields].
  - cbn [map Csv.join]. apply parse_field_lf; [|exact Hf].
    destruct Hst as [|[-> Hone]]; [now left|right].
    split; [reflexivity|]. intros ->. now apply Hone.
  - rewrite map_cons, (map_cons _ f'), join_cons, <- (map_cons _ f').
    rewrite <- app_assoc. cbn [app].
    rewrite parse_field_comma; [|destruct Hst as [|[? _]]; auto|exact Hf].
    rewrite (IH Csv.START_FIELD (done ++ [f]));
      [|discriminate|exact Hlen|now left].
    now rewrite <- app_assoc.
Qed.

(** The text after newline translation. *)

Lemma universal_newlines_line (a b : pystr) :
  Csv.CR ∉ a ->
  Csv.universal_newlines (a ++ Csv.CR :: Csv.LF :: b)
  = a ++ Csv.LF :: Csv.universal_newlines b.
Proof.
  induction a as [|c a IH]; intros Hcr; [reflexivity|].
  apply not_elem_of_cons in Hcr as [Hc Ha].
  cbn [app Csv.universal_newlines].
  destruct (N.eqb_spec c Csv.CR) as [->|_]; [congruence|].
  now rewrite IH.
Qed.

Lemma write_field_no_cr (f : pystr) : Csv.CR ∉ f -> Csv.CR ∉ Csv.write_field f.
Proof.
  intros Hf. unfold Csv.write_field.
  destruct (Csv.needs_quotes f); [|exact Hf].
  rewrite not_elem_of_cons, not_elem_of_app. split; [discriminate|].
  split.
  - unfold Csv.double_quotes. intros Hin.
    apply list_elem_of_In, in_flat_map in Hin as (c & Hc & Hin).
    apply list_elem_of_In in Hc.
    destruct (c =? Csv.QUOTE)%N.
    + destruct Hin as [Hin|[Hin|[]]]; discriminate Hin.
    + destruct Hin as [->|[]]. contradiction.
  - rewrite not_elem_of_cons. split; [discriminate|apply not_elem_of_nil].
Qed.

Lemma join_no_cr (fields : list pystr) :
  Forall (fun f => Csv.CR ∉ f) fields ->
  Csv.CR ∉ Csv.join Csv.COMMA (map Csv.write_field fields).
Proof.
  induction fields as [|f fields IH]; intros Hcr; [apply not_elem_of_nil|].
  apply Forall_cons in Hcr as [Hf Hcr].
  destruct fields as [|f' fields].
  - cbn [map Csv.join]. now apply write_field_no_cr.
  - rewrite map_cons, (map_cons _ f'), join_cons, <- (map_cons _ f').
    rewrite not_elem_of_app, not_elem_of_cons.
    split; [now apply write_field_no_cr|]. split; [discriminate|].
    now apply IH.
Qed.

Lemma writerow_general (fields : list pystr) :
  2 <= length fields ->
  Csv.writerow fields
  = Csv.join Csv.COMMA (map Csv.write_field fields) ++ [Csv.CR; Csv.LF].
Proof.
  destruct fields as [|f [|f' fields]]; cbn [length]; [lia|lia|].
  intros _. unfold Csv.writerow. now destruct f.
Qed.

Lemma written_translated (rows : list (list pystr)) :
  Forall wide_storable rows ->
  Csv.universal_newlines (written rows)
  = flat_map (fun fields =>
                Csv.join Csv.COMMA (map Csv.write_field fields) ++ [Csv.LF])
             rows.
Proof.
  unfold written. induction 1 as [|fields rows [Hwide Hst] _ IH];
    [reflexivity|].
  cbn [flat_map]. rewrite writerow_general by exact Hwide.
  rewrite <- !app_assoc. cbn [app].
  rewrite universal_newlines_line, IH; [reflexivity|].
  apply join_no_cr. eapply Forall_impl; [exact Hst|]. now intros f [Hcr _].
Qed.

Lemma translated_ends (rows : list (list pystr)) :
  let text := flat_map (fun fields =>
                Csv.join Csv.COMMA (map Csv.write_field fields) ++ [Csv.LF])
              rows in
  text = [] \/ last text = Some Csv.LF.
Proof.
  cbv zeta. induction rows as [|fields rows IH] using rev_ind; [now left|].
  right. rewrite flat_map_app. cbn [flat_map]. rewrite app_nil_r.
  rewrite !app_assoc. apply last_snoc.
Qed.

Lemma parse_translated (rows : list (list pystr)) :
  Forall wide_storable rows ->
  parse_chars
    (flat_map (fun fields =>
                 Csv.join Csv.COMMA (map Csv.write_field fields) ++ [Csv.LF])
              rows)
    Csv.parse_reset
  = Py.Ok rows.
Proof.
  induction 1 as [|fields rows [Hwide Hst] _ IH]; [reflexivity|].
  cbn [flat_map]. rewrite <- app_assoc. cbn [app].
  unfold Csv.parse_reset at 1. rewrite parse_record.
  - now rewrite IH.
  - intros ->. cbn in Hwide. lia.
  - eapply Forall_impl; [exact Hst|]. now intros f [_ Hlen].
  - right. split; [reflexivity|]. intros ->. cbn in Hwide. lia.
Qed.

Lemma read_written (rows : list (list pystr)) :
  Forall wide_storable rows ->
  Csv.read_records (Csv.readlines (Csv.universal_newlines (written rows)))
    Csv.parse_reset
  = Py.Ok rows.
Proof.
  intros Hrows. rewrite written_translated by exact Hrows.
  rewrite read_records_chars by apply translated_ends.
  now apply parse_translated.
Qed.

Lemma fieldnames_storable : Forall storable CSV_FIELDNAMES.
Proof.
  unfold CSV_FIELDNAMES.
  repeat (apply Forall_cons; split;
          [split; [apply (bool_decide_unpack _); vm_compute; exact I
                  |apply N.leb_le; vm_compute; reflexivity]|]).
  constructor.
Qed.

Lemma filter_not_blank (records : list (list pystr)) :
  Forall (fun fields => 2 <= length fields) records ->
  filter (fun row => Csv.is_blank row = false) records = records.
Proof.
  induction 1 as [|fields records Hlen _ IH]; [reflexivity|].
  rewrite filter_cons, IH. destruct fields; [cbn in Hlen; lia|].
  now rewrite decide_True.
Qed.

Lemma dict_reader_written (header : list pystr)
    (records : list (list pystr)) :
  Forall wide_storable (header :: records) ->
  Csv.DictReader (Csv.universal_newlines (written (header :: records)))
  = Py.Ok (Some header, map (Csv.make_row header) records).
Proof.
  intros Hall. unfold Csv.DictReader. rewrite read_written by exact Hall.
  rewrite filter_not_blank; [reflexivity|].
  apply Forall_cons in Hall as [_ Hrecords].
  eapply Forall_impl; [exact Hrecords|]. now intros fields [Hlen _].
Qed.

Lemma same_fields_row_of_record (r : ListingRecord) :
  same_fields r (row_of_record r) = true.
Proof.
  assert (Hne : forall a b : pystr,
            bool_decide (a = b) = false -> a <> b).
  { intros a b H. now apply bool_decide_eq_false in H. }
  unfold same_fields, row_of_record, Csv.make_row, CSV_FIELDNAMES,
    record_cells.
  cbn [Csv.zip_cells fold_left]. unfold Csv.assign. cbn [fst snd].
  repeat (apply andb_true_iff; split); apply bool_decide_eq_true;
    repeat (rewrite lookup_insert_ne by (apply Hne; vm_compute; reflexivity));
    apply lookup_insert_eq.
Qed.

Lemma written_records (results : list ListingRecord) :
  Csv.writerow CSV_FIELDNAMES
  ++ flat_map (fun r => Csv.writerow (record_cells r)) results
  = written (CSV_FIELDNAMES :: map record_cells results).
Proof.
  unfold written. cbn [flat_map]. f_equal.
  induction results as [|r results IH]; [reflexivity|].
  cbn [map flat_map]. now rewrite IH.
Qed.

(** Round trip of the store for storable records. *)
Lemma store_round_trip_storable (path_join : pystr -> pystr -> pystr)
    (ts : pystr) (results : list ListingRecord) (out_dir : pystr)
    (w : world) :
  Forall (fun r => Forall storable (record_cells r)) results ->
  read_back path_join ts results out_dir w
  = Py.Ok (map row_of_record results)
  /\ Forall2 (fun r d => same_fields r d = true) results
       (map row_of_record results).
Proof.
  intros Hst. split.
  - unfold read_back, save_results, write_text, bind, log, ret.
    cbn [fst snd]. unfold read_rows, bind, read_text, lift, ret.
    cbn [fs set_fs set_logs]. rewrite lookup_insert_eq.
    rewrite written_records, dict_reader_written.
    + cbn [fst snd]. now rewrite map_map.
    + apply Forall_cons. split.
      * split; [cbn; lia|apply fieldnames_storable].
      * apply Forall_map. eapply Forall_impl; [exact Hst|].
        intros r Hr. split; [cbn; lia|exact Hr].
  - clear Hst. induction results as [|r results IH]; [constructor|].
    cbn [map]. constructor; [apply same_fields_row_of_record|exact IH].
Qed.

(** With no record the file holds the header line alone. *)
Lemma save_results_header_only (path_join : pystr -> pystr -> pystr)
    (ts out_dir : pystr) (w : world) :
  exists path,
    fst (save_results path_join ts [] out_dir w) = Py.Ok path
    /\ fs (snd (save_results path_join ts [] out_dir w)) !! path
       = Some (Csv.writerow CSV_FIELDNAMES).
Proof.
  eexists. split; [reflexivity|].
  unfold save_results, write_text, bind, log, ret.
  cbn [fst snd fs set_fs set_logs flat_map]. rewrite app_nil_r.
  apply lookup_insert_eq.
Qed.


(** *** URL deriver: the base as a prefix only *)

Lemma startswith_app (p s : pystr) : Py.startswith p (p ++ s) = true.
Proof.
  induction p as [|c p IH]; [reflexivity|].
  cbn [app Py.startswith]. now rewrite N.eqb_refl, IH.
Qed.

Lemma replace_from_skip (old new p s : pystr) :
  Py.replace_from old new (length p) (p ++ s) = Py.replace_from old new 0 s.
Proof. induction p as [|c p IH]; [reflexivity|exact IH]. Qed.

Lemma replace_from_absent (old new s : pystr) :
  base_absent old s -> Py.replace_from old new 0 s = s.
Proof.
  induction s as [|c s IH]; intros Habs; [reflexivity|].
  pose proof (Habs 0) as H0. cbn [drop] in H0.
  cbn [Py.replace_from]. rewrite H0. f_equal. apply IH.
  intros i. exact (Habs (S i)).
Qed.

Lemma replace_absent (base s : pystr) :
  base <> [] -> base_absent base s -> Py.replace base [] s = s.
Proof.
  intros Hne Habs. unfold Py.replace. destruct base; [congruence|].
  now apply replace_from_absent.
Qed.

Lemma replace_prefix (base rest : pystr) :
  base <> [] -> base_absent base rest ->
  Py.replace base [] (base ++ rest) = rest.
Proof.
  intros Hne Habs. unfold Py.replace. destruct base as [|c base]; [congruence|].
  cbn [app Py.replace_from].
  change (c :: base ++ rest) with ((c :: base) ++ rest).
  rewrite startswith_app. cbn [app length Nat.sub].
  rewrite Nat.sub_0_r.
  rewrite replace_from_skip. now apply replace_from_absent.
Qed.

Lemma strip_prefix_app (base rest : pystr) :
  strip_prefix base (base ++ rest) = rest.
Proof.
  unfold strip_prefix. rewrite startswith_app. now rewrite drop_app_length.
Qed.

Lemma strip_prefix_absent (base s : pystr) :
  base_absent base s -> strip_prefix base s = s.
Proof.
  intros Habs. pose proof (Habs 0) as H0. rewrite drop_0 in H0.
  unfold strip_prefix. now rewrite H0.
Qed.

Lemma amended_is_spec (base path detail_url : pystr) :
  Py.replace base [] detail_url = path ->
  strip_prefix base detail_url = path ->
  detailToPdf_amended base detail_url = detailToPdf_spec base detail_url.
Proof.
  intros H1 H2. unfold detailToPdf_amended, detailToPdf_spec.
  now rewrite H1, H2.
Qed.

(** Where the base stands at the front of the address and nowhere else,
    or nowhere at all, the code returns what the specification words. *)
Lemma convert_detail_url_to_pdf_prefix_only (cfg : Settings)
    (detail_url : pystr) :
  detail_base_url cfg <> [] ->
  (exists rest, detail_url = detail_base_url cfg ++ rest
                /\ base_absent (detail_base_url cfg) rest)
  \/ base_absent (detail_base_url cfg) detail_url ->
  convert_detail_url_to_pdf cfg detail_url
  = Py.Ok (detailToPdf_spec (detail_base_url cfg) detail_url).
Proof.
  intros Hne Hbase.
  assert (Hsame : detailToPdf_amended (detail_base_url cfg) detail_url
                  = detailToPdf_spec (detail_base_url cfg) detail_url).
  { destruct Hbase as [(rest & -> & Habs)|Habs].
    - apply (amended_is_spec _ rest);
        [now apply replace_prefix|apply strip_prefix_app].
    - apply (amended_is_spec _ detail_url);
        [now apply replace_absent|now apply strip_prefix_absent]. }
  rewrite <- Hsame. apply convert_is_amended.
Qed.

(** *** Tables of a document *)

Lemma find_all_table_app (prev_h2 : option pystr) (before after : html) :
  find_all_table prev_h2 (before ++ after)
  = find_all_table prev_h2 before
    ++ find_all_table (from_option Some prev_h2 (nearest_h2 before)) after.
Proof.
  revert prev_h2. induction before as [|n before IH]; intros prev_h2;
    [reflexivity|].
  assert (Hnear : forall t, from_option Some (Some t) (nearest_h2 before)
    = from_option Some prev_h2 (nearest_h2 (H2 t :: before))).
  { intros t. unfold nearest_h2. cbn [omap list_omap].
    destruct (omap _ before) as [|t' ts] eqn:E; [reflexivity|].
    rewrite last_cons_cons.
    destruct (proj2 (last_is_Some (t' :: ts))) as [x Hx]; [discriminate|].
    now rewrite Hx. }
  destruct n as [t|rows|]; cbn [app find_all_table].
  - rewrite IH. f_equal. f_equal. apply Hnear.
  - rewrite IH. reflexivity.
  - rewrite IH. reflexivity.
Qed.


(** *** The scenarios of the specification *)

(** One table under the listed heading: one record, with the company
    prefix removed and the PDF address derived. *)
Example listed_page_record :
  fst (scrape_date DEFAULT_SETTINGS serve_one_table no_body (u "2024-01-15")
         false true None empty_world)
  = Py.Ok [ {| r_date := u "2024-01-15"; r_section := SECTION_LISTED;
               r_product := u "ProductX"; r_company := u "ACME";
               r_reason := u "recall"; r_approval := [];
               r_certification := [];
               r_detail_url :=
                 u "https://www.info.pmda.go.jp/ygo/pack/123/456";
               r_pdf_url :=
                 u "https://www.info.pmda.go.jp/ygo/pdf/123_456/" |} ].
Proof. vm_compute. reflexivity. Qed.

(** The same row under the deleted heading, with enrichment asked for:
    the section is Deleted and no detail request is sent. *)
Example deleted_page_record :
  let page := [H2 (u "削除分");
               Table [listing_row (u "ProductX") (u "/ygo/pack/123/456")
                        (u "製造販売／ACME") (u "recall")]] in
  let out := scrape_date DEFAULT_SETTINGS (fun _ _ => Py.Ok page) no_body
               (u "2024-01-15") true true None empty_world in
  match fst out with
  | Py.Ok [r] => Py.eqb (r_section r) SECTION_DELETED
  | _ => false
  end = true
  /\ length (sent (snd out)) = 1.
Proof. split; vm_compute; reflexivity. Qed.

(** A collected file written and read back, and the header-only file. *)
Example product_x_round_trip :
  match read_back posix_join (u "20240115_120000")
          [ {| r_date := u "2024-01-15"; r_section := SECTION_LISTED;
               r_product := u "Product, X"; r_company := u "ACME";
               r_reason := u "recall" ++ [Csv.LF] ++ u "notice";
               r_approval := u "A100"; r_certification := [];
               r_detail_url := []; r_pdf_url := [] |} ]
          (u "out") empty_world with
  | Py.Ok [d] =>
      bool_decide (d !! u "販売名" = Some (Some (u "Product, X")))
      && bool_decide (d !! u "理由"
                      = Some (Some (u "recall" ++ [Csv.LF] ++ u "notice")))
  | _ => false
  end = true.
Proof. vm_compute. reflexivity. Qed.


(** ** Further properties of the code *)

(** *** Addresses of the expected shape *)

Lemma split_app_sep (sep : N) (a b : pystr) :
  Py.split sep (a ++ sep :: b) = Py.split sep a ++ Py.split sep b.
Proof.
  induction a as [|c a IH]; cbn [app Py.split].
  - now rewrite N.eqb_refl.
  - rewrite IH. destruct (c =? sep)%N; [reflexivity|].
    destruct (Py.split sep a) as [|h t] eqn:E; [|reflexivity].
    now apply split_nonempty in E.
Qed.

Lemma split_plain (sep : N) (s : pystr) : sep ∉ s -> Py.split sep s = [s].
Proof.
  induction s as [|c s IH]; intros Hs; [reflexivity|].
  apply not_elem_of_cons in Hs as [Hc Hs]. cbn [Py.split].
  destruct (N.eqb_spec c sep) as [->|_]; [congruence|].
  now rewrite IH.
Qed.

Lemma lstrip_by_app (p : N -> bool) (a b : pystr) (c : N) :
  p c = false ->
  Py.lstrip_by p (a ++ c :: b) = Py.lstrip_by p a ++ c :: b.
Proof.
  intros Hc. induction a as [|h a IH]; cbn [app Py.lstrip_by].
  - now rewrite Hc.
  - destruct (p h); [exact IH|reflexivity].
Qed.

Lemma lstrip_by_all (p : N -> bool) (a : pystr) :
  Forall (fun x => p x = true) a -> Py.lstrip_by p a = [].
Proof.
  induction 1 as [|x a Hx _ IH]; [reflexivity|].
  cbn [Py.lstrip_by]. now rewrite Hx.
Qed.

Lemma rstrip_by_stop (p : N -> bool) (a b : pystr) (c : N) :
  p c = false -> Forall (fun x => p x = true) b ->
  Py.rstrip_by p (a ++ c :: b) = a ++ [c].
Proof.
  intros Hc Hb. unfold Py.rstrip_by.
  rewrite rev_app_distr. cbn [rev]. rewrite <- app_assoc. cbn [app].
  rewrite lstrip_by_app by exact Hc.
  rewrite lstrip_by_all by now apply Forall_rev.
  cbn [app rev]. now rewrite rev_involutive.
Qed.

Lemma contains_absent (base s : pystr) :
  Py.contains base s = false -> base_absent base s.
Proof.
  induction s as [|c s IH]; cbn [Py.contains]; intros H i.
  - rewrite drop_nil. now apply orb_false_iff in H as [H _].
  - apply orb_false_iff in H as [H0 H1].
    destruct i as [|i]; [exact H0|]. cbn [drop]. now apply IH.
Qed.

Lemma strip_slash_true (c : N) :
  c = ch "/" -> bool_decide (c ∈ u "/") = true.
Proof. intros ->. apply bool_decide_eq_true. left. Qed.

Lemma strip_slash_false (c : N) :
  c <> ch "/" -> bool_decide (c ∈ u "/") = false.
Proof.
  intros Hc. apply bool_decide_eq_false. change (u "/") with [ch "/"].
  intros H. now apply list_elem_of_singleton in H.
Qed.

Lemma last_char (s : pystr) :
  s <> [] -> exists s' c, s = s' ++ [c].
Proof.
  destruct s as [|c s] using rev_ind; [congruence|]. intros _. eauto.
Qed.

(** Slashes around a text that neither begins nor ends with one are all
    that [strip("/")] removes. *)
Lemma strip_slashes (lead mid body trail : pystr) (c : N) :
  Forall (fun x => x = ch "/") lead -> Forall (fun x => x = ch "/") trail ->
  c <> ch "/" -> ch "/" ∉ body -> body <> [] ->
  Py.strip_chars (u "/") (lead ++ c :: mid ++ body ++ trail)
  = c :: mid ++ body.
Proof.
  intros Hlead Htrail Hc Hbody Hne.
  assert (Hall : forall l : pystr, Forall (fun x => x = ch "/") l ->
            Forall (fun x => bool_decide (x ∈ u "/") = true) l).
  { intros l Hl. eapply Forall_impl; [exact Hl|].
    intros x. apply strip_slash_true. }
  unfold Py.strip_chars, Py.strip_by.
  rewrite lstrip_by_app by now apply strip_slash_false.
  rewrite lstrip_by_all by now apply Hall.
  destruct (last_char body Hne) as (body' & x & ->).
  assert (Hx : x <> ch "/").
  { intros ->. apply Hbody. apply elem_of_app. right. left. }
  cbn [app].
  replace (c :: mid ++ (body' ++ [x]) ++ trail)
    with ((c :: mid ++ body') ++ x :: trail)
    by (cbn [app]; now rewrite <- !app_assoc).
  rewrite rstrip_by_stop; [|now apply strip_slash_false|now apply Hall].
  cbn [app]. now rewrite <- !app_assoc.
Qed.

Lemma rstrip_slashes (front body trail : pystr) :
  Forall (fun x => x = ch "/") trail -> ch "/" ∉ body -> body <> [] ->
  Py.rstrip_chars (u "/") (front ++ body ++ trail) = front ++ body.
Proof.
  intros Htrail Hbody Hne. unfold Py.rstrip_chars.
  destruct (last_char body Hne) as (body' & x & ->).
  assert (Hx : x <> ch "/").
  { intros ->. apply Hbody. apply elem_of_app. right. left. }
  replace (front ++ (body' ++ [x]) ++ trail)
    with ((front ++ body') ++ x :: trail)
    by now rewrite <- !app_assoc.
  rewrite rstrip_by_stop.
  - now rewrite <- !app_assoc.
  - apply strip_slash_false. exact Hx.
  - eapply Forall_impl; [exact Htrail|]. intros y. apply strip_slash_true.
Qed.

(** The four segments of a path of the expected shape. *)
Lemma pack_path_parts (company_id doc_id trail : pystr) :
  ch "/" ∉ company_id -> ch "/" ∉ doc_id -> doc_id <> [] ->
  Forall (fun x => x = ch "/") trail ->
  Py.split (ch "/")
    (Py.strip_chars (u "/")
       (u "/" ++ YGO_PACK_PREFIX ++ u "/" ++ company_id ++ u "/" ++ doc_id
        ++ trail))
  = [u "ygo"; u "pack"; company_id; doc_id].
Proof.
  intros Hc Hd Hne Htrail.
  replace (u "/" ++ YGO_PACK_PREFIX ++ u "/" ++ company_id ++ u "/" ++ doc_id
           ++ trail)
    with (u "/" ++ ch "y"
          :: (u "go/pack/" ++ company_id ++ u "/") ++ doc_id ++ trail)
    by (rewrite <- !app_assoc; reflexivity).
  rewrite strip_slashes;
    [|repeat constructor|exact Htrail|discriminate|exact Hd|exact Hne].
  replace (ch "y" :: (u "go/pack/" ++ company_id ++ u "/") ++ doc_id)
    with (u "ygo" ++ ch "/" :: u "pack" ++ ch "/" :: company_id
          ++ ch "/" :: doc_id)
    by (rewrite <- !app_assoc; reflexivity).
  rewrite !split_app_sep.
  rewrite (split_plain _ company_id), (split_plain _ doc_id) by assumption.
  reflexivity.
Qed.

Lemma contains_nonempty (base s : pystr) :
  Py.contains base s = false -> base <> [].
Proof. intros H ->. now destruct s. Qed.

Lemma pack_address_truthy (base rest : pystr) :
  Py.truthy (base ++ u "/" ++ rest) = true.
Proof. now destruct base. Qed.

Lemma last_segment (front body : pystr) :
  ch "/" ∉ body ->
  last (Py.split (ch "/") (front ++ ch "/" :: body)) = Some body.
Proof.
  intros Hbody. rewrite split_app_sep, (split_plain _ body) by exact Hbody.
  apply last_snoc.
Qed.

(** X1: for a listing address made of the configured base and the path
    [/ygo/pack/<company>/<document>], with or without slashes at its end,
    the derived PDF address is [<base>/ygo/pdf/<company>_<document>/], and
    the identifier the download stage extracts from that PDF address is
    [<company>_<document>].  The identifiers hold no slash, the document
    identifier is not empty, and the base does not occur in the path. *)
Theorem pack_address_pdf_and_doc_id (cfg : Settings)
    (company_id doc_id trail : pystr) :
  let path := u "/" ++ YGO_PACK_PREFIX ++ u "/" ++ company_id ++ u "/"
              ++ doc_id ++ trail in
  let pdf_url := detail_base_url cfg ++ u "/" ++ YGO_PDF_PREFIX ++ u "/"
                 ++ company_id ++ u "_" ++ doc_id ++ u "/" in
  Py.contains (detail_base_url cfg) path = false ->
  ch "/" ∉ company_id -> ch "/" ∉ doc_id -> doc_id <> [] ->
  Forall (fun c => c = ch "/") trail ->
  convert_detail_url_to_pdf cfg (detail_base_url cfg ++ path) = Py.Ok pdf_url
  /\ extract_doc_id_from_url (Some pdf_url)
     = Py.Ok (Some (company_id ++ u "_" ++ doc_id)).
Proof.
  intros path pdf_url Hbase Hc Hd Hne Htrail. split.
  - unfold convert_detail_url_to_pdf, path.
    rewrite pack_address_truthy. cbn [negb]. cbv zeta.
    rewrite replace_prefix;
      [|now apply contains_nonempty in Hbase|now apply contains_absent].
    rewrite pack_path_parts, ygo_pack_split by assumption.
    cbn [length Nat.leb lookup list_lookup default from_option id andb].
    rewrite !bool_decide_eq_true_2 by reflexivity. reflexivity.
  - unfold extract_doc_id_from_url, pdf_url. f_equal.
    assert (Hid : ch "/" ∉ company_id ++ u "_" ++ doc_id).
    { rewrite !elem_of_app. intros [H|[H|H]]; [now apply Hc| |now apply Hd].
      change (u "_") with [ch "_"] in H.
      now apply list_elem_of_singleton in H. }
    replace (detail_base_url cfg ++ u "/" ++ YGO_PDF_PREFIX ++ u "/"
             ++ company_id ++ u "_" ++ doc_id ++ u "/")
      with ((detail_base_url cfg ++ u "/") ++ ch "y"
            :: u "go/pdf/" ++ (company_id ++ u "_" ++ doc_id) ++ u "/")
      by (rewrite <- !app_assoc; reflexivity).
    unfold Py.strip_chars, Py.strip_by.
    rewrite lstrip_by_app by now apply strip_slash_false.
    set (front := Py.lstrip_by _ _).
    replace (front ++ ch "y"
             :: u "go/pdf/" ++ (company_id ++ u "_" ++ doc_id) ++ u "/")
      with ((front ++ u "ygo/pdf/") ++ (company_id ++ u "_" ++ doc_id)
            ++ u "/")
      by (rewrite <- !app_assoc; reflexivity).
    fold (Py.rstrip_chars (u "/")
            ((front ++ u "ygo/pdf/") ++ (company_id ++ u "_" ++ doc_id)
             ++ u "/")).
    rewrite rstrip_slashes; [|repeat constructor|exact Hid|].
    + replace ((front ++ u "ygo/pdf/") ++ company_id ++ u "_" ++ doc_id)
        with ((front ++ u "ygo/pdf") ++ ch "/"
              :: (company_id ++ u "_" ++ doc_id))
        by (rewrite <- !app_assoc; reflexivity).
      now apply last_segment.
    + destruct company_id; discriminate.
Qed.

Lemma pack_address_pdf_and_doc_id_witness :
  convert_detail_url_to_pdf DEFAULT_SETTINGS
    (u "https://www.info.pmda.go.jp/ygo/pack/530100/21600BZZ00369000_A_01_05/")
  = Py.Ok (u "https://www.info.pmda.go.jp/ygo/pdf/530100_21600BZZ00369000_A_01_05/")
  /\ extract_doc_id_from_url
       (Some (u "https://www.info.pmda.go.jp/ygo/pdf/530100_21600BZZ00369000_A_01_05/"))
     = Py.Ok (Some (u "530100_21600BZZ00369000_A_01_05")).
Proof.
  apply (pack_address_pdf_and_doc_id DEFAULT_SETTINGS (u "530100")
           (u "21600BZZ00369000_A_01_05") (u "/")).
  - vm_compute. reflexivity.
  - apply (bool_decide_unpack _). vm_compute. exact I.
  - apply (bool_decide_unpack _). vm_compute. exact I.
  - discriminate.
  - repeat constructor.
Defined.

(** X2: for the same listing addresses, the address of the detail body
    is the listing address without the slashes at its end, followed by
    the document identifier once more and the query [?view=body]. *)
Theorem pack_address_body_url (cfg : Settings)
    (company_id doc_id trail : pystr) :
  let path := u "/" ++ YGO_PACK_PREFIX ++ u "/" ++ company_id ++ u "/"
              ++ doc_id ++ trail in
  Py.contains (detail_base_url cfg) path = false ->
  ch "/" ∉ company_id -> ch "/" ∉ doc_id -> doc_id <> [] ->
  Forall (fun c => c = ch "/") trail ->
  convert_detail_url_to_body_url cfg (detail_base_url cfg ++ path)
  = Py.Ok (detail_base_url cfg ++ u "/" ++ YGO_PACK_PREFIX ++ u "/"
           ++ company_id ++ u "/" ++ doc_id ++ u "/" ++ doc_id
           ++ u "?view=body").
Proof.
  intros path Hbase Hc Hd Hne Htrail.
  unfold convert_detail_url_to_body_url, path.
  rewrite pack_address_truthy. cbn [negb]. cbv zeta.
  rewrite replace_prefix;
    [|now apply contains_nonempty in Hbase|now apply contains_absent].
  rewrite pack_path_parts, ygo_pack_split by assumption.
  cbn [length Nat.leb lookup list_lookup default from_option id andb].
  rewrite !bool_decide_eq_true_2 by reflexivity. cbv iota.
  replace (detail_base_url cfg ++ u "/" ++ YGO_PACK_PREFIX ++ u "/"
           ++ company_id ++ u "/" ++ doc_id ++ trail)
    with ((detail_base_url cfg ++ u "/" ++ YGO_PACK_PREFIX ++ u "/"
           ++ company_id ++ u "/") ++ doc_id ++ trail)
    by now rewrite <- !app_assoc.
  rewrite rstrip_slashes by assumption.
  now rewrite <- !app_assoc.
Qed.

Lemma pack_address_body_url_witness :
  convert_detail_url_to_body_url DEFAULT_SETTINGS
    (u "https://www.info.pmda.go.jp/ygo/pack/530100/21600BZZ00369000_A_01_05/")
  = Py.Ok (u "https://www.info.pmda.go.jp/ygo/pack/530100/21600BZZ00369000_A_01_05/21600BZZ00369000_A_01_05?view=body").
Proof.
  apply (pack_address_body_url DEFAULT_SETTINGS (u "530100")
           (u "21600BZZ00369000_A_01_05") (u "/")).
  - vm_compute. reflexivity.
  - apply (bool_decide_unpack _). vm_compute. exact I.
  - apply (bool_decide_unpack _). vm_compute. exact I.
  - discriminate.
  - repeat constructor.
Defined.

Lemma body_url_returns (cfg : Settings) (detail_url : pystr) :
  exists body_url,
    convert_detail_url_to_body_url cfg detail_url = Py.Ok body_url.
Proof.
  unfold convert_detail_url_to_body_url. rewrite ygo_pack_split.
  destruct (negb _); [eauto|]. cbv zeta. destruct (_ && _); eauto.
Qed.

(** X3: the two derivations accept the same addresses.  Neither raises,
    and for every detail address the PDF address is empty exactly when
    the body address is. *)
Theorem pdf_and_body_address_agree (cfg : Settings) (detail_url : pystr) :
  exists pdf_url body_url,
    convert_detail_url_to_pdf cfg detail_url = Py.Ok pdf_url
    /\ convert_detail_url_to_body_url cfg detail_url = Py.Ok body_url
    /\ Py.truthy pdf_url = Py.truthy body_url.
Proof.
  unfold convert_detail_url_to_pdf, convert_detail_url_to_body_url.
  rewrite ygo_pack_split.
  destruct (negb (Py.truthy detail_url)); [now exists [], []|].
  cbv zeta. destruct (_ && _); [|now exists [], []].
  eexists _, _. split; [reflexivity|]. split; [reflexivity|].
  now rewrite !pack_address_truthy.
Qed.


(** *** Enrichment and the records of a page *)

Section ScrapeFacts.

Variable cfg : Settings.
Variable get_listing : nat -> pystr -> Py.result html.
Variable get_body : nat -> pystr -> Py.result body_page.

(** X4: [fetch_approval_number] never raises and never touches a file.
    When no body address can be derived it returns two empty numbers and
    does nothing at all; otherwise it sends exactly one request, to the
    body address, and returns the numbers of the page, or two empty
    numbers (with one log line, if there is a log sink) when the request
    fails. *)
Theorem fetch_approval_number_contained (detail_url : pystr)
    (log_callback : bool) (w : world) :
  exists numbers w',
    fetch_approval_number cfg get_body detail_url log_callback w
    = (Py.Ok numbers, w')
    /\ fs w' = fs w
    /\ (convert_detail_url_to_body_url cfg detail_url = Py.Ok [] ->
        numbers = ([], []) /\ w' = w)
    /\ (forall body_url,
          convert_detail_url_to_body_url cfg detail_url = Py.Ok body_url ->
          body_url <> [] ->
          sent w' = sent w ++ [body_url]
          /\ match get_body (tick w) body_url with
             | Py.Ok page =>
                 numbers = (default [] (approval_div page),
                            default [] (certification_div page))
                 /\ logs w' = logs w
             | Py.Raise e =>
                 numbers = ([], [])
                 /\ logs w' = if log_callback
                              then logs w ++ [u "    番号取得エラー: " ++ e]
                              else logs w
             end).
Proof.
  unfold fetch_approval_number.
  destruct (body_url_returns cfg detail_url) as [body_url Hbody].
  rewrite Hbody. unfold bind at 1, lift.
  destruct body_url as [|c body_url]; cbn [Py.truthy negb].
  - exists ([], []), w. unfold ret.
    split; [reflexivity|]. split; [reflexivity|]. split; [now split|].
    intros b [= <-]. congruence.
  - unfold try_except, bind, requests_get_body.
    destruct (get_body (tick w) (c :: body_url)) as [page|e] eqn:Hget.
    + eexists _, _. split; [reflexivity|]. split; [reflexivity|].
      split; [discriminate|].
      intros b [= <-] _. rewrite Hget. now repeat split.
    + destruct log_callback; unfold log_if, log, ret;
        (eexists _, _; split; [reflexivity|]; split; [reflexivity|];
         split; [discriminate|]);
        intros b [= <-] _; rewrite Hget; now repeat split.
Qed.

Lemma scrape_row_invariant date_str fetch_numbers log_callback cancel_check
    current_section cells w new w' :
  current_section = SECTION_LISTED \/ current_section = SECTION_DELETED ->
  scrape_row cfg get_body date_str fetch_numbers log_callback cancel_check
    current_section cells w = (Py.Ok (Some new), w') ->
  Forall (record_invariant cfg date_str fetch_numbers) new.
Proof.
  intros Hsec. unfold scrape_row. cbv zeta. unfold bind.
  destruct (stop_requested cancel_check w) as [[[]|e] w1];
    try (unfold ret; discriminate).
  destruct cells as [|name_cell [|company_cell [|reason_cell cells]]];
    try (unfold ret; intros [= <- _]; constructor).
  set (product_name := match td_a name_cell with
                       | Some name_link => a_text name_link
                       | None => td_text name_cell
                       end).
  set (detail_url := match td_a name_cell with
                     | Some name_link => _
                     | None => []
                     end).
  destruct (lift _ w1) as [[pdf_url|e] w2] eqn:Hpdf; [|discriminate].
  unfold lift in Hpdf. injection Hpdf as Hpdf _.
  assert (Hrec : forall approval_no certification_no,
            (approval_no <> [] \/ certification_no <> [] ->
             fetch_numbers = true /\ current_section = SECTION_LISTED
             /\ detail_url <> []) ->
            Forall (record_invariant cfg date_str fetch_numbers)
              (if Py.truthy product_name
                  && negb (Py.eqb product_name (u "販売名"))
               then [ {| r_date := date_str; r_section := current_section;
                         r_product := product_name;
                         r_company :=
                           Py.replace (u "製造販売／") []
                             (td_text company_cell);
                         r_reason := td_text reason_cell;
                         r_approval := approval_no;
                         r_certification := certification_no;
                         r_detail_url := detail_url;
                         r_pdf_url := pdf_url |} ]
               else [])).
  { intros approval_no certification_no Hnum.
    destruct (Py.truthy product_name) eqn:Hname; [|constructor].
    destruct (Py.eqb product_name (u "販売名")) eqn:Hhdr; [constructor|].
    constructor; [|constructor].
    unfold record_invariant. cbn [r_date r_section r_product r_approval
      r_certification r_detail_url r_pdf_url].
    repeat split; try assumption.
    - intros E. now rewrite E in Hname.
    - unfold Py.eqb in Hhdr. now apply bool_decide_eq_false in Hhdr.
    - now apply Hnum.
    - now apply Hnum.
    - now apply Hnum. }
  destruct (fetch_numbers && Py.truthy detail_url
            && Py.eqb current_section SECTION_LISTED) eqn:Hfetch.
  - destruct (stop_requested cancel_check w2) as [[[]|e] w3];
      try (unfold ret; discriminate).
    destruct (log_if _ _ w3) as [[[]|e] w4]; [|discriminate].
    destruct (fetch_approval_number _ _ _ _ w4) as [[numbers|e] w5];
      [|discriminate].
    unfold sleep, ret. intros [= <- _]. apply Hrec. intros _.
    apply andb_true_iff in Hfetch as [Hfetch Hlisted].
    apply andb_true_iff in Hfetch as [Hfetch Hurl].
    unfold Py.eqb in Hlisted. apply bool_decide_eq_true in Hlisted.
    repeat split; try assumption.
    intros E. now rewrite E in Hurl.
  - unfold ret. intros [= <- _]. apply Hrec. intros [H|H]; congruence.
Qed.

Lemma scrape_rows_invariant date_str fetch_numbers log_callback cancel_check
    current_section rows results w out w' :
  current_section = SECTION_LISTED \/ current_section = SECTION_DELETED ->
  Forall (record_invariant cfg date_str fetch_numbers) results ->
  scrape_rows cfg get_body date_str fetch_numbers log_callback cancel_check
    current_section rows results w = (Py.Ok out, w') ->
  Forall (record_invariant cfg date_str fetch_numbers) (fst out).
Proof.
  intros Hsec. revert results w.
  induction rows as [|row rows IH]; intros results w Hres;
    cbn [scrape_rows].
  - unfold ret. now intros [= <- _].
  - unfold bind.
    destruct (scrape_row _ _ _ _ _ _ _ _ w) as [[[new|]|e] w1] eqn:Hrow;
      try discriminate.
    + apply IH. apply Forall_app. split; [exact Hres|].
      now apply scrape_row_invariant in Hrow.
    + unfold ret. now intros [= <- _].
Qed.

Lemma update_section_known (current_section prev_h2 : option pystr) :
  (forall s, current_section = Some s ->
             s = SECTION_LISTED \/ s = SECTION_DELETED) ->
  forall s, update_section current_section prev_h2 = Some s ->
            s = SECTION_LISTED \/ s = SECTION_DELETED.
Proof.
  intros Hcur s. unfold update_section.
  destruct prev_h2 as [text|]; [|apply Hcur].
  destruct (Py.contains _ text); [intros [= <-]; now left|].
  destruct (Py.contains _ text); [intros [= <-]; now right|apply Hcur].
Qed.

Lemma scrape_tables_invariant date_str fetch_numbers log_callback cancel_check
    current_section tables results w out w' :
  (forall s, current_section = Some s ->
             s = SECTION_LISTED \/ s = SECTION_DELETED) ->
  Forall (record_invariant cfg date_str fetch_numbers) results ->
  scrape_tables cfg get_body date_str fetch_numbers log_callback cancel_check
    current_section tables results w = (Py.Ok out, w') ->
  Forall (record_invariant cfg date_str fetch_numbers) (fst out).
Proof.
  revert current_section results w.
  induction tables as [|[prev_h2 rows] tables IH];
    intros current_section results w Hsec Hres; cbn [scrape_tables].
  - unfold ret. now intros [= <- _].
  - cbv zeta.
    pose proof (update_section_known current_section prev_h2 Hsec) as Hnext.
    destruct (update_section current_section prev_h2) as [section|];
      [|now apply IH].
    unfold bind.
    destruct (scrape_rows _ _ _ _ _ _ _ _ _ w) as [[[rs fl]|e] w1] eqn:Hrows;
      try discriminate.
    apply scrape_rows_invariant in Hrows; [|now apply Hnext|exact Hres].
    cbn [fst snd] in *.
    destruct fl; [now apply IH|].
    unfold ret. now intros [= <- _].
Qed.

Lemma scrape_date_invariant (date_str : pystr)
    (fetch_numbers log_callback : bool)
    (cancel_check : option (nat -> bool)) (w : world) :
  exists results w',
    scrape_date cfg get_listing get_body date_str fetch_numbers log_callback
      cancel_check w = (Py.Ok results, w')
    /\ Forall (record_invariant cfg date_str fetch_numbers) results.
Proof.
  unfold scrape_date, try_except. cbv zeta. unfold bind at 1.
  destruct (requests_get_listing get_listing _ w) as [[soup|e] w1].
  - unfold bind.
    destruct (scrape_tables _ _ _ _ _ _ _ _ _ w1) as [[out|e] w2] eqn:Htables.
    + apply scrape_tables_invariant in Htables;
        [|discriminate|constructor].
      unfold ret. eauto.
    + destruct log_callback; unfold log_if, log, ret; eexists _, _;
        (split; [reflexivity|constructor]).
  - destruct log_callback; unfold bind, log_if, log, ret; eexists _, _;
      (split; [reflexivity|constructor]).
Qed.

(** X5: [scrape_date] always returns, and every record it returns bears
    the date asked for and the section Listed or Deleted, has a product
    name that is neither empty nor the header text, has the PDF address
    derived from its own detail address, and carries an approval or
    certification number only when enrichment was asked for, the record
    is Listed and it has a detail address. *)
Theorem scrape_date_records_well_formed (date_str : pystr)
    (fetch_numbers log_callback : bool)
    (cancel_check : option (nat -> bool)) (w : world) :
  exists results w',
    scrape_date cfg get_listing get_body date_str fetch_numbers log_callback
      cancel_check w = (Py.Ok results, w')
    /\ Forall (record_invariant cfg date_str fetch_numbers) results.
Proof.
  destruct (scrape_date_invariant date_str fetch_numbers log_callback
              cancel_check w) as (results & w' & Hrun & Hinv).
  exists results, w'. now split.
Qed.

End ScrapeFacts.


(** *** What a computation leaves alone *)

Lemma preserves_ret {A X} (f : world -> X) (a : A) : preserves f (ret a).
Proof. intros w. reflexivity. Qed.

Lemma preserves_raise {A X} (f : world -> X) (e : pystr) :
  preserves f (@raise A e).
Proof. intros w. reflexivity. Qed.

Lemma preserves_lift {A X} (f : world -> X) (r : Py.result A) :
  preserves f (lift r).
Proof. intros w. reflexivity. Qed.

Lemma preserves_bind {A B X} (f : world -> X) (m : M A) (k : A -> M B) :
  preserves f m -> (forall a, preserves f (k a)) -> preserves f (bind m k).
Proof.
  intros Hm Hk w. unfold bind. specialize (Hm w).
  destruct (m w) as [[a|e] w1]; cbn [snd] in *; [|exact Hm].
  now rewrite Hk.
Qed.

Lemma preserves_try {A X} (f : world -> X) (m : M A) (h : pystr -> M A) :
  preserves f m -> (forall e, preserves f (h e)) ->
  preserves f (try_except m h).
Proof.
  intros Hm Hh w. unfold try_except. specialize (Hm w).
  destruct (m w) as [[a|e] w1]; cbn [snd] in *; [exact Hm|].
  now rewrite Hh.
Qed.

Lemma sent_log (msg : pystr) : preserves sent (log msg).
Proof. intros w. reflexivity. Qed.

Lemma fs_log (msg : pystr) : preserves fs (log msg).
Proof. intros w. reflexivity. Qed.

Lemma sent_read_flag (flag : nat -> bool) : preserves sent (read_flag flag).
Proof. intros w. reflexivity. Qed.

Lemma fs_read_flag (flag : nat -> bool) : preserves fs (read_flag flag).
Proof. intros w. reflexivity. Qed.

Ltac preserves_step :=
  match goal with
  | |- preserves _ (bind _ _) => apply preserves_bind; [|intros ?]
  | |- preserves _ (try_except _ _) => apply preserves_try; [|intros ?]
  | |- preserves _ (ret _) => apply preserves_ret
  | |- preserves _ (raise _) => apply preserves_raise
  | |- preserves _ (lift _) => apply preserves_lift
  | |- preserves _ sleep => apply preserves_ret
  | |- preserves sent (log _) => apply sent_log
  | |- preserves fs (log _) => apply fs_log
  | |- preserves sent (read_flag _) => apply sent_read_flag
  | |- preserves fs (read_flag _) => apply fs_read_flag
  | |- preserves _ (log_if ?b _) => destruct b; unfold log_if
  | |- preserves _ (stop_requested ?c) => destruct c; unfold stop_requested
  | |- preserves _ (if ?b then _ else _) => destruct b
  | |- preserves _ (match ?x with _ => _ end) => destruct x
  end.

Section CollectRequests.

Variable cfg : Settings.
Variable get_listing : nat -> pystr -> Py.result html.
Variable get_body : nat -> pystr -> Py.result body_page.

Lemma fs_fetch_approval_number (detail_url : pystr) (log_callback : bool) :
  preserves fs (fetch_approval_number cfg get_body detail_url log_callback).
Proof.
  unfold fetch_approval_number.
  repeat first [preserves_step | (intros w; reflexivity)].
Qed.

Lemma fs_scrape_row date_str fetch_numbers log_callback cancel_check
    current_section cells :
  preserves fs (scrape_row cfg get_body date_str fetch_numbers log_callback
                  cancel_check current_section cells).
Proof.
  unfold scrape_row. cbv zeta.
  repeat first [apply fs_fetch_approval_number | preserves_step].
Qed.

Lemma sent_scrape_row date_str log_callback cancel_check current_section
    cells :
  preserves sent (scrape_row cfg get_body date_str false log_callback
                    cancel_check current_section cells).
Proof.
  unfold scrape_row. cbv zeta. cbn [andb]. repeat preserves_step.
Qed.

Lemma preserves_scrape_rows {X} (f : world -> X) date_str fetch_numbers
    log_callback cancel_check current_section :
  (forall cells,
     preserves f (scrape_row cfg get_body date_str fetch_numbers log_callback
                    cancel_check current_section cells)) ->
  forall rows results,
    preserves f (scrape_rows cfg get_body date_str fetch_numbers log_callback
                   cancel_check current_section rows results).
Proof.
  intros Hrow rows. induction rows as [|row rows IH]; intros results;
    cbn [scrape_rows]; [apply preserves_ret|].
  apply preserves_bind; [apply Hrow|].
  intros [new|]; [apply IH|apply preserves_ret].
Qed.

Lemma preserves_scrape_tables {X} (f : world -> X) date_str fetch_numbers
    log_callback cancel_check :
  (forall current_section cells,
     preserves f (scrape_row cfg get_body date_str fetch_numbers log_callback
                    cancel_check current_section cells)) ->
  forall tables current_section results,
    preserves f (scrape_tables cfg get_body date_str fetch_numbers
                   log_callback cancel_check current_section tables results).
Proof.
  intros Hrow tables.
  induction tables as [|[prev_h2 rows] tables IH];
    intros current_section results; cbn [scrape_tables];
    [apply preserves_ret|].
  cbv zeta. destruct (update_section current_section prev_h2); [|apply IH].
  apply preserves_bind; [apply preserves_scrape_rows; apply Hrow|].
  intros [rs []]; cbn [fst snd]; [apply IH|apply preserves_ret].
Qed.

Lemma fs_scrape_date date_str fetch_numbers log_callback cancel_check :
  preserves fs (scrape_date cfg get_listing get_body date_str fetch_numbers
                  log_callback cancel_check).
Proof.
  unfold scrape_date. cbv zeta.
  apply preserves_try; [|intros e; repeat preserves_step].
  apply preserves_bind; [intros w; reflexivity|]. intros soup.
  apply preserves_bind; [|intros ?; apply preserves_ret].
  apply preserves_scrape_tables. intros. apply fs_scrape_row.
Qed.

Lemma sent_scrape_date date_str log_callback cancel_check (w : world) :
  sent (snd (scrape_date cfg get_listing get_body date_str false log_callback
               cancel_check w))
  = sent w ++ [listing_url cfg date_str].
Proof.
  unfold scrape_date, try_except. cbv zeta. unfold bind at 1.
  unfold requests_get_listing at 1.
  destruct (get_listing (tick w) _) as [soup|e].
  - match goal with |- context [bind ?m ?k ?w1] =>
      assert (H : preserves sent (bind m k)) end.
    { apply preserves_bind; [|intros ?; apply preserves_ret].
      apply preserves_scrape_tables. intros. apply sent_scrape_row. }
    specialize (H (request (base_url cfg ++ Py.replace (u "-") [] date_str) w)).
    destruct (bind _ _ _) as [[out|e] w2]; cbn [snd] in *.
    + exact H.
    + destruct log_callback; unfold bind, log_if, log, ret; cbn; exact H.
  - destruct log_callback; unfold bind, log_if, log, ret; reflexivity.
Qed.

Lemma collect_date_requests flag total i date_str (w : world) :
  exists results w',
    collect_date cfg get_listing get_body flag false total i date_str w
    = (Py.Ok results, w')
    /\ fs w' = fs w
    /\ sent w' = sent w ++ [listing_url cfg date_str].
Proof.
  destruct (collect_date_returns cfg get_listing get_body flag false total i
              date_str w) as (results & w' & Hd).
  exists results, w'. split; [exact Hd|].
  revert Hd. unfold collect_date, bind, log, sleep, ret. cbn beta iota.
  match goal with |- context [scrape_date _ _ _ ?d ?e ?f ?g ?w1] =>
    pose proof (fs_scrape_date d e f g w1) as Hfs;
    pose proof (sent_scrape_date d f g w1) as Hsent;
    destruct (scrape_date cfg get_listing get_body d e f g w1)
      as [[rs|err] w2] end; [|discriminate].
  intros [= _ <-]. cbn [snd fs sent set_logs] in *. now split.
Qed.

Lemma collect_loop_requests flag total i dates all_results (w : world) :
  exists results w' k,
    collect_loop cfg get_listing get_body flag false total i dates
      all_results w = (Py.Ok results, w')
    /\ fs w' = fs w
    /\ k <= length dates
    /\ sent w' = sent w ++ map (listing_url cfg) (take k dates)
    /\ ((forall t, flag t = true) -> k = length dates).
Proof.
  revert i all_results w. induction dates as [|d dates IH];
    intros i all_results w.
  - exists all_results, w, 0. cbn. rewrite app_nil_r. now repeat split.
  - destruct (flag (tick w)) eqn:Hflag.
    + rewrite collect_loop_running by exact Hflag. unfold bind.
      destruct (collect_date_requests flag total i d
                  (set_tick (S (tick w)) w))
        as (results & w1 & -> & Hfs1 & Hsent1).
      destruct (IH (S i) (all_results ++ results) w1)
        as (out & w' & k & -> & Hfs & Hk & Hsent & Hall).
      exists out, w', (S k). split; [reflexivity|].
      split; [now rewrite Hfs, Hfs1|]. split; [cbn; lia|]. split.
      * rewrite Hsent, Hsent1. cbn [take map sent set_tick].
        now rewrite <- app_assoc.
      * intros Htrue. cbn [length]. now rewrite Hall.
    + rewrite collect_loop_stopped by exact Hflag.
      exists all_results, (set_tick (S (tick w)) w), 0.
      cbn. rewrite app_nil_r. repeat split; try lia.
      intros Htrue. now rewrite Htrue in Hflag.
Qed.

(** X6: without enrichment, a collection run never raises, writes no
    file, and sends one request per date it starts, to the listing
    address of that date, in the order of the dates; a run that is never
    cancelled requests every date. *)
Theorem collect_data_requests (flag : nat -> bool) (dates : list pystr)
    (w : world) :
  exists all_results w' k,
    _collect_data cfg get_listing get_body flag dates false w
    = (Py.Ok all_results, w')
    /\ fs w' = fs w
    /\ k <= length dates
    /\ sent w' = sent w ++ map (listing_url cfg) (take k dates)
    /\ ((forall t, flag t = true) -> k = length dates).
Proof. unfold _collect_data. apply collect_loop_requests. Qed.

End CollectRequests.


(** *** Cancellation inside a date *)

Lemma pdf_url_returns (cfg : Settings) (detail_url : pystr) :
  exists pdf_url, convert_detail_url_to_pdf cfg detail_url = Py.Ok pdf_url.
Proof.
  unfold convert_detail_url_to_pdf. rewrite ygo_pack_split.
  destruct (negb _); [eauto|]. cbv zeta. destruct (_ && _); eauto.
Qed.

Section RowFacts.

Variable cfg : Settings.
Variable get_body : nat -> pystr -> Py.result body_page.

Lemma fetch_approval_number_returns (detail_url : pystr)
    (log_callback : bool) (w : world) :
  exists numbers w',
    fetch_approval_number cfg get_body detail_url log_callback w
    = (Py.Ok numbers, w').
Proof.
  unfold fetch_approval_number.
  destruct (body_url_returns cfg detail_url) as [body_url ->].
  unfold bind at 1, lift. destruct (negb _); [unfold ret; eauto|].
  unfold try_except, bind, requests_get_body.
  destruct (get_body _ _); [unfold ret; eauto|].
  destruct log_callback; unfold log_if, log, ret; eauto.
Qed.

Lemma stop_uncancelled (w : world) :
  stop_requested (Some uncancelled) w
  = (Py.Ok false, set_tick (S (tick w)) w).
Proof. reflexivity. Qed.

(** A row scraped while the flag stays set is scraped to the end. *)
Lemma scrape_row_uncancelled date_str fetch_numbers log_callback
    current_section cells (w : world) :
  exists new w',
    scrape_row cfg get_body date_str fetch_numbers log_callback
      (Some uncancelled) current_section cells w = (Py.Ok (Some new), w').
Proof.
  unfold scrape_row. cbv zeta. unfold bind at 1.
  rewrite stop_uncancelled.
  destruct cells as [|name_cell [|company_cell [|reason_cell cells]]];
    try (unfold ret; eauto).
  match goal with |- context [lift (convert_detail_url_to_pdf cfg ?d)] =>
    destruct (pdf_url_returns cfg d) as [pdf_url ->] end.
  unfold bind at 1, lift.
  destruct (_ && _ && _); [|unfold ret; eauto].
  unfold bind at 1. rewrite stop_uncancelled.
  unfold bind at 1.
  destruct (log_if _ _ _) as [[[]|e] w1] eqn:Hlog.
  - unfold bind at 1.
    match goal with |- context [fetch_approval_number _ _ ?d ?l ?w0] =>
      destruct (fetch_approval_number_returns d l w0)
        as (numbers & w2 & ->) end.
    unfold bind, sleep, ret. eauto.
  - destruct log_callback; discriminate Hlog.
Qed.

Lemma scrape_rows_uncancelled date_str fetch_numbers log_callback
    current_section rows results (w : world) :
  exists records w',
    scrape_rows cfg get_body date_str fetch_numbers log_callback
      (Some uncancelled) current_section rows results w
    = (Py.Ok (records, Running), w').
Proof.
  revert results w. induction rows as [|row rows IH]; intros results w;
    cbn [scrape_rows].
  - unfold ret. eauto.
  - unfold bind.
    destruct (scrape_row_uncancelled date_str fetch_numbers log_callback
                current_section row w) as (new & w1 & ->).
    apply IH.
Qed.

Lemma scrape_rows_stopped date_str fetch_numbers log_callback (flag : nat -> bool)
    current_section row rows results (w : world) :
  flag (tick w) = false ->
  scrape_rows cfg get_body date_str fetch_numbers log_callback (Some flag)
    current_section (row :: rows) results w
  = (Py.Ok (results, Returned), set_tick (S (tick w)) w).
Proof.
  intros Hflag. cbn [scrape_rows]. unfold scrape_row, bind, stop_requested,
    bind, read_flag, ret. now rewrite Hflag.
Qed.

(** X7: cancellation inside a date keeps the records gathered so far.
    If the flag reads true up to the instant at which an uncancelled
    scrape has finished the rows [before], and false at that instant,
    then scraping [before ++ row :: rest] returns at the checkpoint of
    [row] with exactly the records the uncancelled scrape of [before]
    gives (added to those already held); [row] and the rows after it
    contribute nothing. *)
Theorem cancelled_within_date_keeps_rows (flag : nat -> bool)
    (date_str : pystr) (fetch_numbers log_callback : bool)
    (current_section : pystr) (before : list tr) (row : tr) (rest : list tr)
    (results : list ListingRecord) (w : world) :
  let reference :=
    scrape_rows cfg get_body date_str fetch_numbers log_callback
      (Some uncancelled) current_section before results w in
  (forall t, t < tick (snd reference) -> flag t = true) ->
  flag (tick (snd reference)) = false ->
  exists records,
    fst reference = Py.Ok (records, Running)
    /\ fst (scrape_rows cfg get_body date_str fetch_numbers log_callback
              (Some flag) current_section (before ++ row :: rest) results w)
       = Py.Ok (records, Returned).
Proof.
  revert results w. induction before as [|r before IH]; intros results w;
    cbv zeta.
  - intros _ Hstop. exists results. split; [reflexivity|]. cbn [app].
    rewrite scrape_rows_stopped; [reflexivity|exact Hstop].
  - cbn [scrape_rows app]. unfold bind.
    destruct (scrape_row_uncancelled date_str fetch_numbers log_callback
                current_section r w) as (new & w1 & Hrow).
    rewrite Hrow. intros Hbelow Hstop.
    rewrite (same_scrape_row cfg get_body _ flag Hbelow).
    + rewrite Hrow. now apply IH.
    + rewrite Hrow. cbn [snd].
      apply (mono_scrape_rows cfg get_body date_str fetch_numbers
               log_callback (Some uncancelled) current_section before
               (results ++ new) w1).
Qed.

End RowFacts.


(** *** One download *)

Section OneDownload.

Variable get_download : nat -> pystr -> Py.result response.

Lemma write_chunks_run (path : pystr) (cs : list (list N)) (w : world) :
  exists w',
    write_chunks path cs w = (Py.Ok tt, w')
    /\ tick w' = tick w /\ sent w' = sent w /\ logs w' = logs w.
Proof.
  revert w. induction cs as [|c cs IH]; intros w; cbn [write_chunks].
  - exists w. now repeat split.
  - unfold bind, write_chunk at 1.
    destruct (IH (set_fs (<[path:=default [] (fs w !! path) ++ c]> (fs w)) w))
      as (w' & -> & Ht & Hs & Hl).
    exists w'. now repeat split.
Qed.

(** Where no file is ever refused, [FileSystem.download_file] is the
    [download_file] of the loop. *)
Lemma download_file_never_refused (url save_path : pystr) (w : world) :
  FileSystem.download_file (fun _ _ => None) get_download url save_path w
  = download_file get_download url save_path w.
Proof. reflexivity. Qed.


(** A page served with status 200 into a directory that is not there:
    one request, a failure with the text of the error, no file. *)
Example download_into_missing_directory :
  FileSystem.download_file no_directory
    (fun _ _ => Py.Ok {| status_code := 200; chunks := [u "%PDF"];
                         stream_error := None |})
    (u "https://www.pmda.go.jp/files/000123456.pdf")
    (u "pdf/x_a_000123456.pdf") empty_world
  = (Py.Ok (false,
            Some (u "[Errno 2] No such file or directory: "
                  ++ u "'pdf/x_a_000123456.pdf'")),
     request (u "https://www.pmda.go.jp/files/000123456.pdf") empty_world).
Proof. vm_compute. reflexivity. Qed.

Lemma download_file_sends (url save_path : pystr) (w : world) :
  exists out w',
    download_file get_download url save_path w = (Py.Ok out, w')
    /\ sent w' = sent w ++ [url]
    /\ tick w' = S (tick w) /\ logs w' = logs w.
Proof.
  unfold download_file, try_except. unfold bind at 1, requests_get_download.
  destruct (get_download (tick w) url) as [resp|e].
  - destruct (status_code resp =? 200).
    + unfold bind at 1, open_wb. unfold bind at 1.
      destruct (write_chunks_run save_path (chunks resp)
                  (set_fs (<[save_path:=[]]> (fs (request url w)))
                     (request url w)))
        as (w' & -> & Ht & Hs & Hl).
      destruct (stream_error resp) as [e|]; unfold raise, ret;
        eexists _, _; (split; [reflexivity|]); now repeat split.
    + unfold ret. eexists _, _. split; [reflexivity|]. now repeat split.
  - unfold ret. eexists _, _. split; [reflexivity|]. now repeat split.
Qed.

End OneDownload.


(** *** The download loop *)

Section DownloadLoopFacts.

Variable path_join : pystr -> pystr -> pystr.
Variable get_download : nat -> pystr -> Py.result response.

Lemma download_loop_stopped (flag : nat -> bool) (pdf_dir : pystr)
    (skip_exist : bool) (total i : nat)
    (r : row) (targets : list row) (tallies : nat * nat * nat) (w : world) :
  flag (tick w) = false ->
  download_loop path_join get_download flag pdf_dir skip_exist total i
    (r :: targets) tallies w
  = (Py.Ok tallies, set_tick (S (tick w)) w).
Proof.
  intros Hflag. cbn [download_loop]. destruct tallies as [[s f] k].
  unfold bind at 1, read_flag. now rewrite Hflag.
Qed.

(** One turn of the loop while the flag is set. *)
Lemma download_loop_running (flag : nat -> bool) (pdf_dir : pystr)
    (skip_exist : bool) (total i : nat)
    (r : row) (targets : list row) (s f k : nat) (w : world) :
  flag (tick w) = true ->
  let w1 := set_tick (S (tick w)) w in
  download_loop path_join get_download flag pdf_dir skip_exist total i
    (r :: targets) (s, f, k) w
  = match target_filename r with
    | Py.Raise e => (Py.Raise e, w1)
    | Py.Ok None =>
        download_loop path_join get_download flag pdf_dir skip_exist total
          (S i) targets (s, f, k) w1
    | Py.Ok (Some filename) =>
        let save_path := path_join pdf_dir filename in
        let w2 := set_logs
                    (logs w1 ++ [u "[" ++ Py.of_nat i ++ u "/"
                                 ++ Py.of_nat total ++ u "] "
                                 ++ Py.slice_to 30 (row_name r) ++ u "..."])
                    w1 in
        if skip_exist && bool_decide (is_Some (fs w !! save_path)) then
          download_loop path_join get_download flag pdf_dir skip_exist total
            (S i) targets (s, f, S k)
            (set_logs (logs w2 ++ [u "  → スキップ(既存)"]) w2)
        else
          match download_file get_download (row_pdf_url r) save_path w2 with
          | (Py.Ok out, w3) =>
              if fst out then
                download_loop path_join get_download flag pdf_dir skip_exist
                  total (S i) targets (S s, f, k)
                  (set_logs (logs w3 ++ [u "  → 完了"]) w3)
              else
                download_loop path_join get_download flag pdf_dir skip_exist
                  total (S i) targets (s, S f, k)
                  (set_logs
                     (logs w3 ++ [u "  → 失敗: " ++ default [] (snd out)]) w3)
          | (Py.Raise e, w3) => (Py.Raise e, w3)
          end
    end.
Proof.
  intros Hflag. cbv zeta. cbn [download_loop].
  unfold bind at 1, read_flag. rewrite Hflag. cbn [negb].
  unfold bind at 1, lift.
  destruct (target_filename r) as [[filename|]|e]; try reflexivity.
  unfold bind at 1, log at 1. unfold bind at 1, os_path_exists.
  cbn [fs set_logs set_tick].
  destruct (skip_exist && _).
  - unfold bind at 1, log at 1. reflexivity.
  - unfold bind at 1. fold (row_pdf_url r). fold (row_name r).
    destruct (download_file _ _ _ _) as [[out|e] w3]; [|reflexivity].
    unfold bind at 1. destruct (fst out).
    + unfold bind at 1, log at 1, ret at 1. unfold bind at 1, sleep, ret.
      reflexivity.
    + unfold bind at 1, log at 1, ret at 1. unfold bind at 1, sleep, ret.
      reflexivity.
Qed.

Lemma download_loop_accounting (flag : nat -> bool) (pdf_dir : pystr)
    (skip_exist : bool) (total : nat) (targets : list row) :
  forall (i s f k : nat) (w : world) (s' f' k' : nat) (w' : world),
    download_loop path_join get_download flag pdf_dir skip_exist total i
      targets (s, f, k) w = (Py.Ok (s', f', k'), w') ->
    exists attempted,
      sublist attempted targets
      /\ sent w' = sent w ++ map row_pdf_url attempted
      /\ s' + f' = s + f + length attempted
      /\ s <= s' /\ f <= f' /\ k <= k'
      /\ s' + f' + k' <= s + f + k + length targets
      /\ (skip_exist = false -> k' = k).
Proof.
  induction targets as [|r targets IH]; intros i s f k w s' f' k' w'.
  - cbn [download_loop]. unfold ret. intros [= <- <- <- <-].
    exists []. cbn. rewrite app_nil_r. repeat split; try lia. constructor.
  - destruct (flag (tick w)) eqn:Hflag.
    + rewrite download_loop_running by exact Hflag. cbv zeta.
      destruct (target_filename r) as [[filename|]|e]; [| |discriminate].
      * destruct (skip_exist && _) eqn:Hskip.
        -- intros Hrun. apply IH in Hrun
             as (att & Hsub & Hsent & Hsf & Hs & Hf & Hk & Htot & Hno).
           exists att. split; [now constructor|]. split; [exact Hsent|].
           cbn [length]. repeat split; try lia.
           intros ->. discriminate Hskip.
        -- destruct (download_file_sends get_download (row_pdf_url r)
                       (path_join pdf_dir filename)
                       (set_logs
                          (logs (set_tick (S (tick w)) w)
                           ++ [u "[" ++ Py.of_nat i ++ u "/"
                               ++ Py.of_nat total ++ u "] "
                               ++ Py.slice_to 30 (row_name r) ++ u "..."])
                          (set_tick (S (tick w)) w)))
             as (out & w3 & -> & Hsent3 & _).
           destruct (fst out); intros Hrun; apply IH in Hrun
             as (att & Hsub & Hsent & Hsf & Hs & Hf & Hk & Htot & Hno);
             exists (r :: att); (split; [now constructor|]);
             (split; [rewrite Hsent; cbn [sent set_logs set_tick map] in *;
                      rewrite Hsent3, <- app_assoc; reflexivity|]);
             cbn [length]; repeat split; try lia; exact Hno.
      * intros Hrun. apply IH in Hrun
          as (att & Hsub & Hsent & Hsf & Hs & Hf & Hk & Htot & Hno).
        exists att. split; [now constructor|]. split; [exact Hsent|].
        cbn [length]. repeat split; try lia. exact Hno.
    + rewrite download_loop_stopped by exact Hflag.
      intros [= <- <- <- <-]. exists [].
      cbn. rewrite app_nil_r. repeat split; try lia. apply sublist_nil_l.
Qed.

(** X8: the tallies of [_download_files] add up.  When the loop returns,
    the rows it sent a request for are a sub-list of the targets, in
    their order; the requests sent are the PDF addresses of those rows,
    one each; their number is the number of successes and failures
    together; the three tallies together never exceed the number of
    targets; and nothing is counted as skipped unless skip-existing is
    on. *)
Theorem download_files_accounting (flag : nat -> bool) (targets : list row)
    (pdf_dir : pystr) (skip_exist : bool) (w w' : world)
    (success fail skipped : nat) :
  _download_files path_join get_download flag targets pdf_dir skip_exist w
  = (Py.Ok (success, fail, skipped), w') ->
  exists attempted,
    sublist attempted targets
    /\ sent w' = sent w ++ map row_pdf_url attempted
    /\ success + fail = length attempted
    /\ success + fail + skipped <= length targets
    /\ (skip_exist = false -> skipped = 0).
Proof.
  unfold _download_files. intros Hrun.
  apply download_loop_accounting in Hrun
    as (att & Hsub & Hsent & Hsf & _ & _ & _ & Htot & Hno).
  exists att. repeat split; try assumption; lia.
Qed.

End DownloadLoopFacts.


(** *** Runs of the download loop *)

Section DownloadRuns.

Variable path_join : pystr -> pystr -> pystr.
Variable get_download : nat -> pystr -> Py.result response.

Lemma download_loop_skips (flag : nat -> bool) (pdf_dir : pystr)
    (total : nat) (targets : list row) :
  forall (i s f k : nat) (w : world),
    Forall (already_saved path_join pdf_dir (fs w)) targets ->
    exists k' w',
      download_loop path_join get_download flag pdf_dir true total i targets
        (s, f, k) w = (Py.Ok (s, f, k'), w')
      /\ sent w' = sent w /\ fs w' = fs w.
Proof.
  induction targets as [|r targets IH]; intros i s f k w Hall.
  - exists k, w. now repeat split.
  - apply Forall_cons in Hall as [(filename & Hname & Hfile) Hall].
    destruct (flag (tick w)) eqn:Hflag.
    + rewrite download_loop_running by exact Hflag. cbv zeta.
      rewrite Hname. destruct filename as [name|].
      * rewrite bool_decide_eq_true_2 by now apply Hfile.
        cbn [andb].
        match goal with |- context [download_loop _ _ _ _ _ _ ?j _ ?t ?w1] =>
          destruct (IH j s f (S k) w1 Hall) as (k' & w' & -> & Hs & Hf) end.
        exists k', w'. split; [reflexivity|]. now split.
      * match goal with |- context [download_loop _ _ _ _ _ _ ?j _ ?t ?w1] =>
          destruct (IH j s f k w1 Hall) as (k' & w' & -> & Hs & Hf) end.
        exists k', w'. split; [reflexivity|]. now split.
    + rewrite download_loop_stopped by exact Hflag.
      eexists _, _. split; [reflexivity|]. now split.
Qed.

(** X10: a pass with skip-existing over rows whose files are all there
    is idle.  If every target derives its file name without raising and
    the file of that name exists, [_download_files] returns with no
    success and no failure, sends no request and changes no file,
    whatever the cancellation flag does. *)
Theorem download_files_skips_saved (flag : nat -> bool)
    (targets : list row) (pdf_dir : pystr) (w : world) :
  Forall (already_saved path_join pdf_dir (fs w)) targets ->
  exists skipped w',
    _download_files path_join get_download flag targets pdf_dir true w
    = (Py.Ok (0, 0, skipped), w')
    /\ sent w' = sent w /\ fs w' = fs w.
Proof. intros Hall. unfold _download_files. now apply download_loop_skips. Qed.

Lemma download_loop_clock (flag : nat -> bool) (pdf_dir : pystr)
    (skip_exist : bool) (total : nat) (targets : list row) :
  forall (i : nat) (tallies : nat * nat * nat) (w : world),
    tick w + (if targets is [] then 0 else 1)
    <= tick (snd (download_loop path_join get_download flag pdf_dir
                    skip_exist total i targets tallies w)).
Proof.
  induction targets as [|r targets IH]; intros i [[s f] k] w.
  - cbn. lia.
  - assert (Hnext : forall i t (w1 : world), tick w < tick w1 ->
              tick w + 1 <= tick (snd (download_loop path_join get_download
                flag pdf_dir skip_exist total i targets t w1))).
    { intros i' t w1 Hw1. specialize (IH i' t w1).
      destruct targets; lia. }
    destruct (flag (tick w)) eqn:Hflag.
    + rewrite download_loop_running by exact Hflag. cbv zeta.
      destruct (target_filename r) as [[filename|]|e].
      * destruct (_ && _); [apply Hnext; cbn; lia|].
        match goal with |- context [download_file _ ?a ?b ?c] =>
          destruct (download_file_sends get_download a b c)
            as (out & w3 & -> & _ & Ht & _) end.
        cbn [tick set_logs set_tick] in Ht.
        destruct (fst out); apply Hnext; cbn [tick set_logs]; lia.
      * apply Hnext. cbn. lia.
      * cbn. lia.
    + rewrite download_loop_stopped by exact Hflag. cbn. lia.
Qed.

Lemma download_loop_prefix (flag : nat -> bool) (pdf_dir : pystr)
    (skip_exist : bool) (total : nat) (before rest : list row) :
  forall (i : nat) (tallies : nat * nat * nat) (w : world),
    let reference :=
      download_loop path_join get_download uncancelled pdf_dir skip_exist
        total i before tallies w in
    (forall t, t < tick (snd reference) -> flag t = true) ->
    (rest <> [] -> flag (tick (snd reference)) = false) ->
    let out :=
      download_loop path_join get_download flag pdf_dir skip_exist total i
        (before ++ rest) tallies w in
    fst out = fst reference
    /\ sent (snd out) = sent (snd reference)
    /\ fs (snd out) = fs (snd reference)
    /\ logs (snd out) = logs (snd reference).
Proof.
  induction before as [|r before IH]; intros i tallies w; cbv zeta.
  - intros _ Hstop. cbn [app]. destruct rest as [|r rest].
    + now repeat split.
    + rewrite download_loop_stopped by now apply Hstop.
      cbn [download_loop]. now repeat split.
  - destruct tallies as [[s f] k]. cbn [app].
    pose proof (download_loop_clock uncancelled pdf_dir skip_exist total
                  (r :: before) i (s, f, k) w) as Hclock.
    cbv iota in Hclock.
    intros Hbelow Hstop.
    rewrite (download_loop_running _ _ flag) by (apply Hbelow; lia).
    revert Hbelow Hstop. clear Hclock.
    rewrite (download_loop_running _ _ uncancelled) by reflexivity.
    cbv zeta.
    destruct (target_filename r) as [[filename|]|e].
    + destruct (_ && _); [apply IH|].
      destruct (download_file _ _ _ _) as [[out|e] w3];
        [|intros _ _; now repeat split].
      destruct (fst out); apply IH.
    + apply IH.
    + intros _ _. now repeat split.
Qed.

(** X9: cancellation between two targets.  If the flag reads true up to
    the instant at which an uncancelled run has been through the targets
    [before], and false at that instant, then the run over
    [before ++ rest] ends there: its tallies, the requests it sent, the
    files and the log are those of the uncancelled run over [before];
    no target of [rest] is attempted. *)
Theorem cancelled_after_k_targets (flag : nat -> bool) (pdf_dir : pystr)
    (skip_exist : bool) (before rest : list row) (w : world) :
  let reference :=
    download_loop path_join get_download uncancelled pdf_dir skip_exist
      (length (before ++ rest)) 1 before (0, 0, 0) w in
  (forall t, t < tick (snd reference) -> flag t = true) ->
  (rest <> [] -> flag (tick (snd reference)) = false) ->
  let out :=
    _download_files path_join get_download flag (before ++ rest) pdf_dir
      skip_exist w in
  fst out = fst reference
  /\ sent (snd out) = sent (snd reference)
  /\ fs (snd out) = fs (snd reference)
  /\ logs (snd out) = logs (snd reference).
Proof.
  cbv zeta. intros Hbelow Hstop. unfold _download_files.
  now apply download_loop_prefix.
Qed.

End DownloadRuns.


(** *** An allow-list without the expected columns *)

Lemma find_columns_unmarked (fieldnames : list pystr) :
  Forall unmarked fieldnames -> find_columns fieldnames = (None, None).
Proof.
  unfold find_columns. intros Hall.
  assert (H : forall cols : option pystr * option pystr,
            fold_left
              (fun cols col =>
                 (if Py.contains (u "承認番号") col then Some col else fst cols,
                  if Py.contains (u "認証番号") col then Some col else snd cols))
              fieldnames cols = cols).
  { induction Hall as [|col l [Ha Hc] _ IH]; intros cols; cbn [fold_left].
    - reflexivity.
    - rewrite Ha, Hc, IH. now destruct cols. }
  apply H.
Qed.

Lemma fold_no_columns (rows : list row) (sets : gset pystr * gset pystr) :
  fold_left
    (fun sets r =>
       (add_value (column_value None r) (fst sets),
        add_value (column_value None r) (snd sets)))
    rows sets = sets.
Proof.
  revert sets. induction rows as [|r rows IH]; intros sets; cbn [fold_left].
  - reflexivity.
  - rewrite IH. now destruct sets.
Qed.

Lemma filter_loop_empty_sets (targets filtered : list row) :
  forall out,
    filter_loop ∅ ∅ targets filtered = Py.Ok out -> out = filtered.
Proof.
  revert filtered. induction targets as [|r targets IH]; intros filtered out;
    cbn [filter_loop].
  - now intros [= <-].
  - destruct (strip_cell _) as [an|e]; [|discriminate].
    destruct (strip_cell _) as [cn|e]; [|discriminate].
    rewrite !bool_decide_eq_false_2 by apply not_elem_of_empty.
    rewrite !andb_false_r. cbn [orb]. apply IH.
Qed.

Section EmptyAllowList.

Variable path_join : pystr -> pystr -> pystr.
Variable get_download : nat -> pystr -> Py.result response.

Lemma load_hospital_unmarked (csv_path : pystr) (w : world)
    (content : pystr) (fieldnames : list pystr) (rows : list row) :
  fs w !! csv_path = Some content ->
  Csv.DictReader (Csv.universal_newlines content)
  = Py.Ok (Some fieldnames, rows) ->
  Forall unmarked fieldnames ->
  load_hospital_device_list csv_path w = (Py.Ok (∅, ∅), w).
Proof.
  intros Hf Hr Hall.
  unfold load_hospital_device_list, bind, read_text, lift, ret.
  rewrite Hf, Hr. cbn [fst snd]. rewrite find_columns_unmarked by exact Hall.
  cbn [fst snd]. now rewrite fold_no_columns.
Qed.

Lemma read_rows_quiet (csv_file : pystr) (w : world) :
  snd (read_rows csv_file w) = w.
Proof.
  unfold read_rows, bind, read_text, lift, ret.
  destruct (fs w !! csv_file); [|reflexivity].
  now destruct (Csv.DictReader _).
Qed.

Lemma no_targets_for_empty_sets (csv_file : pystr) (w : world) :
  let out := _load_and_filter_targets csv_file true ∅ ∅ w in
  sent (snd out) = sent w /\ fs (snd out) = fs w
  /\ forall targets, fst out = Py.Ok targets -> targets = [].
Proof.
  cbv zeta. unfold _load_and_filter_targets. unfold bind at 1 2 3.
  pose proof (read_rows_quiet csv_file w) as Hq.
  destruct (read_rows csv_file w) as [[rows|e] w1]; cbn [snd] in Hq; subst w1.
  - unfold filter_targets. unfold bind at 1 2 3, lift.
    destruct (filter_loop _ _ _ _) as [filtered|e] eqn:Hloop.
    + apply filter_loop_empty_sets in Hloop as ->.
      unfold bind, log, ret. cbn. repeat split. now intros targets [= <-].
    + cbn. repeat split. discriminate.
  - cbn. repeat split. discriminate.
Qed.

(** X12: an allow-list whose header holds neither marker filters
    everything out.  When no column name of the allow-list file contains
    承認番号 or 認証番号, the loader returns two empty sets and leaves the
    world as it was, and a download run with filtering on ends without
    raising, without sending a request and without changing a file,
    whatever the collected file holds. *)
Theorem allow_list_without_columns (flag : nat -> bool)
    (csv_file out_dir hosp_csv : pystr) (skip_exist : bool) (w : world)
    (content : pystr) (fieldnames : list pystr) (rows : list row) :
  fs w !! hosp_csv = Some content ->
  Csv.DictReader (Csv.universal_newlines content)
  = Py.Ok (Some fieldnames, rows) ->
  Forall unmarked fieldnames ->
  load_hospital_device_list hosp_csv w = (Py.Ok (∅, ∅), w)
  /\ let out := download_thread path_join get_download flag csv_file out_dir
                  true hosp_csv skip_exist w in
     fst out = Py.Ok tt /\ sent (snd out) = sent w /\ fs (snd out) = fs w.
Proof.
  intros Hf Hr Hall.
  pose proof (load_hospital_unmarked hosp_csv w content fieldnames rows
                Hf Hr Hall) as Hload.
  split; [exact Hload|]. cbv zeta.
  destruct (download_thread _ _ _ _ _ _ _ _ w) as [res w'] eqn:Hrun.
  cbn [fst snd]. revert Hrun.
  unfold download_thread, try_except. cbv zeta. unfold bind at 1.
  unfold _load_filter_lists. unfold bind at 1, log at 1.
  unfold try_except. unfold bind at 1.
  rewrite (load_hospital_unmarked hosp_csv
             (set_logs (logs w ++ [u "病院リスト読み込み中..."]) w)
             content fieldnames rows Hf Hr Hall).
  unfold bind at 1, log at 1, ret at 1.
  cbn [fst snd]. unfold bind at 1.
  match goal with |- context [_load_and_filter_targets ?c true ∅ ∅ ?w1] =>
    destruct (no_targets_for_empty_sets c w1) as (Hs & Hfs & Hnone);
    destruct (_load_and_filter_targets c true ∅ ∅ w1)
      as [[targets|e] w2] end; cbn [fst snd] in *.
  - rewrite (Hnone targets eq_refl).
    unfold bind at 1, log at 1.
    unfold _download_files. cbn [download_loop length].
    unfold bind at 1, ret at 1.
    unfold _handle_download_completion, bind, read_flag, log.
    destruct (negb _); intros [= <- <-]; cbn; now repeat split.
  - unfold log. intros [= <- <-]. cbn. now repeat split.
Qed.

End EmptyAllowList.


(** *** Addresses without an identifier *)

Lemma strip_only_slashes (url : pystr) :
  Forall (fun c => c = ch "/") url -> Py.strip_chars (u "/") url = [].
Proof.
  intros Hall. unfold Py.strip_chars, Py.strip_by.
  rewrite lstrip_by_all; [reflexivity|].
  eapply Forall_impl; [exact Hall|]. intros c. apply strip_slash_true.
Qed.

Lemma target_filename_slashes (r : row) (url : pystr) :
  get_or_empty r (u "PDF_URL") = Some url ->
  Forall (fun c => c = ch "/") url ->
  target_filename r = Py.Ok None.
Proof.
  intros Hurl Hall. unfold target_filename, extract_doc_id_from_url.
  rewrite Hurl, strip_only_slashes by exact Hall. reflexivity.
Qed.

Section PassedOver.

Variable path_join : pystr -> pystr -> pystr.
Variable get_download : nat -> pystr -> Py.result response.

(** X13: a row whose PDF address is made of slashes only (or is empty)
    gives no identifier, and the download loop passes over it: the row
    costs one read of the flag and nothing else.  No line is logged, no
    request is sent, no file is touched and no tally moves; the loop
    goes on with the next row. *)
Theorem slash_only_address_passed_over (flag : nat -> bool)
    (pdf_dir : pystr) (skip_exist : bool) (total i : nat) (r : row)
    (url : pystr) (targets : list row) (success fail skipped : nat)
    (w : world) :
  get_or_empty r (u "PDF_URL") = Some url ->
  Forall (fun c => c = ch "/") url ->
  flag (tick w) = true ->
  download_loop path_join get_download flag pdf_dir skip_exist total i
    (r :: targets) (success, fail, skipped) w
  = download_loop path_join get_download flag pdf_dir skip_exist total (S i)
      targets (success, fail, skipped) (set_tick (S (tick w)) w).
Proof.
  intros Hurl Hall Hflag.
  rewrite download_loop_running by exact Hflag. cbv zeta.
  now rewrite (target_filename_slashes r url Hurl Hall).
Qed.

End PassedOver.


(** *** The end of a collection run *)



(** *** From the collected file to the download targets *)

Lemma is_target_row_of_record (r : ListingRecord) :
  is_target (row_of_record r) = listed_with_pdf r.
Proof.
  pose proof (same_fields_row_of_record r) as H.
  unfold same_fields in H. rewrite !andb_true_iff in H.
  destruct H as [[[[[[[[_ Hsec] _] _] _] _] _] _] Hpdf].
  apply bool_decide_eq_true in Hsec, Hpdf.
  unfold is_target, get_truthy, listed_with_pdf, Py.eqb.
  rewrite Hsec, Hpdf. f_equal. apply bool_decide_ext.
  split; [now intros [= ->]|now intros ->].
Qed.

Lemma filter_targets_of_records (results : list ListingRecord) :
  filter (fun d : row => is_target d = true) (map row_of_record results)
  = map row_of_record (filter (fun r => listed_with_pdf r = true) results).
Proof.
  induction results as [|r results IH]; [reflexivity|].
  cbn [map]. rewrite !filter_cons, IH, is_target_row_of_record.
  destruct (listed_with_pdf r) eqn:E.
  - now rewrite !decide_True by reflexivity.
  - now rewrite !decide_False by discriminate.
Qed.

(** X16: what the collection stage saves is what the download stage
    targets.  For records whose fields can be stored (no carriage
    return, within the field size limit of the reader), reading the file
    written by [save_results] with filtering off gives as download
    targets exactly the rows of the records that are Listed and have a
    PDF address, in the order collected. *)
Theorem saved_records_become_targets (path_join : pystr -> pystr -> pystr)
    (ts : pystr) (results : list ListingRecord) (out_dir : pystr)
    (w : world) :
  Forall (fun r => Forall storable (record_cells r)) results ->
  let saved := save_results path_join ts results out_dir w in
  exists path,
    fst saved = Py.Ok path
    /\ fst (_load_and_filter_targets path false ∅ ∅ (snd saved))
       = Py.Ok (map row_of_record
                  (filter (fun r => listed_with_pdf r = true) results)).
Proof.
  intros Hst. cbv zeta.
  pose proof (proj1 (store_round_trip_storable path_join ts results out_dir w
                       Hst)) as Hread.
  unfold read_back in Hread.
  destruct (save_results path_join ts results out_dir w) as [[path|e] w1];
    cbn [fst snd] in *; [|discriminate Hread].
  exists path. split; [reflexivity|].
  unfold _load_and_filter_targets, bind.
  destruct (read_rows path w1) as [[rows|e] w2]; cbn [fst] in Hread;
    [|discriminate Hread].
  injection Hread as ->.
  unfold filter_targets, ret. cbn [fst].
  now rewrite filter_targets_of_records.
Qed.


(** *** Round trip of storable records *)

(** X14: the store gives back what was stored, for records whose fields
    hold no carriage return and are within the field size limit of the
    reader: the rows read from the file written by [save_results] are as
    many as the records, in the same order, and each row holds the nine
    fields of its record, commas, quotes and line feeds included. *)
Theorem stored_records_read_back (path_join : pystr -> pystr -> pystr)
    (ts : pystr) (results : list ListingRecord) (out_dir : pystr)
    (w : world) :
  Forall (fun r => Forall storable (record_cells r)) results ->
  exists rows,
    read_back path_join ts results out_dir w = Py.Ok rows
    /\ Forall2 (fun r d => same_fields r d = true) results rows.
Proof.
  intros Hst. exists (map row_of_record results).
  apply store_round_trip_storable. exact Hst.
Qed.

Lemma storable_by_check (field : pystr) :
  negb (bool_decide (Csv.CR ∈ field))
  && (N.of_nat (length field) <=? Csv.field_size_limit)%N = true ->
  storable field.
Proof.
  intros H. apply andb_true_iff in H as [Hcr Hlen]. split.
  - apply negb_true_iff, bool_decide_eq_false in Hcr. exact Hcr.
  - now apply N.leb_le.
Qed.

Lemma sample_records_storable :
  Forall (fun r => Forall storable (record_cells r))
    [product_x_record; deleted_record].
Proof.
  repeat constructor; apply storable_by_check; vm_compute; reflexivity.
Qed.

Lemma stored_records_read_back_witness :
  exists rows,
    read_back posix_join (u "20240115_120000")
      [product_x_record; deleted_record] (u "out") empty_world = Py.Ok rows
    /\ Forall2 (fun r d => same_fields r d = true)
         [product_x_record; deleted_record] rows.
Proof.
  apply (stored_records_read_back posix_join (u "20240115_120000")
           [product_x_record; deleted_record] (u "out") empty_world).
  exact sample_records_storable.
Defined.

Lemma saved_records_become_targets_witness :
  exists path,
    fst (save_results posix_join (u "20240115_120000")
           [product_x_record; deleted_record] (u "out") empty_world)
    = Py.Ok path
    /\ fst (_load_and_filter_targets path false ∅ ∅
              (snd (save_results posix_join (u "20240115_120000")
                      [product_x_record; deleted_record] (u "out")
                      empty_world)))
       = Py.Ok [row_of_record product_x_record].
Proof.
  exact (saved_records_become_targets posix_join (u "20240115_120000")
           [product_x_record; deleted_record] (u "out") empty_world
           sample_records_storable).
Defined.

(** *** Sample runs *)

Lemma first_row_reference_tick :
  tick (snd (scrape_rows DEFAULT_SETTINGS no_body (u "2024-01-15") false true
               (Some uncancelled) SECTION_LISTED (take 1 two_listing_rows) []
               empty_world)) = 1.
Proof. vm_compute. reflexivity. Qed.

Lemma cancelled_within_date_keeps_rows_witness :
  exists records,
    fst (scrape_rows DEFAULT_SETTINGS no_body (u "2024-01-15") false true
           (Some uncancelled) SECTION_LISTED (take 1 two_listing_rows) []
           empty_world) = Py.Ok (records, Running)
    /\ fst (scrape_rows DEFAULT_SETTINGS no_body (u "2024-01-15") false true
              (Some (cleared_at 1)) SECTION_LISTED two_listing_rows []
              empty_world) = Py.Ok (records, Returned).
Proof.
  apply (cancelled_within_date_keeps_rows DEFAULT_SETTINGS no_body
           (cleared_at 1) (u "2024-01-15") false true SECTION_LISTED
           (take 1 two_listing_rows)
           (listing_row (u "ProductY") (u "/ygo/pack/123/789")
              (u "製造販売／ACME") (u "notice")) [] [] empty_world).
  - intros t Ht. rewrite first_row_reference_tick in Ht.
    now apply Nat.ltb_lt.
  - rewrite first_row_reference_tick. reflexivity.
Defined.

Lemma one_download_tallies :
  fst (_download_files posix_join (fun _ _ => Py.Ok served_pdf) uncancelled
         [product_x_row] (u "out/pdf") false empty_world)
  = Py.Ok (1, 0, 0).
Proof. vm_compute. reflexivity. Qed.

Lemma download_files_accounting_witness :
  exists attempted,
    sublist attempted [product_x_row]
    /\ sent (snd (_download_files posix_join (fun _ _ => Py.Ok served_pdf)
                    uncancelled [product_x_row] (u "out/pdf") false
                    empty_world))
       = sent empty_world ++ map row_pdf_url attempted
    /\ 1 + 0 = length attempted
    /\ 1 + 0 + 0 <= length [product_x_row]
    /\ (false = false -> 0 = 0).
Proof.
  apply (download_files_accounting posix_join (fun _ _ => Py.Ok served_pdf)
           uncancelled [product_x_row] (u "out/pdf") false empty_world).
  rewrite <- one_download_tallies. apply surjective_pairing.
Defined.

Lemma one_target_reference_tick :
  tick (snd (download_loop posix_join (fun _ _ => Py.Ok served_pdf)
               uncancelled (u "out/pdf") false 2 1 [product_x_row] (0, 0, 0)
               empty_world)) = 2.
Proof. vm_compute. reflexivity. Qed.

Lemma cancelled_after_k_targets_witness :
  fst (_download_files posix_join (fun _ _ => Py.Ok served_pdf)
         (cleared_at 2) [product_x_row; product_x_row] (u "out/pdf") false
         empty_world)
  = Py.Ok (1, 0, 0).
Proof.
  destruct (cancelled_after_k_targets posix_join
              (fun _ _ => Py.Ok served_pdf) (cleared_at 2) (u "out/pdf")
              false [product_x_row] [product_x_row] empty_world)
    as (Hres & _).
  - intros t Ht. cbn [app length] in Ht.
    rewrite one_target_reference_tick in Ht. now apply Nat.ltb_lt.
  - intros _. cbn [app length]. rewrite one_target_reference_tick.
    reflexivity.
  - cbn [app length] in Hres. rewrite Hres. vm_compute. reflexivity.
Defined.

Lemma download_files_skips_saved_witness :
  exists skipped w',
    _download_files posix_join (fun _ _ => Py.Ok served_pdf) uncancelled
      [product_x_row] (u "out/pdf") true
      (world_with (u "out/pdf/123_456_ProductX.pdf") [37; 80; 68; 70]%N)
    = (Py.Ok (0, 0, skipped), w')
    /\ sent w' = []
    /\ fs w' = fs (world_with (u "out/pdf/123_456_ProductX.pdf")
                     [37; 80; 68; 70]%N).
Proof.
  apply (download_files_skips_saved posix_join (fun _ _ => Py.Ok served_pdf)
           uncancelled [product_x_row] (u "out/pdf")
           (world_with (u "out/pdf/123_456_ProductX.pdf")
              [37; 80; 68; 70]%N)).
  constructor; [|constructor].
  exists (Some (u "123_456_ProductX.pdf")). split; [exact product_x_filename|].
  intros name [= <-].
  change (posix_join (u "out/pdf") (u "123_456_ProductX.pdf"))
    with (u "out/pdf/123_456_ProductX.pdf").
  rewrite world_with_lookup. eauto.
Defined.

Lemma unlabelled_list_checks :
  match Csv.DictReader (Csv.universal_newlines unlabelled_list_csv) with
  | Py.Ok (Some fieldnames, rows) =>
      forallb (fun col => negb (Py.contains (u "承認番号") col)
                          && negb (Py.contains (u "認証番号") col))
        fieldnames
  | _ => false
  end = true.
Proof. vm_compute. reflexivity. Qed.

Lemma allow_list_without_columns_witness :
  let w := world_with (u "hospital.csv") unlabelled_list_csv in
  load_hospital_device_list (u "hospital.csv") w = (Py.Ok (∅, ∅), w)
  /\ sent (snd (download_thread posix_join (fun _ _ => Py.Ok served_pdf)
                  uncancelled (u "pmda.csv") (u "out") true
                  (u "hospital.csv") false w)) = [].
Proof.
  cbv zeta. pose proof unlabelled_list_checks as Hc.
  destruct (Csv.DictReader _) as [[[fieldnames|] rows]|] eqn:Hread;
    try discriminate Hc.
  destruct (allow_list_without_columns posix_join
              (fun _ _ => Py.Ok served_pdf) uncancelled (u "pmda.csv")
              (u "out") (u "hospital.csv") false
              (world_with (u "hospital.csv") unlabelled_list_csv)
              unlabelled_list_csv fieldnames rows
              (world_with_lookup _ _) Hread)
    as (Hload & _ & Hsent & _).
  - apply Forall_forall. intros col Hcol.
    rewrite forallb_forall in Hc. apply list_elem_of_In in Hcol.
    specialize (Hc col Hcol). apply andb_true_iff in Hc as [Ha Hb].
    split; now apply negb_true_iff.
  - split; [exact Hload|exact Hsent].
Defined.

Lemma slash_address_cell :
  get_or_empty slash_address_row (u "PDF_URL") = Some (u "/").
Proof. vm_compute. reflexivity. Qed.

Lemma slash_only_address_passed_over_witness :
  download_loop posix_join (fun _ _ => Py.Ok served_pdf) uncancelled
    (u "out/pdf") false 2 1 [slash_address_row; product_x_row] (0, 0, 0)
    empty_world
  = download_loop posix_join (fun _ _ => Py.Ok served_pdf) uncancelled
      (u "out/pdf") false 2 2 [product_x_row] (0, 0, 0)
      (set_tick 1 empty_world).
Proof.
  apply (slash_only_address_passed_over posix_join
           (fun _ _ => Py.Ok served_pdf) uncancelled (u "out/pdf") false 2 1
           slash_address_row (u "/") [product_x_row] 0 0 0 empty_world).
  - exact slash_address_cell.
  - repeat constructor.
  - reflexivity.
Defined.


(** *** The date range *)

Lemma days_in_month_bounds (y m : N) :
  (28 <= days_in_month y m <= 31)%N.
Proof.
  unfold days_in_month.
  destruct m as [|p]; [lia|].
  do 4 (try destruct p as [p|p|]); try destruct (is_leap y); lia.
Qed.

Lemma valid_date_spec (d : datetime) :
  valid_date d = true <->
  (1 <= year d <= 9999 /\ 1 <= month d <= 12
   /\ 1 <= day d <= days_in_month (year d) (month d))%N.
Proof.
  unfold valid_date. rewrite !andb_true_iff, !N.leb_le. lia.
Qed.

Lemma datetime_le_spec (a b : datetime) :
  valid_date a = true -> valid_date b = true ->
  (datetime_le a b = true <-> (day_count a <= day_count b)%N).
Proof.
  rewrite !valid_date_spec. intros Ha Hb.
  pose proof (days_in_month_bounds (year a) (month a)).
  pose proof (days_in_month_bounds (year b) (month b)).
  unfold datetime_le, day_count.
  rewrite !orb_true_iff, !andb_true_iff, !orb_true_iff, !andb_true_iff,
    !N.ltb_lt, !N.eqb_eq, !N.leb_le.
  nia.
Qed.

Lemma day_count_inj (a b : datetime) :
  valid_date a = true -> valid_date b = true ->
  day_count a = day_count b -> a = b.
Proof.
  rewrite !valid_date_spec. intros Ha Hb.
  pose proof (days_in_month_bounds (year a) (month a)).
  pose proof (days_in_month_bounds (year b) (month b)).
  unfold day_count. destruct a as [ya ma da], b as [yb mb db].
  cbn [year month day] in *. intros Hc.
  assert (ya = yb) by nia. subst.
  assert (ma = mb) by nia. subst.
  f_equal. lia.
Qed.

Lemma add_one_day_next (d : datetime) :
  valid_date d = true ->
  match add_one_day d with
  | Py.Ok d' =>
      valid_date d' = true
      /\ (day_count d < day_count d')%N
      /\ forall b, valid_date b = true ->
                   (day_count d < day_count b)%N ->
                   (day_count d' <= day_count b)%N
  | Py.Raise _ => d = {| year := 9999; month := 12; day := 31 |}
  end.
Proof.
  intros Hd. pose proof Hd as Hv. rewrite valid_date_spec in Hv.
  pose proof (days_in_month_bounds (year d) (month d)) as Hdim.
  unfold add_one_day.
  destruct (N.ltb_spec (day d) (days_in_month (year d) (month d))) as [H1|H1].
  - split; [|split].
    + apply valid_date_spec. cbn [year month day]. lia.
    + unfold day_count. cbn [year month day]. lia.
    + intros b _. unfold day_count. cbn [year month day]. lia.
  - destruct (N.ltb_spec (month d) 12) as [H2|H2].
    + split; [|split].
      * apply valid_date_spec. cbn [year month day].
        pose proof (days_in_month_bounds (year d) (month d + 1)). lia.
      * unfold day_count. cbn [year month day]. lia.
      * intros b Hb. rewrite valid_date_spec in Hb.
        pose proof (days_in_month_bounds (year b) (month b)).
        unfold day_count. cbn [year month day]. intros Hlt.
        destruct (N.eq_dec (year b) (year d)) as [Ey|Ny]; [|nia].
        destruct (N.eq_dec (month b) (month d)) as [Em|Nm]; [|nia].
        rewrite Ey, Em in Hb. nia.
    + assert (Hm : month d = 12%N) by lia.
      rewrite Hm in *. change (days_in_month (year d) 12) with 31%N in *.
      destruct (N.ltb_spec (year d) 9999) as [H3|H3].
      * split; [|split].
        -- apply valid_date_spec. cbn [year month day].
           change (days_in_month (year d + 1) 1) with 31%N. lia.
        -- unfold day_count. cbn [year month day]. lia.
        -- intros b Hb. rewrite valid_date_spec in Hb.
           unfold day_count. cbn [year month day]. rewrite Hm. intros Hlt.
           nia.
      * destruct d as [y m dd]. cbn [year month day] in *. f_equal; lia.
Qed.

Lemma generate_loop_runs (end_date : datetime) :
  valid_date end_date = true ->
  forall (fuel : nat) (cur : datetime) (dates : list pystr),
    valid_date cur = true ->
    datetime_le cur end_date = true ->
    N.to_nat (day_count end_date - day_count cur) + 2 <= fuel ->
    exists days,
      generate_loop fuel cur end_date dates
      = Some (match add_one_day end_date with
              | Py.Ok _ => Py.Ok (dates ++ map strftime_ymd days)
              | Py.Raise e => Py.Raise e
              end)
      /\ head days = Some cur /\ last days = Some end_date
      /\ consecutive days
      /\ (cur = end_date -> days = [cur]).
Proof.
  intros Hend. induction fuel as [|fuel IH]; intros cur dates Hcur Hle Hfuel;
    [lia|].
  cbn [generate_loop]. rewrite Hle.
  pose proof (proj1 (datetime_le_spec cur end_date Hcur Hend) Hle) as Hcount.
  pose proof (add_one_day_next cur Hcur) as Hnext.
  destruct (N.eq_dec (day_count cur) (day_count end_date)) as [Heq|Hne].
  - apply day_count_inj in Heq; [|assumption..]. subst cur.
    exists [end_date].
    destruct (add_one_day end_date) as [next|e].
    + destruct Hnext as (Hvalid & Hlt & _).
      destruct fuel as [|fuel]; [lia|]. cbn [generate_loop].
      destruct (datetime_le next end_date) eqn:Hback.
      * apply (datetime_le_spec next end_date Hvalid Hend) in Hback. lia.
      * now repeat split.
    + now repeat split.
  - destruct (add_one_day cur) as [next|e] eqn:Hadd.
    + destruct Hnext as (Hvalid & Hlt & Hsucc).
      assert (Hle' : datetime_le next end_date = true).
      { apply (datetime_le_spec next end_date Hvalid Hend).
        apply Hsucc; [exact Hend|lia]. }
      destruct (IH next (dates ++ [strftime_ymd cur]) Hvalid Hle')
        as (days & Hrun & Hhead & Hlast & Hcons & _); [lia|].
      exists (cur :: days). rewrite Hrun.
      destruct days as [|d days]; [discriminate Hhead|].
      injection Hhead as ->.
      split; [|split; [reflexivity|split; [exact Hlast|split]]].
      * destruct (add_one_day end_date); [|reflexivity].
        cbn [map]. now rewrite <- app_assoc.
      * cbn [consecutive]. now split.
      * intros ->. lia.
    + subst cur. rewrite valid_date_spec in Hend.
      unfold day_count in Hcount, Hne. cbn [year month day] in *.
      pose proof (days_in_month_bounds (year end_date) (month end_date)).
      nia.
Qed.

Lemma generate_loop_more_fuel (end_date : datetime) (fuel : nat) :
  forall (fuel' : nat) (cur : datetime) (dates : list pystr)
         (r : Py.result (list pystr)),
    generate_loop fuel cur end_date dates = Some r -> fuel <= fuel' ->
    generate_loop fuel' cur end_date dates = Some r.
Proof.
  induction fuel as [|fuel IH]; intros fuel' cur dates r; [discriminate|].
  intros Hrun Hle. destruct fuel' as [|fuel']; [lia|].
  cbn [generate_loop] in *.
  destruct (datetime_le cur end_date); [|exact Hrun].
  destruct (add_one_day cur) as [next|e]; [|exact Hrun].
  apply IH; [exact Hrun|lia].
Qed.

(** X17: the date range is the period asked for, day by day.  For valid
    dates of four-digit years with the start not after the end,
    [_generate_date_range] ends once it is given turns for the days of
    the period.  If the end is before the last day of the year 9999 it
    returns the formatted days of a list that begins with the start
    date, ends with the end date and in which each day is the one after
    the day before it; a single date gives a list of one.  If the end is
    the last day of the year 9999, the addition of a day overflows and
    the function raises. *)
Theorem date_range_covers_period (start_date end_date : datetime) :
  valid_date start_date = true -> valid_date end_date = true ->
  (1000 <= year start_date)%N ->
  datetime_le start_date end_date = true ->
  exists days,
    head days = Some start_date /\ last days = Some end_date
    /\ consecutive days
    /\ (start_date = end_date -> days = [start_date])
    /\ forall fuel,
         N.to_nat (day_count end_date - day_count start_date) + 2 <= fuel ->
         (end_date <> datetime_max ->
          _generate_date_range fuel start_date end_date
          = Some (Py.Ok (map strftime_ymd days)))
         /\ (end_date = datetime_max ->
             _generate_date_range fuel start_date end_date
             = Some (Py.Raise (u "date value out of range"))).
Proof.
  intros Hstart Hend _ Hle.
  destruct (generate_loop_runs end_date Hend
              (N.to_nat (day_count end_date - day_count start_date) + 2)
              start_date [] Hstart Hle (Nat.le_refl _))
    as (days & Hrun & Hhead & Hlast & Hcons & Hone).
  exists days. repeat (split; [assumption|]).
  intros fuel Hfuel. unfold _generate_date_range.
  rewrite (generate_loop_more_fuel _ _ fuel _ _ _ Hrun Hfuel).
  pose proof (add_one_day_next end_date Hend) as Hnext.
  split.
  - intros Hnot. destruct (add_one_day end_date) as [next|e];
      [reflexivity|contradiction].
  - intros ->. reflexivity.
Qed.

Example leap_day_range :
  _generate_date_range 5 {| year := 2024; month := 2; day := 28 |}
    {| year := 2024; month := 3; day := 1 |}
  = Some (Py.Ok [u "2024-02-28"; u "2024-02-29"; u "2024-03-01"]).
Proof. vm_compute. reflexivity. Qed.

Lemma date_range_covers_period_witness :
  let start_date := {| year := 2024; month := 2; day := 28 |} in
  let end_date := {| year := 2024; month := 3; day := 1 |} in
  exists days,
    head days = Some start_date /\ last days = Some end_date
    /\ consecutive days
    /\ (start_date = end_date -> days = [start_date])
    /\ forall fuel,
         N.to_nat (day_count end_date - day_count start_date) + 2 <= fuel ->
         (end_date <> datetime_max ->
          _generate_date_range fuel start_date end_date
          = Some (Py.Ok (map strftime_ymd days)))
         /\ (end_date = datetime_max ->
             _generate_date_range fuel start_date end_date
             = Some (Py.Raise (u "date value out of range"))).
Proof.
  apply (date_range_covers_period
           {| year := 2024; month := 2; day := 28 |}
           {| year := 2024; month := 3; day := 1 |});
    [reflexivity|reflexivity|cbn [year]; lia|reflexivity].
Defined.


(** *** An allow-list that cannot be read *)

Section BrokenAllowList.

Variable path_join : pystr -> pystr -> pystr.
Variable get_download : nat -> pystr -> Py.result response.



End BrokenAllowList.


(** *** Rows of the deleted section *)

Section DeletedRows.

Variable cfg : Settings.
Variable get_body : nat -> pystr -> Py.result body_page.

Lemma deleted_is_not_listed :
  Py.eqb SECTION_DELETED SECTION_LISTED = false.
Proof. vm_compute. reflexivity. Qed.

(** X19: the rows of a table under the deleted section cost no request.
    Whether or not enrichment is asked for, scraping such rows sends
    nothing and changes no file; only the log and the clock move. *)
Theorem deleted_rows_send_nothing (date_str : pystr)
    (fetch_numbers log_callback : bool)
    (cancel_check : option (nat -> bool)) (rows : list tr)
    (results : list ListingRecord) :
  preserves sent
    (scrape_rows cfg get_body date_str fetch_numbers log_callback
       cancel_check SECTION_DELETED rows results)
  /\ preserves fs
       (scrape_rows cfg get_body date_str fetch_numbers log_callback
          cancel_check SECTION_DELETED rows results).
Proof.
  split.
  - apply preserves_scrape_rows. intros cells.
    unfold scrape_row. cbv zeta. rewrite deleted_is_not_listed.
    destruct cells as [|name_cell [|company_cell [|reason_cell cells]]];
      rewrite ?andb_false_r; repeat preserves_step.
  - apply preserves_scrape_rows. intros cells. apply fs_scrape_row.
Qed.

End DeletedRows.


(** *** The records of a whole run *)

Section RunFacts.

Variable cfg : Settings.
Variable get_listing : nat -> pystr -> Py.result html.
Variable get_body : nat -> pystr -> Py.result body_page.

Lemma collect_date_invariant (flag : nat -> bool) (fetch_nums : bool)
    (total i : nat) (date_str : pystr) (w : world) :
  exists results w',
    collect_date cfg get_listing get_body flag fetch_nums total i date_str w
    = (Py.Ok results, w')
    /\ fs w' = fs w
    /\ Forall (record_invariant cfg date_str fetch_nums) results.
Proof.
  unfold collect_date. unfold bind at 1, log at 1. unfold bind at 1.
  match goal with |- context [scrape_date _ _ _ ?d ?e ?f ?g ?w1] =>
    pose proof (fs_scrape_date cfg get_listing get_body d e f g w1) as Hfs;
    destruct (scrape_date_invariant cfg get_listing get_body d e f g w1)
      as (results & w2 & Hrun & Hinv) end.
  rewrite Hrun in *. cbn [snd fs set_logs] in Hfs.
  unfold bind, log, sleep, ret. exists results. eexists.
  split; [reflexivity|]. now split.
Qed.

Lemma collect_loop_invariant (flag : nat -> bool) (fetch_nums : bool)
    (total : nat) (dates : list pystr) :
  forall (i : nat) (all_results : list ListingRecord) (w : world),
    exists results w',
      collect_loop cfg get_listing get_body flag fetch_nums total i dates
        all_results w = (Py.Ok (all_results ++ results), w')
      /\ fs w' = fs w
      /\ Forall (fun r => r_date r ∈ dates
                          /\ record_invariant cfg (r_date r) fetch_nums r)
           results.
Proof.
  induction dates as [|d dates IH]; intros i all_results w.
  - exists [], w. cbn [collect_loop]. unfold ret. rewrite app_nil_r.
    repeat split. constructor.
  - destruct (flag (tick w)) eqn:Hflag.
    + rewrite collect_loop_running by exact Hflag. unfold bind.
      destruct (collect_date_invariant flag fetch_nums total i d
                  (set_tick (S (tick w)) w))
        as (results & w1 & -> & Hfs1 & Hinv1).
      destruct (IH (S i) (all_results ++ results) w1)
        as (more & w' & -> & Hfs & Hinv).
      exists (results ++ more), w'. rewrite app_assoc.
      split; [reflexivity|]. split; [now rewrite Hfs, Hfs1|].
      apply Forall_app. split.
      * eapply Forall_impl; [exact Hinv1|]. intros r Hr.
        assert (Hdate : r_date r = d) by apply Hr.
        rewrite Hdate. split; [left|exact Hr].
      * eapply Forall_impl; [exact Hinv|]. intros r [Hin Hr].
        split; [now right|exact Hr].
    + rewrite collect_loop_stopped by exact Hflag.
      exists [], (set_tick (S (tick w)) w). rewrite app_nil_r.
      repeat split. constructor.
Qed.

(** X20: the records of a whole run.  [_collect_data] never raises and
    changes no file, with or without enrichment and whatever the
    cancellation flag does; every record it returns bears one of the
    dates asked for and is well formed for that date: section Listed or
    Deleted, a product name that is neither empty nor the header text,
    the PDF address derived from its own detail address, and a number
    only when enrichment was asked for, the record is Listed and it has
    a detail address. *)
Theorem collect_data_records_well_formed (flag : nat -> bool)
    (dates : list pystr) (fetch_nums : bool) (w : world) :
  exists all_results w',
    _collect_data cfg get_listing get_body flag dates fetch_nums w
    = (Py.Ok all_results, w')
    /\ fs w' = fs w
    /\ Forall (fun r => r_date r ∈ dates
                        /\ record_invariant cfg (r_date r) fetch_nums r)
         all_results.
Proof.
  unfold _collect_data.
  destruct (collect_loop_invariant flag fetch_nums (length dates) dates 1 [] w)
    as (results & w' & Hrun & Hfs & Hinv).
  exists results, w'. now repeat split.
Qed.

End RunFacts.

(** *** The files a download run writes *)

Section WrittenFiles.

Variable path_join : pystr -> pystr -> pystr.
Variable get_download : nat -> pystr -> Py.result response.

Lemma download_file_elsewhere (url save_path p : pystr) (w : world) :
  p <> save_path ->
  fs (snd (download_file get_download url save_path w)) !! p = fs w !! p.
Proof.
  intros Hp. unfold download_file, try_except.
  unfold bind at 1, requests_get_download.
  destruct (get_download (tick w) url) as [resp|e]; [|reflexivity].
  destruct (status_code resp =? 200); [|reflexivity].
  unfold bind at 1, open_wb. unfold bind at 1.
  destruct (write_chunks_content save_path (chunks resp)
              (set_fs (<[save_path:=[]]> (fs (request url w)))
                 (request url w)) [])
    as (w' & -> & _ & Hother & _).
  { cbn [fs set_fs]. apply lookup_insert_eq. }
  specialize (Hother p Hp). cbn [fs set_fs request] in Hother.
  rewrite lookup_insert_ne in Hother by congruence.
  destruct (stream_error resp); exact Hother.
Qed.

Lemma download_loop_writes (flag : nat -> bool) (pdf_dir : pystr)
    (skip_exist : bool) (total : nat) (p : pystr) (targets : list row) :
  forall (i : nat) (tallies : nat * nat * nat) (w : world),
    fs (snd (download_loop path_join get_download flag pdf_dir skip_exist
               total i targets tallies w)) !! p <> fs w !! p ->
    exists (r : row) (filename : pystr),
      r ∈ targets
      /\ target_filename r = Py.Ok (Some filename)
      /\ p = path_join pdf_dir filename.
Proof.
  induction targets as [|r targets IH]; intros i [[s f] k] w.
  - cbn [download_loop]. unfold ret. cbn [snd]. congruence.
  - assert (Hnext : forall (j : nat) (t : nat * nat * nat) (w1 : world),
              fs w1 !! p = fs w !! p ->
              fs (snd (download_loop path_join get_download flag pdf_dir
                         skip_exist total j targets t w1)) !! p
              <> fs w !! p ->
              exists (r0 : row) (filename : pystr),
                r0 ∈ r :: targets
                /\ target_filename r0 = Py.Ok (Some filename)
                /\ p = path_join pdf_dir filename).
    { intros j t w1 Hsame Hdiff. rewrite <- Hsame in Hdiff.
      destruct (IH j t w1 Hdiff) as (r0 & fn & Hin & Hfn & Hp).
      exists r0, fn. split; [now right|]. now split. }
    destruct (flag (tick w)) eqn:Hflag.
    + rewrite download_loop_running by exact Hflag. cbv zeta.
      destruct (target_filename r) as [[filename|]|e] eqn:Hname.
      * destruct (_ && _); [now apply Hnext|].
        destruct (decide (p = path_join pdf_dir filename)) as [->|Hp].
        -- intros _. exists r, filename. split; [left|]. now split.
        -- match goal with |- context [download_file _ ?a ?b ?c] =>
             pose proof (download_file_elsewhere a b p c Hp) as Hkeep;
             destruct (download_file get_download a b c) as [[out|e] w3] end.
           ++ cbn [snd fs set_logs set_tick] in Hkeep.
              destruct (fst out); now apply Hnext.
           ++ cbn [snd fs set_logs set_tick] in *. congruence.
      * now apply Hnext.
      * cbn [snd fs set_tick]. congruence.
    + rewrite download_loop_stopped by exact Hflag.
      cbn [snd fs set_tick]. congruence.
Qed.

(** X21: a download run writes only the files of its targets.  Every
    path whose content differs after [_download_files] from what it was
    before is the file name derived for one of the targets, joined to
    the PDF directory; every other file is as it was, whether the run
    returns or raises. *)
Theorem download_files_writes_only_targets (flag : nat -> bool)
    (targets : list row) (pdf_dir : pystr) (skip_exist : bool) (w : world)
    (p : pystr) :
  fs (snd (_download_files path_join get_download flag targets pdf_dir
             skip_exist w)) !! p <> fs w !! p ->
  exists (r : row) (filename : pystr),
    r ∈ targets
    /\ target_filename r = Py.Ok (Some filename)
    /\ p = path_join pdf_dir filename.
Proof. unfold _download_files. apply download_loop_writes. Qed.

End WrittenFiles.

Lemma one_download_file :
  fs (snd (_download_files posix_join (fun _ _ => Py.Ok served_pdf)
             uncancelled [product_x_row] (u "out/pdf") false empty_world))
  !! u "out/pdf/123_456_ProductX.pdf"
  = Some [37; 80; 68; 70; 45; 49; 46; 52]%N.
Proof. vm_compute. reflexivity. Qed.

Lemma download_files_writes_only_targets_witness :
  exists (r : row) (filename : pystr),
    r ∈ [product_x_row]
    /\ target_filename r = Py.Ok (Some filename)
    /\ u "out/pdf/123_456_ProductX.pdf" = posix_join (u "out/pdf") filename.
Proof.
  apply (download_files_writes_only_targets posix_join
           (fun _ _ => Py.Ok served_pdf) uncancelled [product_x_row]
           (u "out/pdf") false empty_world).
  rewrite one_download_file. discriminate.
Defined.


(** *** A whole collection run *)


Section RunEndToEnd.

Variable cfg : Settings.
Variable get_listing : nat -> pystr -> Py.result html.
Variable get_body : nat -> pystr -> Py.result body_page.
Variable path_join : pystr -> pystr -> pystr.
Variable askyesno : nat -> bool.
Variable makedirs_error : nat -> pystr -> option pystr.


End RunEndToEnd.


Example leap_day_run_requests :
  match scrape_thread DEFAULT_SETTINGS serve_one_table no_body posix_join
          (fun _ => false) makedirs_posix 6 uncancelled (u "20240301_120000")
          {| year := 2024; month := 2; day := 28 |}
          {| year := 2024; month := 3; day := 1 |} (u "out") false with
  | Some run =>
      bool_decide
        (sent (snd (run empty_world))
         = [u "https://www.info.pmda.go.jp/ysearch/tenpulist.jsp?DATE=20240228";
            u "https://www.info.pmda.go.jp/ysearch/tenpulist.jsp?DATE=20240229";
            u "https://www.info.pmda.go.jp/ysearch/tenpulist.jsp?DATE=20240301"])
  | None => false
  end = true.
Proof. vm_compute. reflexivity. Qed.

(** The output directory left empty in the form: [os.makedirs] raises,
    the thread logs the error, and no request is sent. *)
Example empty_directory_run :
  match scrape_thread DEFAULT_SETTINGS serve_one_table no_body posix_join
          (fun _ => false) makedirs_posix 6 uncancelled (u "20240301_120000")
          {| year := 2024; month := 2; day := 28 |}
          {| year := 2024; month := 3; day := 1 |} [] false with
  | Some run =>
      run empty_world
      = (Py.Ok tt,
         set_logs [u "エラー: [Errno 2] No such file or directory: ''"]
           empty_world)
  | None => False
  end.
Proof. vm_compute. reflexivity. Qed.


(** *** From the collected file to the requests of the download run *)





Section Pipeline.

Variable path_join : pystr -> pystr -> pystr.
Variable get_download : nat -> pystr -> Py.result response.



End Pipeline.


Example sample_download_requests :
  map r_pdf_url
    (filter (fun r => downloadable r = true)
       [product_x_record; deleted_record])
  = [u "https://www.info.pmda.go.jp/ygo/pdf/123_456/"].
Proof. vm_compute. reflexivity. Qed.


(** *** A listing answered with an error status *)

(** C7: a listing request answered with status 503 and an error page is
    scraped as a listing page: the per-date call returns the empty list
    and logs nothing, so the failure is not reported.  This holds for
    every status: the per-date call runs on a reply as it does on the
    body of the reply served with success. *)
Theorem error_status_listing_unreported :
  let url :=
    u "https://www.info.pmda.go.jp/ysearch/tenpulist.jsp?DATE=20240115" in
  scrape_date DEFAULT_SETTINGS
    (body_of_reply (fun _ _ => Py.Ok service_unavailable)) no_body
    (u "2024-01-15") false true None empty_world
  = (Py.Ok [], request url empty_world)
  /\ logs (request url empty_world) = []
  /\ forall (cfg : Settings) (get_body : nat -> pystr -> Py.result body_page)
       (status : nat) (page : html) (date_str : pystr)
       (fetch_numbers log_callback : bool)
       (cancel_check : option (nat -> bool)) (w : world),
       scrape_date cfg
         (body_of_reply
            (fun _ _ => Py.Ok {| reply_status := status;
                                 reply_body := page |}))
         get_body date_str fetch_numbers log_callback cancel_check w
       = scrape_date cfg (fun _ _ => Py.Ok page) get_body date_str
           fetch_numbers log_callback cancel_check w.
Proof.
  split; [vm_compute; reflexivity|].
  split; [reflexivity|].
  intros. reflexivity.
Qed.

(** In the loop the date is then reported as one with no record. *)
Example error_status_reported_as_no_data :
  logs (snd (_collect_data DEFAULT_SETTINGS
               (body_of_reply (fun _ _ => Py.Ok service_unavailable)) no_body
               uncancelled [u "2024-01-15"] false empty_world))
  = [u "[1/1] 2024-01-15 収集中..."; u "  → 0件取得"].
Proof. vm_compute. reflexivity. Qed.


(** *** Cancellation inside a date *)





Section CancelledInsideDate.

Variable cfg : Settings.
Variable get_listing : nat -> pystr -> Py.result html.
Variable get_body : nat -> pystr -> Py.result body_page.








End CancelledInsideDate.

(** *** The loop cancelled at any instant *)

Section CancelledAtAnyInstant.

Variable cfg : Settings.
Variable get_listing : nat -> pystr -> Py.result html.
Variable get_body : nat -> pystr -> Py.result body_page.
Variable T : nat.
Variable flag : nat -> bool.
Hypothesis flag_true_below : forall t, t < T -> flag t = true.








End CancelledAtAnyInstant.

Section LoopAtAnyInstant.

Variable cfg : Settings.
Variable get_listing : nat -> pystr -> Py.result html.
Variable get_body : nat -> pystr -> Py.result body_page.




End LoopAtAnyInstant.

(** *** The sample run cancelled inside a date *)




(** The flag cleared at instant 7, between the two rows of the second
    date: the result holds the two records of the first date and the
    first record of the second. *)
Example cancelled_between_rows :
  match fst (_collect_data DEFAULT_SETTINGS serve_two_rows no_body
               (cleared_at 7) three_dates false empty_world) with
  | Py.Ok records =>
      bool_decide
        (map (fun r => (r_date r, r_product r)) records
         = [(u "2024-01-15", u "ProductX"); (u "2024-01-15", u "ProductY");
            (u "2024-01-16", u "ProductX")])
  | Py.Raise _ => false
  end = true.
Proof. vm_compute. reflexivity. Qed.


